(** * Resume parser and ATS scorer: a shallow embedding

    The development follows [src/utils/parser.py] (class [ResumeParser]) and
    [src/utils/ats_scorer.py] (class [ATSScorer]).

    Modelling conventions.
    - A Python [str] is a [string] of bytes, the UTF-8 encoding of the text.
    - What Python does with a character ([str.strip], [str.lower],
      [str.isupper], and [\d], [\s], [\b] and [re.IGNORECASE] in a pattern)
      follows the tables of the Unicode standard.  The parser is therefore
      given twice.  [Lib] has it over any implementation of these library
      calls, a record [library]: what depends on the class of a character is
      proved there, for every library.  [Py], [Re] and [ResumeParser] have
      the library on ASCII text, where a byte above 127 (part of the
      encoding of a character such as the bullet U+2022) is uncased, not a
      digit, not white space and not a word character: it can be run, and
      it is the parser of [Lib] on that library ([ascii_lib_parser]).
    - A Python exception is a value of [exn]; code that indexes, or calls a
      method on a possibly-[None] match object, lives in the [result] monad.
    - A Python [float] is an exact rational ([Q]): the rounding of binary64
      arithmetic is abstracted away, the rounding of [round()] is not.
    - A [dict] whose iteration order is observed ([.values()]) is an
      association list in insertion order; the section mapping, which is only
      looked up, is a [gmap].
    - The scorer is given as functions of the record ([ATSScorer]) and as
      method calls on a store that holds [self] and [resume_data]
      ([ScorerObject]), where the reads of the two objects are explicit. *)

From Stdlib Require Import ZArith QArith Qround Lqa Ascii String List Bool PrimFloat.
From stdpp Require Import base option list gmap strings.
Import ListNotations.

Local Open Scope bool_scope.

(** ** Python values: exceptions, strings, dictionaries *)

Module Py.

Inductive exn : Type :=
| IndexError
| AttributeError
| KeyError
| ValueError (msg : string)
| LibraryError (msg : string).

Inductive result (A : Type) : Type :=
| Ok (a : A)
| Raise (e : exn).
Arguments Ok {A} a.
Arguments Raise {A} e.

Definition bind {A B : Type} (m : result A) (f : A -> result B) : result B :=
  match m with
  | Ok a => f a
  | Raise e => Raise e
  end.

Definition is_ok {A : Type} (m : result A) : bool :=
  match m with Ok _ => true | Raise _ => false end.

(** [l[i]] for a non-negative index. *)
Definition index {A : Type} (l : list A) (i : nat) : result A :=
  match nth_error l i with
  | Some a => Ok a
  | None => Raise IndexError
  end.

(** Truth value of a list: non-empty. *)
Definition nonempty {A : Type} (l : list A) : bool :=
  match l with [] => false | _ :: _ => true end.

(** [l[-1]]. *)
Definition index_last {A : Type} (l : list A) : result A :=
  match rev l with
  | a :: _ => Ok a
  | [] => Raise IndexError
  end.

(** [for x in l: acc = f(acc, x)], stopping at the first exception. *)
Fixpoint foldM {A S : Type} (f : S -> A -> result S) (l : list A) (s : S)
  : result S :=
  match l with
  | [] => Ok s
  | x :: l' => bind (f s x) (foldM f l')
  end.

(** *** Characters

    The classes of the ASCII range.  Python's classes have more members
    beyond it: more white space (U+00A0 among others), more digits, more
    cased letters, more word characters.  The functions of this module and
    the matcher of [Re] are the library on ASCII text; [Lib] has the parser
    over any library. *)

Definition code (c : ascii) : nat := nat_of_ascii c.

Definition is_digit (c : ascii) : bool :=
  (48 <=? code c)%nat && (code c <=? 57)%nat.

Definition is_upper (c : ascii) : bool :=
  (65 <=? code c)%nat && (code c <=? 90)%nat.

Definition is_lower (c : ascii) : bool :=
  (97 <=? code c)%nat && (code c <=? 122)%nat.

Definition is_alpha (c : ascii) : bool := is_upper c || is_lower c.

Definition is_alnum (c : ascii) : bool := is_alpha c || is_digit c.

(** [\w]. *)
Definition is_word (c : ascii) : bool := is_alnum c || Ascii.eqb c "_".

(** White space of [str.strip], [str.split] and [\s]: TAB, LF, VT, FF, CR,
    FS, GS, RS, US and the space. *)
Definition is_space (c : ascii) : bool :=
  ((9 <=? code c)%nat && (code c <=? 13)%nat)
  || ((28 <=? code c)%nat && (code c <=? 32)%nat).

Definition lower_char (c : ascii) : ascii :=
  if is_upper c then ascii_of_nat (code c + 32) else c.

(** *** Strings *)

Local Open Scope string_scope.

Fixpoint lower (s : string) : string :=
  match s with
  | EmptyString => EmptyString
  | String c s' => String (lower_char c) (lower s')
  end.

Fixpoint lstrip (s : string) : string :=
  match s with
  | EmptyString => EmptyString
  | String c s' => if is_space c then lstrip s' else s
  end.

Fixpoint rstrip (s : string) : string :=
  match s with
  | EmptyString => EmptyString
  | String c s' =>
      match rstrip s' with
      | EmptyString => if is_space c then EmptyString else String c EmptyString
      | r => String c r
      end
  end.

Definition strip (s : string) : string := rstrip (lstrip s).

(** Truth value of a string: non-empty. *)
Definition truthy (s : string) : bool :=
  match s with EmptyString => false | String _ _ => true end.

(** [s.startswith(p)]. *)
Definition startswith (s p : string) : bool := String.prefix p s.

(** [needle in hay]. *)
Fixpoint contains (needle hay : string) : bool :=
  String.prefix needle hay
  || match hay with
     | EmptyString => false
     | String _ hay' => contains needle hay'
     end.

(** [s.split(sep)] for a one-character separator: never an empty list. *)
Fixpoint split (sep : ascii) (s : string) : list string :=
  match s with
  | EmptyString => [EmptyString]
  | String c s' =>
      if Ascii.eqb c sep then EmptyString :: split sep s'
      else match split sep s' with
           | [] => [String c EmptyString]
           | w :: ws => String c w :: ws
           end
  end.

(** [s.split(sep, 1)]. *)
Fixpoint split1 (sep : ascii) (s : string) : list string :=
  match s with
  | EmptyString => [EmptyString]
  | String c s' =>
      if Ascii.eqb c sep then [EmptyString; s']
      else match split1 sep s' with
           | [] => [String c EmptyString]
           | w :: ws => String c w :: ws
           end
  end.

(** What follows the first [sep] in [s], when there is one: the second part
    of [s.split(sep, 1)]. *)
Fixpoint after_first (sep : ascii) (s : string) : option string :=
  match s with
  | EmptyString => None
  | String c s' => if Ascii.eqb c sep then Some s' else after_first sep s'
  end.

(** [s.split()]: the maximal runs of characters that are not white space. *)
Fixpoint split_ws_aux (s : string) (word : string) : list string :=
  match s with
  | EmptyString => if truthy word then [word] else []
  | String c s' =>
      if is_space c
      then if truthy word then word :: split_ws_aux s' EmptyString
           else split_ws_aux s' EmptyString
      else split_ws_aux s' (word ++ String c EmptyString)
  end.

Definition split_ws (s : string) : list string := split_ws_aux s EmptyString.

(** [sep.join(l)]. *)
Definition join (sep : string) (l : list string) : string := String.concat sep l.

(** [s.isupper()]: some cased character, and no lower-case one. *)
Fixpoint has_upper (s : string) : bool :=
  match s with
  | EmptyString => false
  | String c s' => is_upper c || has_upper s'
  end.

Fixpoint has_lower (s : string) : bool :=
  match s with
  | EmptyString => false
  | String c s' => is_lower c || has_lower s'
  end.

Definition isupper (s : string) : bool := has_upper s && negb (has_lower s).

(** [s[0]]. *)
Definition first_char (s : string) : result ascii :=
  match s with
  | EmptyString => Raise IndexError
  | String c _ => Ok c
  end.

(** [[line.strip() for line in text.split('\n') if line.strip()]]. *)
Definition stripped_lines (text : string) : list string :=
  List.map strip (List.filter (fun line => truthy (strip line)) (split "010" text)).

(** *** Dictionaries with string keys and string values, in insertion order *)

Definition sdict : Type := list (string * string).

(** [d.get(k, default)]. *)
Fixpoint get (d : sdict) (k : string) (default : string) : string :=
  match d with
  | [] => default
  | (k', v) :: d' => if String.eqb k' k then v else get d' k default
  end.

(** [[str(v) for v in d.values() if v]]. *)
Definition truthy_values (d : sdict) : list string :=
  List.filter truthy (List.map snd d).

End Py.

Notation "'let*' x ':=' m 'in' k" := (Py.bind m (fun x => k))
  (at level 10, x name, m at level 100, k at level 200).

(** ** The fragment of Python's [re] that the parser and the scorer use

    A backtracking matcher with ordered choice and greedy repetition, as
    CPython's engine: the first match in priority order at the left-most
    start position.  Every repetition in the patterns of this program is
    over a character class, so [Rep] takes a predicate. *)

Module Re.

Inductive regex : Type :=
| Eps
| Chr (p : ascii -> bool)
| Cat (r1 r2 : regex)
| Alt (r1 r2 : regex)
| Opt (r : regex)
| Rep (p : ascii -> bool) (lo : nat) (hi : option nat)
| WordB
| Bol.

Definition head_char (s : string) : option ascii :=
  match s with EmptyString => None | String c _ => Some c end.

Definition word_at (c : option ascii) : bool :=
  match c with Some c => Py.is_word c | None => false end.

Definition may_repeat (hi : option nat) : bool :=
  match hi with Some O => false | _ => true end.

Definition dec_hi (hi : option nat) : option nat :=
  match hi with Some n => Some (Nat.pred n) | None => None end.

Section Matcher.
Context {A : Type}.

(** Greedy [p{lo,hi}] followed by the continuation [k]: take one more
    character when allowed, and fall back to stopping here. *)
Fixpoint rep (p : ascii -> bool) (lo : nat) (hi : option nat)
    (prev : option ascii) (s : string)
    (k : option ascii -> string -> option A) : option A :=
  let stop := if Nat.eqb lo 0 then k prev s else None in
  match s with
  | EmptyString => stop
  | String c s' =>
      if p c && may_repeat hi
      then match rep p (Nat.pred lo) (dec_hi hi) (Some c) s' k with
           | Some a => Some a
           | None => stop
           end
      else stop
  end.

(** [run r prev s k]: match [r] at the front of [s], where [prev] is the
    character before it, and hand the rest to [k]. *)
Fixpoint run (r : regex) (prev : option ascii) (s : string)
    (k : option ascii -> string -> option A) : option A :=
  match r with
  | Eps => k prev s
  | Chr p =>
      match s with
      | String c s' => if p c then k (Some c) s' else None
      | EmptyString => None
      end
  | Cat r1 r2 => run r1 prev s (fun prev' s' => run r2 prev' s' k)
  | Alt r1 r2 =>
      match run r1 prev s k with
      | Some a => Some a
      | None => run r2 prev s k
      end
  | Opt r1 =>
      match run r1 prev s k with
      | Some a => Some a
      | None => k prev s
      end
  | Rep p lo hi => rep p lo hi prev s k
  | WordB => if xorb (word_at prev) (word_at (head_char s)) then k prev s else None
  | Bol => match prev with None => k prev s | Some _ => None end
  end.
End Matcher.

(** Pattern constructors. *)

Fixpoint lit (s : string) : regex :=
  match s with
  | EmptyString => Eps
  | String c EmptyString => Chr (Ascii.eqb c)
  | String c s' => Cat (Chr (Ascii.eqb c)) (lit s')
  end.

(** A literal under [re.IGNORECASE]. *)
Fixpoint lit_i (s : string) : regex :=
  let ci c := fun x => Ascii.eqb (Py.lower_char x) (Py.lower_char c) in
  match s with
  | EmptyString => Eps
  | String c EmptyString => Chr (ci c)
  | String c s' => Cat (Chr (ci c)) (lit_i s')
  end.

Fixpoint alts (rs : list regex) : regex :=
  match rs with
  | [] => Chr (fun _ => false)
  | [r] => r
  | r :: rs' => Alt r (alts rs')
  end.

Fixpoint cats (rs : list regex) : regex :=
  match rs with
  | [] => Eps
  | [r] => r
  | r :: rs' => Cat r (cats rs')
  end.

(** [c in set], for a class written as the string of its members. *)
Fixpoint one_of (set : string) (c : ascii) : bool :=
  match set with
  | EmptyString => false
  | String x set' => Ascii.eqb x c || one_of set' c
  end.

(** [.]: anything but a newline. *)
Definition dot (c : ascii) : bool := negb (Ascii.eqb c "010").

Definition star (p : ascii -> bool) : regex := Rep p 0 None.
Definition plus (p : ascii -> bool) : regex := Rep p 1 None.

(** A match: the text before it, the text of group 1 and the whole text,
    and what follows.  [group1] is meaningful for a pattern of the shape
    [(g)rest], given as the pair [g], [rest]. *)
Record rmatch : Type := {
  before : string;
  group1 : string;
  group0 : string;
  after : string;
}.

(** The first [n] characters of [s]. *)
Fixpoint take (n : nat) (s : string) : string :=
  match n, s with
  | S n', String c s' => String c (take n' s')
  | _, _ => EmptyString
  end.

Definition consumed (s rest : string) : string :=
  take (String.length s - String.length rest) s.

(** Match [(g)rest] at the front of [s]. *)
Definition match_here (g rest : regex) (prev : option ascii) (s : string)
  : option (string * string) :=
  run g prev s (fun p1 s1 =>
    run rest p1 s1 (fun _ s2 => Some (consumed s s1, s2))).

(** [re.search]: the left-most match.  [pre] is the text already skipped. *)
Fixpoint search_from (g rest : regex) (prev : option ascii) (pre : string)
    (s : string) : option rmatch :=
  match match_here g rest prev s with
  | Some (g1, s2) =>
      Some {| before := pre; group1 := g1; group0 := consumed s s2; after := s2 |}
  | None =>
      match s with
      | EmptyString => None
      | String c s' => search_from g rest (Some c) (pre ++ String c EmptyString) s'
      end
  end.

Definition search2 (g rest : regex) (s : string) : option rmatch :=
  search_from g rest None EmptyString s.

Definition search (r : regex) (s : string) : option rmatch := search2 Eps r s.

(** [m.group()] on the result of [re.search]: [None] has no such method. *)
Definition group (m : option rmatch) : Py.result string :=
  match m with
  | Some m => Py.Ok (group0 m)
  | None => Py.Raise Py.AttributeError
  end.

(** [re.findall]: the successive non-overlapping matches, left to right,
    each with the text of its group and its whole text.  [skip] counts the
    characters of the last match that are still to be passed; after an
    empty match the scan moves on by one character. *)
Fixpoint findall_at (g rest : regex) (prev : option ascii) (skip : nat)
    (s : string) : list (string * string) :=
  match skip with
  | S skip' =>
      match s with
      | String c s' => findall_at g rest (Some c) skip' s'
      | EmptyString => []
      end
  | O =>
      match match_here g rest prev s with
      | Some (g1, s2) =>
          let whole := consumed s s2 in
          (g1, whole)
          :: match s with
             | String c s' =>
                 findall_at g rest (Some c) (Nat.pred (String.length whole)) s'
             | EmptyString => []
             end
      | None =>
          match s with
          | String c s' => findall_at g rest (Some c) 0 s'
          | EmptyString => []
          end
      end
  end.

(** [re.findall(p, s)] for a pattern without a group: the matched texts. *)
Definition findall (r : regex) (s : string) : list string :=
  List.map snd (findall_at Eps r None 0 s).

(** [re.findall(p, s)] for a pattern [(g)rest] with one group: the texts of
    the group, not of the whole match. *)
Definition findall_group1 (g rest : regex) (s : string) : list string :=
  List.map fst (findall_at g rest None 0 s).

(** [re.sub(p, '', s)] for a pattern anchored with [^]: at most one match,
    at the start. *)
Definition sub_prefix (r : regex) (s : string) : string :=
  match match_here Eps r None s with
  | Some (_, s') => s'
  | None => s
  end.

End Re.

(** ** [src/utils/parser.py]: class [ResumeParser] *)

Module ResumeParser.
Import Py Re.
Local Open Scope string_scope.

Definition bullet : string := "•".

(** *** Patterns *)

(** "\b[A-Za-z0-9._%+-]+@[A-Za-z0-9.-]+\.[A-Z|a-z]{2,}\b" *)
Definition email_pattern : regex :=
  cats [ WordB;
         plus (fun c => is_alnum c || one_of "._%+-" c);
         lit "@";
         plus (fun c => is_alnum c || one_of ".-" c);
         lit ".";
         Rep (fun c => is_alpha c || one_of "|" c) 2 None;
         WordB ].

(** "[\+\(]?[1-9][0-9 .\-\(\)]{8,}[0-9]" *)
Definition phone_pattern : regex :=
  cats [ Opt (Chr (one_of "+("));
         Chr (fun c => is_digit c && negb (Ascii.eqb c "0"));
         Rep (fun c => is_digit c || one_of " .-()" c) 8 None;
         Chr is_digit ].

(** [https?://(?:www\.)?[-a-zA-Z0-9@:%._\+~#=]{1,256}\.[a-zA-Z0-9()]{1,6}\b]
    and then, in a non-capturing group, any number of
    [[-a-zA-Z0-9()@:%_\+.~#?&/=]]. *)
Definition url_pattern : regex :=
  cats [ lit "http"; Opt (lit "s"); lit "://";
         Opt (lit "www.");
         Rep (fun c => is_alnum c || one_of "-@:%._+~#=" c) 1 (Some 256);
         lit ".";
         Rep (fun c => is_alnum c || one_of "()" c) 1 (Some 6);
         WordB;
         star (fun c => is_alnum c || one_of "-()@:%_+.~#?&/=" c) ].

(** The two [degree_patterns], under [re.IGNORECASE]:
    "(Bachelor|Master|Ph\.?D|B\.?S\.?|M\.?S\.?|B\.?A\.?|M\.?A\.?).*" and
    "(B\.Tech|M\.Tech|B\.E\.|M\.E\.)". *)
Definition abbrev (a b : string) : regex :=
  cats [lit_i a; Opt (lit "."); lit_i b; Opt (lit ".")].

Definition degree_patterns : list regex :=
  [ Cat (alts [ lit_i "Bachelor"; lit_i "Master";
                cats [lit_i "Ph"; Opt (lit "."); lit_i "D"];
                abbrev "B" "S"; abbrev "M" "S"; abbrev "B" "A"; abbrev "M" "A" ])
        (star dot);
    alts [lit_i "B.Tech"; lit_i "M.Tech"; lit_i "B.E."; lit_i "M.E."] ].

(** "(19|20)\d{2}" *)
Definition year_pattern : regex :=
  Cat (Alt (lit "19") (lit "20")) (Rep is_digit 2 (Some 2)).

(** "(\d\.\d+)\s*/?(\d\.\d+)?" *)
Definition gpa_pattern : regex :=
  cats [ Chr is_digit; lit "."; plus is_digit;
         star is_space; Opt (lit "/");
         Opt (cats [Chr is_digit; lit "."; plus is_digit]) ].

(** [date_pattern], under [re.IGNORECASE]: the group
    "(Jan|Feb|...|Dec|January|...|December)" and the rest "\s+\d{4}". *)
Definition month_group : regex :=
  alts (List.map lit_i
    [ "Jan"; "Feb"; "Mar"; "Apr"; "May"; "Jun"; "Jul"; "Aug"; "Sep"; "Oct";
      "Nov"; "Dec"; "January"; "February"; "March"; "April"; "May"; "June";
      "July"; "August"; "September"; "October"; "November"; "December" ]).

Definition date_rest : regex := Cat (plus is_space) (Rep is_digit 4 (Some 4)).

(** "^[•\-\*]\s*" *)
Definition bullet_prefix : regex :=
  cats [Bol; Alt (lit bullet) (Chr (one_of "-*")); star is_space].

Definition matches (r : regex) (s : string) : bool :=
  match search r s with Some _ => true | None => false end.

(** [next((x for x in l if p(x)), "")] *)
Definition next_or_empty (p : string -> bool) (l : list string) : string :=
  match List.find p l with
  | Some x => x
  | None => ""
  end.

(** [x in l] for a list of strings. *)
Definition in_list (x : string) (l : list string) : bool :=
  List.existsb (String.eqb x) l.

(** *** Personal information *)

Record PersonalInfo : Type := {
  email : string;
  phone : string;
  name : string;
  linkedin : string;
  github : string;
  portfolio : string;
}.

Definition _extract_personal_info (text : string) : result PersonalInfo :=
  let emails := findall email_pattern text in
  let* email := (if nonempty emails then index emails 0 else Ok "") in
  let phones := findall phone_pattern text in
  let* phone := (if nonempty phones then index phones 0 else Ok "") in
  let lines := stripped_lines text in
  let* name := (if nonempty lines then index lines 0 else Ok "") in
  let urls := findall url_pattern text in
  let linkedin := next_or_empty (fun url => contains "linkedin" (lower url)) urls in
  let github := next_or_empty (fun url => contains "github" (lower url)) urls in
  let portfolio :=
    next_or_empty (fun url => negb (in_list url [linkedin; github])) urls in
  Ok {| email := email; phone := phone; name := name;
        linkedin := linkedin; github := github; portfolio := portfolio |}.

(** *** Sections *)

Definition section_keywords : list (string * list string) :=
  [ ("summary", ["summary"; "profile"; "objective"; "about"]);
    ("education", ["education"; "academic"; "qualification"]);
    ("experience", ["experience"; "employment"; "work history";
                    "professional experience"]);
    ("skills", ["skills"; "technical skills"; "competencies"]);
    ("projects", ["projects"; "portfolio"]);
    ("certifications", ["certifications"; "certificates"; "licenses"]) ].

(** The section whose header [line] is: the first one, in the order of
    [section_keywords], one of whose keywords occurs in the lowered,
    stripped line. *)
Definition header_of (line : string) : option string :=
  let line_lower := strip (lower line) in
  option_map fst
    (List.find (fun '(_, keywords) =>
                  List.existsb (fun keyword => contains keyword line_lower) keywords)
               section_keywords).

Record seg_state : Type := {
  sections : gmap string string;
  current_section : option string;
  section_content : list string;
}.

(** [if current_section and section_content: sections[current_section] = ...] *)
Definition save_section (st : seg_state) : gmap string string :=
  match current_section st, section_content st with
  | Some sec, _ :: _ =>
      if truthy sec
      then <[sec := join "
" (section_content st)]> (sections st)
      else sections st
  | _, _ => sections st
  end.

Definition seg_step (st : seg_state) (line : string) : seg_state :=
  match header_of line with
  | Some sec =>
      {| sections := save_section st;
         current_section := Some sec;
         section_content := [] |}
  | None =>
      match current_section st with
      | Some sec =>
          if truthy sec
          then {| sections := sections st;
                  current_section := current_section st;
                  section_content := (section_content st ++ [line])%list |}
          else st
      | None => st
      end
  end.

Definition seg_init : seg_state :=
  {| sections := ∅; current_section := None; section_content := [] |}.

Definition _split_into_sections (text : string) : gmap string string :=
  save_section (List.fold_left seg_step (split "010" text) seg_init).

(** What the segmenter captures, read off the lines of the text:
    [capture lines k body rest] says that somewhere in [lines] a header line
    of section [k] is followed by the lines [body], none of them a header
    line, and then by [rest]. *)
Definition no_header (line : string) : Prop := header_of line = None.

Definition capture (lines : list string) (k : string) (body rest : list string)
  : Prop :=
  exists pre h,
    lines = (pre ++ h :: body ++ rest)%list
    /\ header_of h = Some k
    /\ Forall no_header body.

Definition at_header (rest : list string) : Prop :=
  exists h rest', rest = h :: rest' /\ header_of h <> None.

(** The lines [body] are all that was captured under one header of [k]:
    they run up to the next header line or to the end of the text. *)
Definition captured (lines : list string) (k : string) (body : list string)
  : Prop :=
  exists rest, capture lines k body rest /\ (rest = [] \/ at_header rest).

(** The invariant of the scan, after the lines [seen]. *)
Record seg_inv (seen : list string) (st : seg_state) : Prop := {
  inv_sections : forall k v,
    sections st !! k = Some v ->
    exists body rest,
      body <> [] /\ capture seen k body rest /\ at_header rest
      /\ v = join "
" body;
  inv_current :
    match current_section st with
    | Some sec =>
        truthy sec = true /\ capture seen sec (section_content st) []
    | None =>
        sections st = ∅ /\ section_content st = [] /\ Forall no_header seen
    end;
}.

(** *** Summary *)

Definition _extract_summary (text : string) : string :=
  if negb (truthy text) then ""
  else
    let sentences := split "." (strip text) in
    strip (join ". " (firstn 3 sentences)) ++ ".".

(** *** Education *)

Record Education : Type := {
  degree : string;
  institution : string;
  graduation_date : string;
  gpa : string;
}.

Definition blank_education : Education :=
  {| degree := ""; institution := ""; graduation_date := ""; gpa := "" |}.

(** The scan state: the list [education] and [current_entry], where [None]
    is the empty dictionary. *)
Definition edu_state : Type := (list Education * option Education)%type.

Definition is_degree_line (line : string) : bool :=
  List.existsb (fun pattern => matches pattern line) degree_patterns.

(** The loop over [degree_patterns]: flush and start an entry at the first
    pattern found in the line. *)
Definition edu_degree (st : edu_state) (line : string) : edu_state :=
  let '(education, current_entry) := st in
  if is_degree_line line
  then
    let education :=
      match current_entry with
      | Some e => (education ++ [e])%list
      | None => education
      end in
    (education,
     Some {| degree := line; institution := ""; graduation_date := ""; gpa := "" |})
  else st.

Definition edu_year (cur : option Education) (line : string)
  : result (option Education) :=
  let year_match := search year_pattern line in
  match year_match, cur with
  | Some _, Some e =>
      let* y := group year_match in
      Ok (Some {| degree := degree e; institution := institution e;
                  graduation_date := y; gpa := gpa e |})
  | _, _ => Ok cur
  end.

Definition edu_gpa (cur : option Education) (line : string)
  : result (option Education) :=
  let gpa_match := search gpa_pattern line in
  match gpa_match, cur with
  | Some _, Some e =>
      if negb (truthy (gpa e))
      then
        let* g := group gpa_match in
        Ok (Some {| degree := degree e; institution := institution e;
                    graduation_date := graduation_date e; gpa := g |})
      else Ok cur
  | _, _ => Ok cur
  end.

Definition edu_institution (cur : option Education) (line : string)
  : option Education :=
  match cur with
  | Some e =>
      if negb (matches year_pattern line) && negb (contains line (degree e))
      then
        if negb (truthy (institution e))
        then Some {| degree := degree e; institution := line;
                     graduation_date := graduation_date e; gpa := gpa e |}
        else cur
      else cur
  | None => None
  end.

(** One iteration of [for line in lines]. *)
Definition edu_step (st : edu_state) (line : string) : result edu_state :=
  let '(education, cur) := edu_degree st line in
  let* cur := edu_year cur line in
  let* cur := edu_gpa cur line in
  Ok (education, edu_institution cur line).

Definition edu_finish (st : edu_state) : list Education :=
  let '(education, current_entry) := st in
  let education :=
    match current_entry with
    | Some e => (education ++ [e])%list
    | None => education
    end in
  if nonempty education then education else [blank_education].

Definition _extract_education (text : string) : result (list Education) :=
  let education := [] in
  if negb (truthy text) then Ok education
  else
    let lines := stripped_lines text in
    let* st := foldM edu_step lines (education, None) in
    Ok (edu_finish st).

(** The year token of a line, when it has one: the text of
    [re.search(r'(19|20)\d{2}', line)]. *)
Definition year_token (line : string) : option string :=
  option_map group0 (search year_pattern line).

(** The year token of the first line that has one. *)
Fixpoint first_year_token (lines : list string) : option string :=
  match lines with
  | [] => None
  | line :: lines' =>
      match year_token line with
      | Some y => Some y
      | None => first_year_token lines'
      end
  end.

(** *** Experience *)

Record Experience : Type := {
  title : string;
  company : string;
  start_date : string;
  end_date : string;
  responsibilities : string;
}.

(** An entry during the scan: [responsibilities] is still a list. *)
Record ExperienceEntry : Type := {
  e_title : string;
  e_company : string;
  e_start_date : string;
  e_end_date : string;
  e_responsibilities : list string;
}.

Definition blank_experience : Experience :=
  {| title := ""; company := ""; start_date := ""; end_date := "";
     responsibilities := "" |}.

Definition exp_state : Type := (list ExperienceEntry * option ExperienceEntry)%type.

Definition is_date_line (line : string) : bool :=
  match search2 month_group date_rest line with Some _ => true | None => false end.

Definition is_bullet_line (line : string) : bool :=
  startswith line bullet || startswith line "-" || startswith line "*".

Definition add_responsibility (e : ExperienceEntry) (line : string) : ExperienceEntry :=
  {| e_title := e_title e; e_company := e_company e;
     e_start_date := e_start_date e; e_end_date := e_end_date e;
     e_responsibilities := (e_responsibilities e ++ [line])%list |}.

Definition exp_step (st : exp_state) (line : string) : result exp_state :=
  let '(experience, current_entry) := st in
  if is_date_line line
  then
    let experience :=
      match current_entry with
      | Some e => (experience ++ [e])%list
      | None => experience
      end in
    let dates := findall_group1 month_group date_rest line in
    let* d0 := (if nonempty dates then index dates 0 else Ok "") in
    let* d1 := (if (1 <? List.length dates)%nat then index dates 1 else Ok "Present") in
    Ok (experience,
        Some {| e_title := ""; e_company := ""; e_start_date := d0;
                e_end_date := d1; e_responsibilities := [] |})
  else
    match current_entry with
    | Some e =>
        if is_bullet_line line
        then Ok (experience, Some (add_responsibility e line))
        else if negb (truthy (e_title e))
        then Ok (experience,
                 Some {| e_title := line; e_company := e_company e;
                         e_start_date := e_start_date e; e_end_date := e_end_date e;
                         e_responsibilities := e_responsibilities e |})
        else if negb (truthy (e_company e))
        then Ok (experience,
                 Some {| e_title := e_title e; e_company := line;
                         e_start_date := e_start_date e; e_end_date := e_end_date e;
                         e_responsibilities := e_responsibilities e |})
        else Ok (experience, Some (add_responsibility e line))
    | None => Ok st
    end.

(** [exp['responsibilities'] = '\n'.join(exp['responsibilities'])] *)
Definition format_experience (e : ExperienceEntry) : Experience :=
  {| title := e_title e; company := e_company e;
     start_date := e_start_date e; end_date := e_end_date e;
     responsibilities := join "
" (e_responsibilities e) |}.

Definition exp_finish (st : exp_state) : list Experience :=
  let '(experience, current_entry) := st in
  let experience :=
    match current_entry with
    | Some e => (experience ++ [e])%list
    | None => experience
    end in
  let experience := List.map format_experience experience in
  if nonempty experience then experience else [blank_experience].

Definition _extract_experience (text : string) : result (list Experience) :=
  let experience := [] in
  if negb (truthy text) then Ok experience
  else
    let lines := stripped_lines text in
    let* st := foldM exp_step lines ([], None) in
    Ok (exp_finish st).

(** *** Skills *)

Record Skills : Type := {
  technical : string;
  soft : string;
}.

Definition skill_lines (text : string) : list string :=
  List.map (fun line => sub_prefix bullet_prefix (strip line))
    (List.filter
       (fun line =>
          let line := strip line in
          truthy line
          && negb (List.existsb (fun header => contains header (lower line))
                     ["skills"; "technical"; "soft"]))
       (split "010" text)).

Definition parser_technical_keywords : list string :=
  ["python"; "java"; "javascript"; "react"; "sql"; "aws"; "docker"; "git"].

Definition is_technical (skill : string) : bool :=
  List.existsb (fun keyword => contains keyword (lower skill)) parser_technical_keywords.

Definition _extract_skills (text : string) : Skills :=
  if negb (truthy text) then {| technical := ""; soft := "" |}
  else
    let skills_list := skill_lines text in
    let all_skills := join ", " skills_list in
    let technical := List.filter is_technical skills_list in
    let soft := List.filter (fun skill => negb (is_technical skill)) skills_list in
    {| technical := if nonempty technical then join ", " technical else all_skills;
       soft := if nonempty soft then join ", " soft else "" |}.

(** *** Projects *)

Record Project : Type := {
  p_name : string;
  description : string;
  technologies : string;
}.

Definition blank_project : Project :=
  {| p_name := ""; description := ""; technologies := "" |}.

Definition proj_state : Type := (list Project * option Project)%type.

(** [line.isupper() or (line[0].isupper() and not line.startswith(('•', '-', '*')))] *)
Definition is_new_project (line : string) : result bool :=
  if isupper line then Ok true
  else
    let* c := first_char line in
    Ok (is_upper c && negb (is_bullet_line line)).

Definition is_tech_line (line : string) : bool :=
  contains "technologies" (lower line) || contains "tech stack" (lower line).

Definition proj_step (st : proj_state) (line : string) : result proj_state :=
  let '(projects, current_project) := st in
  let* fresh := is_new_project line in
  if fresh
  then
    let projects :=
      match current_project with
      | Some p => (projects ++ [p])%list
      | None => projects
      end in
    Ok (projects, Some {| p_name := line; description := ""; technologies := "" |})
  else
    match current_project with
    | Some p =>
        if is_tech_line line
        then
          let* t := index_last (split1 ":" line) in
          Ok (projects,
              Some {| p_name := p_name p; description := description p;
                      technologies := strip t |})
        else
          Ok (projects,
              Some {| p_name := p_name p;
                      description := description p ++ line ++ " ";
                      technologies := technologies p |})
    | None => Ok st
    end.

Definition proj_finish (st : proj_state) : list Project :=
  let '(projects, current_project) := st in
  let projects :=
    match current_project with
    | Some p => (projects ++ [p])%list
    | None => projects
    end in
  if nonempty projects then projects else [blank_project].

Definition _extract_projects (text : string) : result (list Project) :=
  let projects := [] in
  if negb (truthy text) then Ok projects
  else
    let lines := stripped_lines text in
    let* st := foldM proj_step lines ([], None) in
    Ok (proj_finish st).

(** *** The whole record *)

Record ParsedResume : Type := {
  r_personal_info : PersonalInfo;
  r_summary : string;
  r_education : list Education;
  r_experience : list Experience;
  r_skills : Skills;
  r_projects : list Project;
  raw_text : string;
}.

(** [sections.get(key, '')] *)
Definition section (sections : gmap string string) (key : string) : string :=
  default "" (sections !! key).

Definition _parse_text (text : string) : result ParsedResume :=
  let* personal_info := _extract_personal_info text in
  let sections := _split_into_sections text in
  let* education := _extract_education (section sections "education") in
  let* experience := _extract_experience (section sections "experience") in
  let skills := _extract_skills (section sections "skills") in
  let* projects := _extract_projects (section sections "projects") in
  let summary := _extract_summary (section sections "summary") in
  Ok {| r_personal_info := personal_info; r_summary := summary;
        r_education := education; r_experience := experience;
        r_skills := skills; r_projects := projects; raw_text := text |}.

(** *** Reading the uploaded file

    [PyPDF2.PdfReader] and [docx.Document] are libraries: each either raises
    or yields the texts of the pages, respectively paragraphs, of the file.
    A call of either is an observable event. *)

Record UploadedFile : Type := {
  file_name : string;
  file_bytes : string;
}.

Inductive event : Type :=
| PdfReader_called (file : UploadedFile)
| Document_called (file : UploadedFile).

Section Containers.
Variable pdf_pages : UploadedFile -> result (list string).
Variable docx_paragraphs : UploadedFile -> result (list string).

(** [text = ""; for x in xs: text += x + "\n"] *)
Definition concat_lines (xs : list string) : string :=
  List.fold_left (fun text x => text ++ x ++ "
") xs "".

Definition _extract_pdf_text (file : UploadedFile) : list event * result string :=
  ([PdfReader_called file],
   let* pages := pdf_pages file in Ok (concat_lines pages)).

Definition _extract_docx_text (file : UploadedFile) : list event * result string :=
  ([Document_called file],
   let* paragraphs := docx_paragraphs file in Ok (concat_lines paragraphs)).

(** [uploaded_file.name.split('.')[-1].lower()] *)
Definition file_type_of (file : UploadedFile) : result string :=
  let* ext := index_last (split "." (file_name file)) in
  Ok (lower ext).

Definition parse_file (uploaded_file : UploadedFile)
  : list event * result ParsedResume :=
  match file_type_of uploaded_file with
  | Raise e => ([], Raise e)
  | Ok file_type =>
      if String.eqb file_type "pdf"
      then
        let '(events, text) := _extract_pdf_text uploaded_file in
        (events, let* text := text in _parse_text text)
      else if in_list file_type ["docx"; "doc"]
      then
        let '(events, text) := _extract_docx_text uploaded_file in
        (events, let* text := text in _parse_text text)
      else ([], Raise (ValueError "Unsupported file format"))
  end.
End Containers.

End ResumeParser.

(** ** [src/utils/ats_scorer.py]: class [ATSScorer] *)

Module ATSScorer.
Import Py Re.
Local Open Scope string_scope.

(** *** The resume record, as the scorer reads it

    Every key may be missing ([None]: the scorer always goes through
    [.get]), and [skills] comes in two shapes. *)

Inductive skills_value : Type :=
| SkillsDict (d : sdict)
| SkillsStr (s : string).

Record ResumeRecord : Type := {
  personal_info : option sdict;
  summary : option string;
  education : option (list sdict);
  experience : option (list sdict);
  skills : option skills_value;
  projects : option (list sdict);
}.

(** Truth values of [resume_data.get(key)]. *)
Definition str_truthy (v : option string) : bool :=
  match v with Some s => truthy s | None => false end.

Definition list_truthy {A : Type} (v : option (list A)) : bool :=
  match v with Some l => nonempty l | None => false end.

Definition skills_truthy (v : option skills_value) : bool :=
  match v with
  | Some (SkillsDict d) => nonempty d
  | Some (SkillsStr s) => truthy s
  | None => false
  end.

(** [resume_data[key]]: a missing key raises. *)
Definition subscript {A : Type} (v : option A) : result A :=
  match v with Some a => Ok a | None => Raise KeyError end.

(** [d.get(key)] used as a condition: a missing key gives [None], falsy. *)
Definition has (d : sdict) (key : string) : bool := truthy (get d key "").

(** *** The vocabularies of [__init__] *)

Definition technical_keywords : list string :=
  [ "python"; "java"; "javascript"; "react"; "angular"; "vue"; "node";
    "sql"; "nosql"; "mongodb"; "postgresql"; "mysql"; "aws"; "azure";
    "docker"; "kubernetes"; "git"; "ci/cd"; "agile"; "scrum"; "devops";
    "machine learning"; "ai"; "data science"; "analytics"; "api"; "rest";
    "microservices"; "cloud"; "linux"; "windows"; "ios"; "android" ].

Definition action_verbs : list string :=
  [ "achieved"; "improved"; "developed"; "created"; "designed"; "built";
    "implemented"; "managed"; "led"; "increased"; "decreased"; "reduced";
    "optimized"; "enhanced"; "streamlined"; "automated"; "delivered";
    "launched"; "established"; "collaborated"; "coordinated"; "facilitated" ].

Definition soft_skills : list string :=
  [ "leadership"; "communication"; "teamwork"; "problem-solving";
    "analytical"; "creative"; "adaptable"; "detail-oriented";
    "time management"; "critical thinking"; "collaboration" ].

(** *** [_get_all_text] *)

Definition _get_all_text (resume_data : ResumeRecord) : result string :=
  let personal := default [] (personal_info resume_data) in
  let text_parts := truthy_values personal in
  let* text_parts :=
    (if str_truthy (summary resume_data)
     then let* s := subscript (summary resume_data) in Ok (text_parts ++ [s])%list
     else Ok text_parts) in
  let text_parts :=
    (text_parts ++ List.concat (List.map truthy_values
                                  (default [] (education resume_data))))%list in
  let text_parts :=
    (text_parts ++ List.concat (List.map truthy_values
                                  (default [] (experience resume_data))))%list in
  let text_parts :=
    match default (SkillsDict []) (skills resume_data) with
    | SkillsDict d => (text_parts ++ truthy_values d)%list
    | SkillsStr s => (text_parts ++ [s])%list
    end in
  let text_parts :=
    (text_parts ++ List.concat (List.map truthy_values
                                  (default [] (projects resume_data))))%list in
  Ok (join " " text_parts).

(** *** The five sub-scores *)

Local Open Scope Z_scope.

Definition _score_format_structure (resume_data : ResumeRecord) : Z :=
  let score := 0 in
  let personal_info := default [] (personal_info resume_data) in
  let score := if has personal_info "name" then score + 20 else score in
  let score := if has personal_info "email" then score + 20 else score in
  let score := if has personal_info "phone" then score + 20 else score in
  let score :=
    if has personal_info "linkedin" || has personal_info "github"
    then score + 20 else score in
  let score := if str_truthy (summary resume_data) then score + 10 else score in
  let score := if list_truthy (education resume_data) then score + 5 else score in
  let score := if list_truthy (experience resume_data) then score + 5 else score in
  Z.min score 100.

(** [sum(1 for w in vocabulary if w in all_text)] *)
Definition count_present (vocabulary : list string) (all_text : string) : Z :=
  Z.of_nat (List.length (List.filter (fun w => contains w all_text) vocabulary)).

(** [min(x, 100)] on a float and an integer: [100] only when it is smaller. *)
Definition cap100 (x : Q) : Q := if Qle_bool x 100 then x else 100%Q.

(** [min((count / per) * 100, 100)] *)
Definition ratio_score (count per : Z) : Q :=
  cap100 ((inject_Z count / inject_Z per) * 100)%Q.

Definition _score_keywords (resume_data : ResumeRecord) : result Q :=
  let* all_text := _get_all_text resume_data in
  let all_text := lower all_text in
  let tech_count := count_present technical_keywords all_text in
  let tech_score := ratio_score tech_count 10 in
  let action_count := count_present action_verbs all_text in
  let action_score := ratio_score action_count 8 in
  let soft_count := count_present soft_skills all_text in
  let soft_score := ratio_score soft_count 5 in
  Ok (tech_score * 0.5 + action_score * 0.3 + soft_score * 0.2)%Q.

(** [len(s.split())] *)
Definition word_count (s : string) : Z := Z.of_nat (List.length (split_ws s)).

Definition _score_content_quality (resume_data : ResumeRecord) : Z :=
  let score := 0 in
  let summary := default "" (summary resume_data) in
  let score :=
    if truthy summary
    then
      let words := word_count summary in
      if (30 <=? words) && (words <=? 100) then score + 25
      else if 0 <? words then score + 15
      else score
    else score in
  let experiences := default [] (experience resume_data) in
  let score :=
    if nonempty experiences
    then
      let total_length :=
        List.fold_left
          (fun total_length exp => total_length + word_count (get exp "responsibilities" ""))
          experiences 0 in
      if 100 <? total_length then score + 30
      else if 50 <? total_length then score + 20
      else if 0 <? total_length then score + 10
      else score
    else score in
  let projects := default [] (projects resume_data) in
  let score :=
    if nonempty projects && List.existsb (fun p => has p "description") projects
    then score + 25 else score in
  let score :=
    match default (SkillsDict []) (skills resume_data) with
    | SkillsDict skills =>
        if has skills "technical" && has skills "soft" then score + 20
        else if has skills "technical" || has skills "soft" then score + 10
        else score
    | SkillsStr _ => score
    end in
  Z.min score 100.

(** [resume_data.get(key) and len(resume_data[key]) > 0] *)
Definition has_entries (v : option (list sdict)) : result bool :=
  if list_truthy v
  then let* l := subscript v in Ok (0 <? Z.of_nat (List.length l))
  else Ok false.

Definition _score_completeness (resume_data : ResumeRecord) : result Z :=
  let score := 0 in
  let score :=
    if has (default [] (personal_info resume_data)) "name"
    then score + 20 else score in
  let score := if str_truthy (summary resume_data) then score + 15 else score in
  let* has_education := has_entries (education resume_data) in
  let score := if has_education then score + 20 else score in
  let* has_experience := has_entries (experience resume_data) in
  let score := if has_experience then score + 25 else score in
  let score := if skills_truthy (skills resume_data) then score + 20 else score in
  Ok (Z.min score 100).

(** The patterns "\d+%", "\$\d+" and "\d+\+". *)
Definition number_patterns : list regex :=
  [ Cat (plus is_digit) (lit "%");
    Cat (lit "$") (plus is_digit);
    Cat (plus is_digit) (lit "+") ].

(** [word.*\d+] and [\d+.*word] *)
Definition then_number (word : string) : regex :=
  cats [lit word; star dot; plus is_digit].

Definition number_then (word : string) : regex :=
  cats [plus is_digit; star dot; lit word].

Definition achievement_patterns : list regex :=
  [ then_number "increased"; then_number "decreased"; then_number "improved";
    then_number "reduced"; then_number "saved"; then_number "generated";
    number_then "users"; number_then "customers"; number_then "projects" ].

Definition count_matches (patterns : list regex) (text : string) : Z :=
  List.fold_left
    (fun n pattern => n + Z.of_nat (List.length (findall pattern text)))
    patterns 0.

Definition metrics_score (total_metrics : Z) : Z :=
  if 10 <=? total_metrics then 100
  else if 7 <=? total_metrics then 85
  else if 5 <=? total_metrics then 70
  else if 3 <=? total_metrics then 50
  else if 1 <=? total_metrics then 30
  else 0.

Definition _score_quantifiable_results (resume_data : ResumeRecord) : result Z :=
  let* all_text := _get_all_text resume_data in
  let numbers := count_matches number_patterns all_text in
  let achievements := count_matches achievement_patterns (lower all_text) in
  let total_metrics := numbers + achievements in
  Ok (metrics_score total_metrics).

(** *** Feedback *)

Record Scores : Type := {
  format_structure : Z;
  keyword_optimization : Q;
  content_quality : Z;
  completeness : Z;
  quantifiable_results : Z;
}.

(** [x < n] and [x >= n] for a float [x]. *)
Definition Qlt_bool (x y : Q) : bool := negb (Qle_bool y x).

Definition all_at_least_70 (scores : Scores) : bool :=
  (70 <=? format_structure scores)
  && Qle_bool 70 (keyword_optimization scores)
  && (70 <=? content_quality scores)
  && (70 <=? completeness scores)
  && (70 <=? quantifiable_results scores).

Definition missing_sections (resume_data : ResumeRecord) : list string :=
  ((if negb (str_truthy (summary resume_data)) then ["Professional Summary"] else [])
   ++ (if negb (list_truthy (projects resume_data)) then ["Projects"] else []))%list.

Definition _generate_feedback (scores : Scores) (resume_data : ResumeRecord)
  : list string :=
  let feedback :=
    ((if format_structure scores <? 70
      then ["âš ï¸ Consider adding more contact information (email, phone, LinkedIn)"]
      else [])
     ++ (if Qlt_bool (keyword_optimization scores) 70
         then ["ðŸ“ Add more relevant technical keywords and action verbs to improve ATS visibility";
               "ðŸ’¡ Use strong action verbs like 'achieved', 'implemented', 'led', 'optimized'"]
         else [])
     ++ (if content_quality scores <? 70
         then ["âœï¸ Expand your experience descriptions with more details and context";
               "ðŸŽ¯ Consider adding a professional summary (30-100 words)"]
         else [])
     ++ (if (completeness scores <? 80) && nonempty (missing_sections resume_data)
         then [("ðŸ“‹ Consider adding: " ++ join ", " (missing_sections resume_data))%string]
         else [])
     ++ (if quantifiable_results scores <? 60
         then ["ðŸ“Š Add more quantifiable achievements (e.g., 'Increased efficiency by 30%', 'Managed team of 5')";
               "ðŸ’¯ Use numbers, percentages, and metrics to demonstrate impact"]
         else [])
     ++ (if all_at_least_70 scores
         then ["âœ¨ Great job! Your resume is well-structured and ATS-friendly"]
         else [])
     ++ (if 80 <=? quantifiable_results scores
         then ["ðŸŽ‰ Excellent use of quantifiable achievements!"]
         else []))%list in
  if nonempty feedback then feedback else ["âœ… Your resume looks great!"].

(** *** [calculate_score] *)

(** [round(x)] on a float: the nearest integer, a tie going to the even
    one. *)
Definition py_round (x : Q) : Z :=
  let n := Qfloor x in
  match Qcompare (x - inject_Z n) (1 # 2) with
  | Lt => n
  | Gt => n + 1
  | Eq => if Z.even n then n else n + 1
  end.

(** Rounding to the nearest integer with a tie going up, for comparison
    with [py_round]. *)
Definition round_half_up (x : Q) : Z := Qfloor (x + (1 # 2)).

Definition sub_scores (resume_data : ResumeRecord) : result Scores :=
  let format_structure := _score_format_structure resume_data in
  let* keyword_optimization := _score_keywords resume_data in
  let content_quality := _score_content_quality resume_data in
  let* completeness := _score_completeness resume_data in
  let* quantifiable_results := _score_quantifiable_results resume_data in
  Ok {| format_structure := format_structure;
        keyword_optimization := keyword_optimization;
        content_quality := content_quality;
        completeness := completeness;
        quantifiable_results := quantifiable_results |}.

(** [sum(scores[key] * weights[key] for key in scores)] *)
Definition weighted_sum (scores : Scores) : Q :=
  (0 + inject_Z (format_structure scores) * 0.20
     + keyword_optimization scores * 0.25
     + inject_Z (content_quality scores) * 0.20
     + inject_Z (completeness scores) * 0.20
     + inject_Z (quantifiable_results scores) * 0.15)%Q.

Definition calculate_score (resume_data : ResumeRecord)
  : result (Z * list string) :=
  let* scores := sub_scores resume_data in
  let total_score := weighted_sum scores in
  let feedback := _generate_feedback scores resume_data in
  Ok (py_round total_score, feedback).

(** The weighted sum of [calculate_score] in binary64 arithmetic, added
    from left to right on the five sub-scores as floats (the weights are
    the nearest binary64 numbers): a check that the exact sum of
    [weighted_sum] is also what the machine computes where the tie
    matters. *)
#[local] Set Warnings "-inexact-float".
Definition weighted_sum_binary64 (f k c p q : float) : float :=
  (0 + f * 0.20 + k * 0.25 + c * 0.20 + p * 0.20 + q * 0.15)%float.
#[local] Set Warnings "inexact-float".

End ATSScorer.

(** ** The scorer as an object

    [calculate_score] and the methods it calls can reach two objects, the
    scorer [self] and the dictionary [resume_data], and both can be
    changed in place.  Here every method takes the store that holds the
    two objects and gives it back with its result: reading an attribute of
    [self], [resume_data.get(key)] and [resume_data[key]] are the
    operations on the store that the methods perform. *)

Module ScorerObject.
Import Py Re ATSScorer.
Local Open Scope string_scope.

(** The attributes that [__init__] sets. *)
Record scorer : Type := {
  self_technical_keywords : list string;
  self_action_verbs : list string;
  self_soft_skills : list string;
}.

Definition __init__ : scorer :=
  {| self_technical_keywords := technical_keywords;
     self_action_verbs := action_verbs;
     self_soft_skills := soft_skills |}.

Record store : Type := {
  self : scorer;
  resume_data : ResumeRecord;
}.

(** [scorer = ATSScorer()], and a record to score. *)
Definition new_store (data : ResumeRecord) : store :=
  {| self := __init__; resume_data := data |}.

(** A method call: from a store to a result, or an exception, and a
    store. *)
Definition call (A : Type) : Type := store -> result A * store.

Definition ret {A : Type} (a : A) : call A := fun st => (Ok a, st).

Definition bind_call {A B : Type} (m : call A) (k : A -> call B) : call B :=
  fun st =>
    match m st with
    | (Ok a, st') => k a st'
    | (Raise e, st') => (Raise e, st')
    end.

Notation "'let!' x ':=' m 'in' k" := (bind_call m (fun x => k))
  (at level 10, x name, m at level 100, k at level 200).

(** [self.attribute] *)
Definition attr {A : Type} (attribute : scorer -> A) : call A :=
  fun st => (Ok (attribute (self st)), st).

(** [resume_data.get(key, default)], and the truth value of
    [resume_data.get(key)]: [read] is the function of the key's value. *)
Definition data_get {A B : Type} (key : ResumeRecord -> option A)
    (read : option A -> B) : call B :=
  fun st => (Ok (read (key (resume_data st))), st).

(** [resume_data[key]] *)
Definition data_item {A : Type} (key : ResumeRecord -> option A) : call A :=
  fun st => (subscript (key (resume_data st)), st).

(** *** [_get_all_text] *)

Definition _get_all_text : call string :=
  let text_parts := [] in
  let! personal := data_get personal_info (default []) in
  let text_parts := (text_parts ++ truthy_values personal)%list in
  let! summary_set := data_get summary str_truthy in
  let! text_parts :=
    (if summary_set
     then let! s := data_item summary in ret (text_parts ++ [s])%list
     else ret text_parts) in
  let! entries := data_get education (default []) in
  let text_parts :=
    (text_parts ++ List.concat (List.map truthy_values entries))%list in
  let! entries := data_get experience (default []) in
  let text_parts :=
    (text_parts ++ List.concat (List.map truthy_values entries))%list in
  let! skills := data_get skills (default (SkillsDict [])) in
  let text_parts :=
    match skills with
    | SkillsDict d => (text_parts ++ truthy_values d)%list
    | SkillsStr s => (text_parts ++ [s])%list
    end in
  let! entries := data_get projects (default []) in
  let text_parts :=
    (text_parts ++ List.concat (List.map truthy_values entries))%list in
  ret (join " " text_parts).

(** *** The five sub-scores *)

Local Open Scope Z_scope.

Definition _score_format_structure : call Z :=
  let score := 0 in
  let! personal_info := data_get personal_info (default []) in
  let score := if has personal_info "name" then score + 20 else score in
  let score := if has personal_info "email" then score + 20 else score in
  let score := if has personal_info "phone" then score + 20 else score in
  let score :=
    if has personal_info "linkedin" || has personal_info "github"
    then score + 20 else score in
  let! summary_set := data_get summary str_truthy in
  let score := if summary_set then score + 10 else score in
  let! education_set := data_get education list_truthy in
  let score := if education_set then score + 5 else score in
  let! experience_set := data_get experience list_truthy in
  let score := if experience_set then score + 5 else score in
  ret (Z.min score 100).

Definition _score_keywords : call Q :=
  let! all_text := _get_all_text in
  let all_text := lower all_text in
  let! vocabulary := attr self_technical_keywords in
  let tech_count := count_present vocabulary all_text in
  let tech_score := ratio_score tech_count 10 in
  let! vocabulary := attr self_action_verbs in
  let action_count := count_present vocabulary all_text in
  let action_score := ratio_score action_count 8 in
  let! vocabulary := attr self_soft_skills in
  let soft_count := count_present vocabulary all_text in
  let soft_score := ratio_score soft_count 5 in
  ret (tech_score * 0.5 + action_score * 0.3 + soft_score * 0.2)%Q.

Definition _score_content_quality : call Z :=
  let score := 0 in
  let! summary := data_get summary (default "") in
  let score :=
    if truthy summary
    then
      let words := word_count summary in
      if (30 <=? words) && (words <=? 100) then score + 25
      else if 0 <? words then score + 15
      else score
    else score in
  let! experiences := data_get experience (default []) in
  let score :=
    if nonempty experiences
    then
      let total_length :=
        List.fold_left
          (fun total_length exp => total_length + word_count (get exp "responsibilities" ""))
          experiences 0 in
      if 100 <? total_length then score + 30
      else if 50 <? total_length then score + 20
      else if 0 <? total_length then score + 10
      else score
    else score in
  let! projects := data_get projects (default []) in
  let score :=
    if nonempty projects && List.existsb (fun p => has p "description") projects
    then score + 25 else score in
  let! skills := data_get skills (default (SkillsDict [])) in
  let score :=
    match skills with
    | SkillsDict skills =>
        if has skills "technical" && has skills "soft" then score + 20
        else if has skills "technical" || has skills "soft" then score + 10
        else score
    | SkillsStr _ => score
    end in
  ret (Z.min score 100).

(** [resume_data.get(key) and len(resume_data[key]) > 0] *)
Definition has_entries (key : ResumeRecord -> option (list sdict)) : call bool :=
  let! entries_set := data_get key list_truthy in
  if entries_set
  then let! l := data_item key in ret (0 <? Z.of_nat (List.length l))
  else ret false.

Definition _score_completeness : call Z :=
  let score := 0 in
  let! personal := data_get personal_info (default []) in
  let score := if has personal "name" then score + 20 else score in
  let! summary_set := data_get summary str_truthy in
  let score := if summary_set then score + 15 else score in
  let! has_education := has_entries education in
  let score := if has_education then score + 20 else score in
  let! has_experience := has_entries experience in
  let score := if has_experience then score + 25 else score in
  let! skills_set := data_get skills skills_truthy in
  let score := if skills_set then score + 20 else score in
  ret (Z.min score 100).

Definition _score_quantifiable_results : call Z :=
  let! all_text := _get_all_text in
  let numbers := count_matches number_patterns all_text in
  let achievements := count_matches achievement_patterns (lower all_text) in
  let total_metrics := numbers + achievements in
  ret (metrics_score total_metrics).

(** *** Feedback *)

Definition _generate_feedback (scores : Scores) : call (list string) :=
  let feedback := [] in
  let feedback :=
    if format_structure scores <? 70
    then (feedback ++ ["âš ï¸ Consider adding more contact information (email, phone, LinkedIn)"])%list
    else feedback in
  let feedback :=
    if Qlt_bool (keyword_optimization scores) 70
    then (feedback ++ ["ðŸ“ Add more relevant technical keywords and action verbs to improve ATS visibility";
                       "ðŸ’¡ Use strong action verbs like 'achieved', 'implemented', 'led', 'optimized'"])%list
    else feedback in
  let feedback :=
    if content_quality scores <? 70
    then (feedback ++ ["âœï¸ Expand your experience descriptions with more details and context";
                       "ðŸŽ¯ Consider adding a professional summary (30-100 words)"])%list
    else feedback in
  let! feedback :=
    (if completeness scores <? 80
     then
       let missing_sections := [] in
       let! summary_set := data_get summary str_truthy in
       let missing_sections :=
         if negb summary_set
         then (missing_sections ++ ["Professional Summary"])%list
         else missing_sections in
       let! projects_set := data_get projects list_truthy in
       let missing_sections :=
         if negb projects_set
         then (missing_sections ++ ["Projects"])%list
         else missing_sections in
       ret (if nonempty missing_sections
            then (feedback
                  ++ [("ðŸ“‹ Consider adding: " ++ join ", " missing_sections)%string])%list
            else feedback)
     else ret feedback) in
  let feedback :=
    if quantifiable_results scores <? 60
    then (feedback ++ ["ðŸ“Š Add more quantifiable achievements (e.g., 'Increased efficiency by 30%', 'Managed team of 5')";
                       "ðŸ’¯ Use numbers, percentages, and metrics to demonstrate impact"])%list
    else feedback in
  let feedback :=
    if all_at_least_70 scores
    then (feedback ++ ["âœ¨ Great job! Your resume is well-structured and ATS-friendly"])%list
    else feedback in
  let feedback :=
    if 80 <=? quantifiable_results scores
    then (feedback ++ ["ðŸŽ‰ Excellent use of quantifiable achievements!"])%list
    else feedback in
  ret (if nonempty feedback then feedback else ["âœ… Your resume looks great!"]).

(** *** [calculate_score] *)

Definition calculate_score : call (Z * list string) :=
  let! format_structure := _score_format_structure in
  let! keyword_optimization := _score_keywords in
  let! content_quality := _score_content_quality in
  let! completeness := _score_completeness in
  let! quantifiable_results := _score_quantifiable_results in
  let scores :=
    {| format_structure := format_structure;
       keyword_optimization := keyword_optimization;
       content_quality := content_quality;
       completeness := completeness;
       quantifiable_results := quantifiable_results |} in
  let total_score := weighted_sum scores in
  let! feedback := _generate_feedback scores in
  ret (py_round total_score, feedback).

End ScorerObject.


(** * Example inputs *)

Module Examples.
Import Py ResumeParser ATSScorer.
Local Open Scope string_scope.

(** The experience section of the specification's example. *)
Definition experience_example : string :=
  "Jan 2022
Engineer
Acme
• Built X
• Shipped Y
Jan 2023
...".

(** An education section with one degree line and two year lines. *)
Definition two_years_example : string :=
  "B.S. Computer Science
2016
2020".

(** A projects section whose technologies line starts with a capital, and
    one whose technologies line is a bullet. *)
Definition capital_tech_example : string :=
  "My Project
Technologies: Python".

Definition bullet_tech_example : string :=
  "My Project
- Tech stack: Rust, Go
- fast".

(** An education section with an institution, two year lines and a GPA. *)
Definition education_example : string :=
  "B.S. Computer Science
MIT
2016
GPA 3.8/4.0
2020".

(** A projects section with one title, two technologies lines and two
    description lines. *)
Definition project_example : string :=
  "Resume Builder
- parses resumes
- tech stack: Python
- scores them
- technologies: Python, Streamlit".

(** A text with two lines before its first header. *)
Definition preamble_example : string :=
  "John Doe
john@x.com".

Definition sections_example : string :=
  "Education
B.S. Physics
Skills
Python".

(** A text with a name, two links and an e-mail address. *)
Definition contact_example : string :=
  "Jane
https://github.com/jane https://jane.dev
jane@x.org".

(** A record with a name and one technical skill, "5%". *)
Definition named_record : ResumeRecord :=
  {| personal_info := Some [("name", "Jane Roe")];
     summary := Some "";
     education := Some [];
     experience := Some [];
     skills := Some (SkillsDict [("technical", "5%"); ("soft", "")]);
     projects := Some [] |}.

(** Sub-scores that are all at least 70, with a completeness of 80. *)
Definition good_scores : Scores :=
  {| format_structure := 100; keyword_optimization := 75;
     content_quality := 70; completeness := 80;
     quantifiable_results := 85 |}.

(** A skills section with a line that contains "soft". *)
Definition office_skills_example : string :=
  "- Microsoft Office
- Python".

(** An experience section of one record, with a plain line after the
    company. *)
Definition one_job_example : string :=
  "March 2019 - June 2021
- Joined as intern
Engineer
Acme
Promoted in 2020
* Led a team".

(** A record whose only content is one technical skill, "5%". *)
Definition one_metric_record : ResumeRecord :=
  {| personal_info := Some [];
     summary := Some "";
     education := Some [];
     experience := Some [];
     skills := Some (SkillsDict [("technical", "5%"); ("soft", "")]);
     projects := Some [] |}.

(** An education section with two degree lines, each followed by two year
    lines. *)
Definition two_degrees_example : string :=
  "B.S. Computer Science
2016
2018
M.S. Physics
2019
2021".

(** A skills section without a technical keyword. *)
Definition soft_skills_example : string :=
  "Teamwork
- Leadership".

End Examples.

(** * What the scans compute, read off their lines *)

Module Scans.
Import Py Re ResumeParser.
Local Open Scope string_scope.

(** The number of the lines that start a record. *)
Definition count_lines (starts : string -> bool) (lines : list string) : nat :=
  List.length (List.filter starts lines).

(** One more record when an entry is in progress. *)
Definition in_progress {A : Type} (current : option A) : nat :=
  match current with Some _ => 1 | None => 0 end.

(** The lines of a record that are not bullets: the first is its title, the
    second its company. *)
Definition plain_lines (body : list string) : list string :=
  List.filter (fun line => negb (is_bullet_line line)) body.

(** The lines that go to the responsibilities, when [named] of the title
    and the company are already set: the bullets, and the other lines from
    the third on. *)
Fixpoint responsibilities_of (named : nat) (body : list string) : list string :=
  match body with
  | [] => []
  | line :: body' =>
      if is_bullet_line line then line :: responsibilities_of named body'
      else if (named <? 2)%nat then responsibilities_of (S named) body'
      else line :: responsibilities_of named body'
  end.

(** [c in s] for a character. *)
Fixpoint has_char (c : ascii) (s : string) : bool :=
  match s with
  | EmptyString => false
  | String x s' => Ascii.eqb x c || has_char c s'
  end.

(** The names of the sections, in the order of [section_keywords]. *)
Definition section_names : list string := List.map fst section_keywords.

End Scans.

(** * From the parser to the scorer *)

Module Pipeline.
Import Py ResumeParser ATSScorer.
Local Open Scope string_scope.

(** The dictionaries that the parser builds, with their keys in the order
    in which the code inserts them. *)
Definition personal_info_dict (info : PersonalInfo) : sdict :=
  [ ("email", email info); ("phone", phone info); ("name", name info);
    ("linkedin", linkedin info); ("github", github info);
    ("portfolio", portfolio info) ].

Definition education_dict (e : Education) : sdict :=
  [ ("degree", degree e); ("institution", institution e);
    ("graduation_date", graduation_date e); ("gpa", gpa e) ].

Definition experience_dict (e : Experience) : sdict :=
  [ ("title", title e); ("company", company e);
    ("start_date", start_date e); ("end_date", end_date e);
    ("responsibilities", responsibilities e) ].

Definition skills_dict (s : Skills) : sdict :=
  [ ("technical", technical s); ("soft", soft s) ].

Definition project_dict (p : Project) : sdict :=
  [ ("name", p_name p); ("description", description p);
    ("technologies", technologies p) ].

(** The record that [parse_file] returns, as [calculate_score] reads it
    ([raw_text] is a key that the scorer never looks up). *)
Definition to_record (r : ParsedResume) : ResumeRecord :=
  {| personal_info := Some (personal_info_dict (r_personal_info r));
     summary := Some (r_summary r);
     education := Some (List.map education_dict (r_education r));
     experience := Some (List.map experience_dict (r_experience r));
     skills := Some (SkillsDict (skills_dict (r_skills r)));
     projects := Some (List.map project_dict (r_projects r)) |}.

(** A record with every missing key set to the empty value of its kind. *)
Definition with_defaults (r : ResumeRecord) : ResumeRecord :=
  {| personal_info := Some (default [] (personal_info r));
     summary := Some (default "" (summary r));
     education := Some (default [] (education r));
     experience := Some (default [] (experience r));
     skills := Some (default (SkillsDict []) (skills r));
     projects := Some (default [] (projects r)) |}.

(** [{**resume_data, 'skills': v}], and the record without that key for
    [None]. *)
Definition with_skills (v : option skills_value) (r : ResumeRecord) : ResumeRecord :=
  {| personal_info := personal_info r;
     summary := summary r;
     education := education r;
     experience := experience r;
     skills := v;
     projects := projects r |}.

(** [scores1[key] <= scores2[key]] for every key. *)
Definition scores_le (s1 s2 : Scores) : Prop :=
  (format_structure s1 <= format_structure s2)%Z
  /\ (keyword_optimization s1 <= keyword_optimization s2)%Q
  /\ (content_quality s1 <= content_quality s2)%Z
  /\ (completeness s1 <= completeness s2)%Z
  /\ (quantifiable_results s1 <= quantifiable_results s2)%Z.

(** [field_value r v]: the non-empty string [v] is the value of a key of
    the personal information, the summary, a value of a key of an
    education, experience or project entry, or a value of the skills. *)
Definition value_of (d : sdict) (v : string) : Prop := exists k, In (k, v) d.

Definition field_value (r : ResumeRecord) (v : string) : Prop :=
  v <> ""
  /\ (value_of (default [] (personal_info r)) v
      \/ summary r = Some v
      \/ (exists d, In d (default [] (education r)) /\ value_of d v)
      \/ (exists d, In d (default [] (experience r)) /\ value_of d v)
      \/ (exists d, skills r = Some (SkillsDict d) /\ value_of d v)
      \/ skills r = Some (SkillsStr v)
      \/ (exists d, In d (default [] (projects r)) /\ value_of d v)).

End Pipeline.

(** * The parser over any text library

    [str.strip], [str.lower], [str.isupper] and the functions of [re] look
    characters up in the tables of the Unicode standard.  Here they are the
    fields of a record, and the parser is written over any such record: a
    property proved for every [library] holds whatever these tables say.
    The patterns are given as the program writes them.  What does not
    depend on the tables (splitting at a given character, joining,
    searching for a given text, indexing) is as in [Py]. *)

Module Lib.
Import Py ResumeParser.
Local Open Scope string_scope.

Record library : Type := {
  (** [s.strip()] *)
  str_strip : string -> string;
  (** [s.lower()] *)
  str_lower : string -> string;
  (** [s.isupper()] *)
  str_isupper : string -> bool;
  (** [re.search(pattern, s)], and with [re.IGNORECASE] when the flag is
      set: the text of the match, [m.group()], when there is one *)
  re_search : string -> bool -> string -> option string;
  (** [re.findall(pattern, s)], with the same flag *)
  re_findall : string -> bool -> string -> list string;
  (** [re.sub(pattern, repl, s)] *)
  re_sub : string -> string -> string -> string;
}.

(** *** The patterns, as written in the program *)

Definition email_pattern : string :=
  "\b[A-Za-z0-9._%+-]+@[A-Za-z0-9.-]+\.[A-Z|a-z]{2,}\b".

Definition phone_pattern : string :=
  "[\+\(]?[1-9][0-9 .\-\(\)]{8,}[0-9]".

Definition url_pattern : string :=
  "https?://(?:www\.)?[-a-zA-Z0-9@:%._\+~#=]{1,256}\.[a-zA-Z0-9()]{1,6}\b(?:[-a-zA-Z0-9()@:%_\+.~#?&/=]*)".

Definition degree_patterns : list string :=
  [ "(Bachelor|Master|Ph\.?D|B\.?S\.?|M\.?S\.?|B\.?A\.?|M\.?A\.?).*";
    "(B\.Tech|M\.Tech|B\.E\.|M\.E\.)" ].

Definition year_pattern : string := "(19|20)\d{2}".

Definition gpa_pattern : string := "(\d\.\d+)\s*/?(\d\.\d+)?".

Definition date_pattern : string :=
  "(Jan|Feb|Mar|Apr|May|Jun|Jul|Aug|Sep|Oct|Nov|Dec|January|February|March|April|May|June|July|August|September|October|November|December)\s+\d{4}".

Definition bullet_pattern : string := "^[•\-\*]\s*".

(** Truth value of a match object, and [m.group()]: [None] has no such
    method. *)
Definition found (m : option string) : bool :=
  match m with Some _ => true | None => false end.

Definition group (m : option string) : result string :=
  match m with
  | Some text => Ok text
  | None => Raise AttributeError
  end.

(** [s[0]]: the first character, that is the first byte and the bytes that
    continue its encoding. *)
Definition is_continuation (c : ascii) : bool :=
  (128 <=? code c)%nat && (code c <? 192)%nat.

Fixpoint continuation (s : string) : string :=
  match s with
  | EmptyString => EmptyString
  | String c s' => if is_continuation c then String c (continuation s') else EmptyString
  end.

Definition item0 (s : string) : result string :=
  match s with
  | EmptyString => Raise IndexError
  | String c s' => Ok (String c (continuation s'))
  end.

Section Parser.
Variable L : library.

(** [[line.strip() for line in text.split('\n') if line.strip()]] *)
Definition stripped_lines (text : string) : list string :=
  List.map (str_strip L)
    (List.filter (fun line => truthy (str_strip L line)) (split "010" text)).

(** *** Personal information *)

Definition _extract_personal_info (text : string) : result PersonalInfo :=
  let emails := re_findall L email_pattern false text in
  let* email := (if nonempty emails then index emails 0 else Ok "") in
  let phones := re_findall L phone_pattern false text in
  let* phone := (if nonempty phones then index phones 0 else Ok "") in
  let lines := stripped_lines text in
  let* name := (if nonempty lines then index lines 0 else Ok "") in
  let urls := re_findall L url_pattern false text in
  let linkedin :=
    next_or_empty (fun url => contains "linkedin" (str_lower L url)) urls in
  let github :=
    next_or_empty (fun url => contains "github" (str_lower L url)) urls in
  let portfolio :=
    next_or_empty (fun url => negb (in_list url [linkedin; github])) urls in
  Ok {| email := email; phone := phone; name := name;
        linkedin := linkedin; github := github; portfolio := portfolio |}.

(** *** Sections *)

Definition header_of (line : string) : option string :=
  let line_lower := str_strip L (str_lower L line) in
  option_map fst
    (List.find (fun '(_, keywords) =>
                  List.existsb (fun keyword => contains keyword line_lower) keywords)
               section_keywords).

Definition seg_step (st : seg_state) (line : string) : seg_state :=
  match header_of line with
  | Some sec =>
      {| sections := save_section st;
         current_section := Some sec;
         section_content := [] |}
  | None =>
      match current_section st with
      | Some sec =>
          if truthy sec
          then {| sections := sections st;
                  current_section := current_section st;
                  section_content := (section_content st ++ [line])%list |}
          else st
      | None => st
      end
  end.

Definition _split_into_sections (text : string) : gmap string string :=
  save_section (List.fold_left seg_step (split "010" text) seg_init).

(** *** Summary *)

Definition _extract_summary (text : string) : string :=
  if negb (truthy text) then ""
  else
    let sentences := split "." (str_strip L text) in
    str_strip L (join ". " (firstn 3 sentences)) ++ ".".

(** *** Education *)

Definition is_degree_line (line : string) : bool :=
  List.existsb (fun pattern => found (re_search L pattern true line)) degree_patterns.

Definition edu_degree (st : edu_state) (line : string) : edu_state :=
  let '(education, current_entry) := st in
  if is_degree_line line
  then
    let education :=
      match current_entry with
      | Some e => (education ++ [e])%list
      | None => education
      end in
    (education,
     Some {| degree := line; institution := ""; graduation_date := ""; gpa := "" |})
  else st.

Definition edu_year (cur : option Education) (line : string)
  : result (option Education) :=
  let year_match := re_search L year_pattern false line in
  match year_match, cur with
  | Some _, Some e =>
      let* y := group year_match in
      Ok (Some {| degree := degree e; institution := institution e;
                  graduation_date := y; gpa := gpa e |})
  | _, _ => Ok cur
  end.

Definition edu_gpa (cur : option Education) (line : string)
  : result (option Education) :=
  let gpa_match := re_search L gpa_pattern false line in
  match gpa_match, cur with
  | Some _, Some e =>
      if negb (truthy (gpa e))
      then
        let* g := group gpa_match in
        Ok (Some {| degree := degree e; institution := institution e;
                    graduation_date := graduation_date e; gpa := g |})
      else Ok cur
  | _, _ => Ok cur
  end.

Definition edu_institution (cur : option Education) (line : string)
  : option Education :=
  match cur with
  | Some e =>
      if negb (found (re_search L year_pattern false line))
         && negb (contains line (degree e))
      then
        if negb (truthy (institution e))
        then Some {| degree := degree e; institution := line;
                     graduation_date := graduation_date e; gpa := gpa e |}
        else cur
      else cur
  | None => None
  end.

Definition edu_step (st : edu_state) (line : string) : result edu_state :=
  let '(education, cur) := edu_degree st line in
  let* cur := edu_year cur line in
  let* cur := edu_gpa cur line in
  Ok (education, edu_institution cur line).

Definition _extract_education (text : string) : result (list Education) :=
  let education := [] in
  if negb (truthy text) then Ok education
  else
    let lines := stripped_lines text in
    let* st := foldM edu_step lines (education, None) in
    Ok (edu_finish st).

(** *** Experience *)

Definition is_date_line (line : string) : bool :=
  found (re_search L date_pattern true line).

Definition exp_step (st : exp_state) (line : string) : result exp_state :=
  let '(experience, current_entry) := st in
  if is_date_line line
  then
    let experience :=
      match current_entry with
      | Some e => (experience ++ [e])%list
      | None => experience
      end in
    let dates := re_findall L date_pattern true line in
    let* d0 := (if nonempty dates then index dates 0 else Ok "") in
    let* d1 := (if (1 <? List.length dates)%nat then index dates 1 else Ok "Present") in
    Ok (experience,
        Some {| e_title := ""; e_company := ""; e_start_date := d0;
                e_end_date := d1; e_responsibilities := [] |})
  else
    match current_entry with
    | Some e =>
        if is_bullet_line line
        then Ok (experience, Some (add_responsibility e line))
        else if negb (truthy (e_title e))
        then Ok (experience,
                 Some {| e_title := line; e_company := e_company e;
                         e_start_date := e_start_date e; e_end_date := e_end_date e;
                         e_responsibilities := e_responsibilities e |})
        else if negb (truthy (e_company e))
        then Ok (experience,
                 Some {| e_title := e_title e; e_company := line;
                         e_start_date := e_start_date e; e_end_date := e_end_date e;
                         e_responsibilities := e_responsibilities e |})
        else Ok (experience, Some (add_responsibility e line))
    | None => Ok st
    end.

Definition _extract_experience (text : string) : result (list Experience) :=
  let experience := [] in
  if negb (truthy text) then Ok experience
  else
    let lines := stripped_lines text in
    let* st := foldM exp_step lines ([], None) in
    Ok (exp_finish st).

(** *** Skills *)

Definition skill_lines (text : string) : list string :=
  List.map (fun line => re_sub L bullet_pattern "" (str_strip L line))
    (List.filter
       (fun line =>
          let line := str_strip L line in
          truthy line
          && negb (List.existsb (fun header => contains header (str_lower L line))
                     ["skills"; "technical"; "soft"]))
       (split "010" text)).

Definition is_technical (skill : string) : bool :=
  List.existsb (fun keyword => contains keyword (str_lower L skill))
    parser_technical_keywords.

Definition _extract_skills (text : string) : Skills :=
  if negb (truthy text) then {| technical := ""; soft := "" |}
  else
    let skills_list := skill_lines text in
    let all_skills := join ", " skills_list in
    let technical := List.filter is_technical skills_list in
    let soft := List.filter (fun skill => negb (is_technical skill)) skills_list in
    {| technical := if nonempty technical then join ", " technical else all_skills;
       soft := if nonempty soft then join ", " soft else "" |}.

(** *** Projects *)

(** [line.isupper() or (line[0].isupper() and not line.startswith(('•', '-', '*')))] *)
Definition is_new_project (line : string) : result bool :=
  if str_isupper L line then Ok true
  else
    let* c := item0 line in
    Ok (str_isupper L c && negb (is_bullet_line line)).

Definition is_tech_line (line : string) : bool :=
  contains "technologies" (str_lower L line)
  || contains "tech stack" (str_lower L line).

Definition proj_step (st : proj_state) (line : string) : result proj_state :=
  let '(projects, current_project) := st in
  let* fresh := is_new_project line in
  if fresh
  then
    let projects :=
      match current_project with
      | Some p => (projects ++ [p])%list
      | None => projects
      end in
    Ok (projects, Some {| p_name := line; description := ""; technologies := "" |})
  else
    match current_project with
    | Some p =>
        if is_tech_line line
        then
          let* t := index_last (split1 ":" line) in
          Ok (projects,
              Some {| p_name := p_name p; description := description p;
                      technologies := str_strip L t |})
        else
          Ok (projects,
              Some {| p_name := p_name p;
                      description := description p ++ line ++ " ";
                      technologies := technologies p |})
    | None => Ok st
    end.

Definition _extract_projects (text : string) : result (list Project) :=
  let projects := [] in
  if negb (truthy text) then Ok projects
  else
    let lines := stripped_lines text in
    let* st := foldM proj_step lines ([], None) in
    Ok (proj_finish st).

(** *** The whole record *)

Definition _parse_text (text : string) : result ParsedResume :=
  let* personal_info := _extract_personal_info text in
  let sections := _split_into_sections text in
  let* education := _extract_education (section sections "education") in
  let* experience := _extract_experience (section sections "experience") in
  let skills := _extract_skills (section sections "skills") in
  let* projects := _extract_projects (section sections "projects") in
  let summary := _extract_summary (section sections "summary") in
  Ok {| r_personal_info := personal_info; r_summary := summary;
        r_education := education; r_experience := experience;
        r_skills := skills; r_projects := projects; raw_text := text |}.

(** *** What the scans compute, read off their lines *)

(** The year token and the GPA token of a line: the texts of the two
    searches of the education scan. *)
Definition year_token (line : string) : option string :=
  re_search L year_pattern false line.

Definition gpa_token (line : string) : option string :=
  re_search L gpa_pattern false line.

(** The year token of the last line that has one. *)
Fixpoint last_year_token (lines : list string) : option string :=
  match lines with
  | [] => None
  | line :: lines' =>
      match last_year_token lines' with
      | Some y => Some y
      | None => year_token line
      end
  end.

(** The first non-empty GPA token of the lines. *)
Fixpoint first_gpa_token (lines : list string) : option string :=
  match lines with
  | [] => None
  | line :: lines' =>
      match gpa_token line with
      | Some g => if truthy g then Some g else first_gpa_token lines'
      | None => first_gpa_token lines'
      end
  end.

(** A line that can name the institution of the record of [degree]. *)
Definition institution_candidate (degree line : string) : bool :=
  negb (found (year_token line)) && negb (contains line degree).

(** The lines up to the next degree line. *)
Fixpoint until_degree (lines : list string) : list string :=
  match lines with
  | [] => []
  | line :: lines' =>
      if is_degree_line line then [] else line :: until_degree lines'
  end.

(** The records of an education section, as runs of lines: each degree
    line with the lines up to the next degree line.  The lines before the
    first degree line belong to no record. *)
Fixpoint edu_blocks (lines : list string) : list (list string) :=
  match lines with
  | [] => []
  | line :: lines' =>
      if is_degree_line line
      then (line :: until_degree lines') :: edu_blocks lines'
      else edu_blocks lines'
  end.

(** A line that starts a project record. *)
Definition starts_project (line : string) : bool :=
  match is_new_project line with
  | Ok b => b
  | Raise _ => false
  end.

(** What a technologies line sets: the stripped text after its first
    colon, or the stripped line. *)
Definition tech_value (line : string) : string :=
  str_strip L (default line (after_first ":" line)).

Definition last_tech (body : list string) : string :=
  List.last (List.map tech_value (List.filter is_tech_line body)) "".

Definition description_of (body : list string) : string :=
  List.fold_right (fun line rest => line ++ " " ++ rest) ""
    (List.filter (fun line => negb (is_tech_line line)) body).

End Parser.

(** *** The library on ASCII text

    The matcher of [Re] and the functions of [Py], which agree with
    Python's on a text of ASCII characters and bullets.  Each pattern of
    the program is paired with its syntax tree: the group, when [findall]
    returns the texts of a group, and the rest. *)

Record compiled : Type := {
  source : string;
  ignorecase : bool;
  has_group : bool;
  group_part : Re.regex;
  rest_part : Re.regex;
}.

Definition whole (source : string) (r : Re.regex) : compiled :=
  {| source := source; ignorecase := false; has_group := false;
     group_part := Re.Eps; rest_part := r |}.

Definition whole_i (source : string) (r : Re.regex) : compiled :=
  {| source := source; ignorecase := true; has_group := false;
     group_part := Re.Eps; rest_part := r |}.

Definition compiled_patterns : list compiled :=
  [ whole email_pattern ResumeParser.email_pattern;
    whole phone_pattern ResumeParser.phone_pattern;
    whole url_pattern ResumeParser.url_pattern;
    whole_i (nth 0 degree_patterns "") (nth 0 ResumeParser.degree_patterns Re.Eps);
    whole_i (nth 1 degree_patterns "") (nth 1 ResumeParser.degree_patterns Re.Eps);
    whole year_pattern ResumeParser.year_pattern;
    whole gpa_pattern ResumeParser.gpa_pattern;
    {| source := date_pattern; ignorecase := true; has_group := true;
       group_part := month_group; rest_part := date_rest |};
    whole bullet_pattern bullet_prefix ].

Definition compile (pattern : string) (flag : bool) : option compiled :=
  List.find (fun c => String.eqb (source c) pattern && Bool.eqb (ignorecase c) flag)
    compiled_patterns.

Definition ascii_search (pattern : string) (flag : bool) (s : string)
  : option string :=
  match compile pattern flag with
  | Some c => option_map Re.group0 (Re.search2 (group_part c) (rest_part c) s)
  | None => None
  end.

Definition ascii_findall (pattern : string) (flag : bool) (s : string)
  : list string :=
  match compile pattern flag with
  | Some c =>
      List.map (if has_group c then fst else snd)
        (Re.findall_at (group_part c) (rest_part c) None 0 s)
  | None => []
  end.

(** [re.sub] for the one pattern that the program substitutes, which is
    anchored at the start: at most one match. *)
Definition ascii_sub (pattern repl : string) (s : string) : string :=
  if String.eqb pattern bullet_pattern
  then
    match Re.match_here Re.Eps bullet_prefix None s with
    | Some (_, s') => repl ++ s'
    | None => s
    end
  else s.

Definition ascii_lib : library :=
  {| str_strip := Py.strip;
     str_lower := Py.lower;
     str_isupper := Py.isupper;
     re_search := ascii_search;
     re_findall := ascii_findall;
     re_sub := ascii_sub |}.

End Lib.

(** * Properties *)

Import Py Re.
Local Open Scope string_scope.
Local Open Scope list_scope.

(** ** The result monad and the line scans *)

Section FoldM.
Context {A S : Type}.
Variable f : S -> A -> result S.
Variable P : A -> Prop.
Hypothesis step_ok : forall s x, P x -> exists s', f s x = Ok s'.

(** A scan whose step never raises on the elements it meets never raises. *)
Lemma foldM_ok (l : list A) :
  Forall P l -> forall s, exists s', foldM f l s = Ok s'.
Proof.
  induction 1 as [|x l Hx _ IH]; intros s; simpl.
  - eauto.
  - destruct (step_ok s x Hx) as [s' ->]. simpl. apply IH.
Qed.
End FoldM.

Lemma foldM_app {A S : Type} (f : S -> A -> result S) (l1 l2 : list A) (s : S) :
  foldM f (l1 ++ l2) s = let* s' := foldM f l1 s in foldM f l2 s'.
Proof.
  revert s. induction l1 as [|x l1 IH]; intros s; simpl; [reflexivity|].
  destruct (f s x); simpl; auto.
Qed.

Lemma truthy_true (s : string) : truthy s = true <-> s <> "".
Proof. destruct s; simpl; split; intros; congruence. Qed.

Lemma nonempty_true {A : Type} (l : list A) : nonempty l = true <-> l <> [].
Proof. destruct l; simpl; split; intros; congruence. Qed.

(** Every line of [stripped_lines] has a first character. *)
Lemma stripped_lines_truthy (text : string) :
  Forall (fun line => truthy line = true) (stripped_lines text).
Proof.
  unfold stripped_lines. rewrite Forall_map. apply List.Forall_forall.
  intros line Hin. apply filter_In in Hin. apply Hin.
Qed.

Lemma stripped_lines_empty : stripped_lines "" = [].
Proof. reflexivity. Qed.

Lemma split_nonempty (sep : ascii) (s : string) : split sep s <> [].
Proof.
  induction s as [|c s IH]; simpl; [discriminate|].
  destruct (Ascii.eqb c sep); [discriminate|].
  destruct (split sep s); [congruence | discriminate].
Qed.

(** [s.split(sep, 1)] has one part, the whole string, or two, around the
    first separator. *)
Lemma split1_shape (sep : ascii) (s : string) :
  match after_first sep s with
  | Some t => exists h, split1 sep s = [h; t]
  | None => split1 sep s = [s]
  end.
Proof.
  induction s as [|c s IH]; simpl; [reflexivity|].
  destruct (Ascii.eqb c sep); [eauto|].
  destruct (after_first sep s) as [t|].
  - destruct IH as [h ->]. eauto.
  - rewrite IH. reflexivity.
Qed.

Lemma index_last_split1 (sep : ascii) (s : string) :
  index_last (split1 sep s) = Ok (default s (after_first sep s)).
Proof.
  pose proof (split1_shape sep s) as H.
  destruct (after_first sep s) as [t|]; simpl.
  - destruct H as [h ->]. reflexivity.
  - rewrite H. reflexivity.
Qed.

Lemma index_last_ok {A : Type} (l : list A) :
  l <> [] -> exists a, index_last l = Ok a.
Proof.
  intros Hl. unfold index_last.
  destruct (rev l) as [|a r] eqn:E; [|eauto].
  apply (f_equal (@rev A)) in E. rewrite rev_involutive in E. contradiction.
Qed.

Lemma split_app_sep (sep : ascii) (a b : string) :
  split sep (a ++ String sep b)%string = split sep a ++ split sep b.
Proof.
  induction a as [|c a IH].
  - change (split sep (String sep b) = [""] ++ split sep b).
    simpl. rewrite Ascii.eqb_refl. reflexivity.
  - change (split sep (String c (a ++ String sep b)%string)
            = split sep (String c a) ++ split sep b).
    simpl. destruct (Ascii.eqb c sep).
    + rewrite IH. reflexivity.
    + rewrite IH. pose proof (split_nonempty sep a) as Hne.
      destruct (split sep a) as [|w ws]; [contradiction|]. reflexivity.
Qed.

Lemma split_without_sep (sep : ascii) (s : string) :
  Scans.has_char sep s = false -> split sep s = [s].
Proof.
  induction s as [|c s IH]; simpl; [reflexivity|].
  destruct (Ascii.eqb c sep); simpl; [discriminate|].
  intros H. rewrite IH by exact H. reflexivity.
Qed.

(** ** The extractors never raise *)

Import ResumeParser Examples.

Lemma personal_info_ok (text : string) :
  exists info, _extract_personal_info text = Ok info
    /\ (findall email_pattern text = [] -> email info = "")
    /\ (findall phone_pattern text = [] -> phone info = "")
    /\ (stripped_lines text = [] -> name info = "")
    /\ (findall url_pattern text = [] ->
        linkedin info = "" /\ github info = "" /\ portfolio info = "").
Proof.
  unfold _extract_personal_info.
  destruct (findall email_pattern text) as [|e es];
    destruct (findall phone_pattern text) as [|p ps];
    destruct (stripped_lines text) as [|l ls];
    simpl; eexists; (split; [reflexivity|]); simpl;
    repeat match goal with |- _ /\ _ => split end;
    intros H; try discriminate H; try reflexivity;
    rewrite H; repeat split; reflexivity.
Qed.

Lemma edu_step_ok (st : edu_state) (line : string) :
  exists st', edu_step st line = Ok st'.
Proof.
  unfold edu_step. destruct (edu_degree st line) as [education cur].
  unfold edu_year, edu_gpa.
  destruct (search year_pattern line), (search gpa_pattern line), cur as [e|];
    simpl; try destruct (negb (truthy (gpa e))); simpl; eauto.
Qed.

Lemma exp_step_ok (st : exp_state) (line : string) :
  exists st', exp_step st line = Ok st'.
Proof.
  unfold exp_step. destruct st as [experience cur].
  destruct (is_date_line line).
  - destruct (findall_group1 month_group date_rest line) as [|d0 [|d1 ds]];
      simpl; eauto.
  - destruct cur as [e|]; [|eauto].
    destruct (is_bullet_line line); [eauto|].
    destruct (negb (truthy (e_title e))); [eauto|].
    destruct (negb (truthy (e_company e))); eauto.
Qed.

Lemma is_new_project_ok (line : string) :
  truthy line = true -> exists b, is_new_project line = Ok b.
Proof.
  unfold is_new_project. destruct (isupper line); [eauto|].
  destruct line; [discriminate|]. simpl. eauto.
Qed.

Lemma proj_step_ok (st : proj_state) (line : string) :
  truthy line = true -> exists st', proj_step st line = Ok st'.
Proof.
  intros Hline. unfold proj_step. destruct st as [projects cur].
  destruct (is_new_project_ok line Hline) as [b ->]. simpl.
  destruct b; [eauto|]. destruct cur as [p|]; [|eauto].
  destruct (is_tech_line line); [|eauto].
  rewrite index_last_split1. simpl. eauto.
Qed.

(** A scan that meets no entry-starting line keeps the empty state. *)
Lemma edu_scan_no_degree (lines : list string) :
  Forall (fun line => is_degree_line line = false) lines ->
  foldM edu_step lines ([], None) = Ok ([], None).
Proof.
  induction 1 as [|line lines Hline _ IH]; simpl; [reflexivity|].
  unfold edu_step, edu_degree. rewrite Hline.
  unfold edu_year, edu_gpa.
  destruct (search year_pattern line), (search gpa_pattern line); simpl; exact IH.
Qed.

Lemma exp_scan_no_date (lines : list string) :
  Forall (fun line => is_date_line line = false) lines ->
  foldM exp_step lines ([], None) = Ok ([], None).
Proof.
  induction 1 as [|line lines Hline _ IH]; simpl; [reflexivity|].
  rewrite Hline. simpl. exact IH.
Qed.

Lemma proj_scan_no_title (lines : list string) :
  Forall (fun line => is_new_project line = Ok false) lines ->
  foldM proj_step lines ([], None) = Ok ([], None).
Proof.
  induction 1 as [|line lines Hline _ IH]; simpl; [reflexivity|].
  rewrite Hline. simpl. exact IH.
Qed.

Lemma edu_finish_nonempty (st : edu_state) : edu_finish st <> [].
Proof.
  destruct st as [education cur]. unfold edu_finish.
  destruct (nonempty _) eqn:E; [apply nonempty_true in E; exact E | discriminate].
Qed.

Lemma exp_finish_nonempty (st : exp_state) : exp_finish st <> [].
Proof.
  destruct st as [experience cur]. unfold exp_finish.
  destruct (nonempty _) eqn:E; [apply nonempty_true in E; exact E | discriminate].
Qed.

Lemma proj_finish_nonempty (st : proj_state) : proj_finish st <> [].
Proof.
  destruct st as [projects cur]. unfold proj_finish.
  destruct (nonempty _) eqn:E; [apply nonempty_true in E; exact E | discriminate].
Qed.

Lemma education_ok (text : string) :
  exists entries, _extract_education text = Ok entries
    /\ (text <> "" -> entries <> [])
    /\ (text <> "" ->
        Forall (fun line => is_degree_line line = false) (stripped_lines text) ->
        entries = [blank_education]).
Proof.
  unfold _extract_education. destruct (truthy text) eqn:E; simpl.
  - destruct (foldM_ok edu_step (fun _ => True) (fun s x _ => edu_step_ok s x)
                (stripped_lines text)) with (s := ([] : list Education, @None Education))
      as [st Hst].
    { apply List.Forall_forall. auto. }
    rewrite Hst. simpl. eexists. split; [reflexivity|]. split.
    + intros _. apply edu_finish_nonempty.
    + intros _ Hno. rewrite (edu_scan_no_degree _ Hno) in Hst.
      injection Hst as <-. reflexivity.
  - eexists. split; [reflexivity|].
    destruct text; [|discriminate]. split; intros; congruence.
Qed.

Lemma experience_ok (text : string) :
  exists entries, _extract_experience text = Ok entries
    /\ (text <> "" -> entries <> [])
    /\ (text <> "" ->
        Forall (fun line => is_date_line line = false) (stripped_lines text) ->
        entries = [blank_experience]).
Proof.
  unfold _extract_experience. destruct (truthy text) eqn:E; simpl.
  - destruct (foldM_ok exp_step (fun _ => True) (fun s x _ => exp_step_ok s x)
                (stripped_lines text)) with (s := ([] : list ExperienceEntry, @None ExperienceEntry))
      as [st Hst].
    { apply List.Forall_forall. auto. }
    rewrite Hst. simpl. eexists. split; [reflexivity|]. split.
    + intros _. apply exp_finish_nonempty.
    + intros _ Hno. rewrite (exp_scan_no_date _ Hno) in Hst.
      injection Hst as <-. reflexivity.
  - eexists. split; [reflexivity|].
    destruct text; [|discriminate]. split; intros; congruence.
Qed.

Lemma projects_ok (text : string) :
  exists entries, _extract_projects text = Ok entries
    /\ (text <> "" -> entries <> [])
    /\ (text <> "" ->
        Forall (fun line => is_new_project line = Ok false) (stripped_lines text) ->
        entries = [blank_project]).
Proof.
  unfold _extract_projects. destruct (truthy text) eqn:E; simpl.
  - destruct (foldM_ok proj_step (fun line => truthy line = true)
                (fun s x H => proj_step_ok s x H)
                (stripped_lines text) (stripped_lines_truthy text))
      with (s := ([] : list Project, @None Project)) as [st Hst].
    rewrite Hst. simpl. eexists. split; [reflexivity|]. split.
    + intros _. apply proj_finish_nonempty.
    + intros _ Hno. rewrite (proj_scan_no_title _ Hno) in Hst.
      injection Hst as <-. reflexivity.
  - eexists. split; [reflexivity|].
    destruct text; [|discriminate]. split; intros; congruence.
Qed.

(** The personal-information example of the specification. *)
Example personal_info_example :
  _extract_personal_info "John Doe
john@x.com
555-123-4567
https://linkedin.com/in/john" =
  Ok {| email := "john@x.com"; phone := "555-123-4567"; name := "John Doe";
        linkedin := "https://linkedin.com/in/john"; github := "";
        portfolio := "" |}.
Proof. vm_compute. reflexivity. Qed.

(** ** Sequences and the empty section *)

(** On a non-empty section text the three sequence extractors return a
    non-empty sequence. *)
Lemma sequences_nonempty_on_nonempty_text (text : string) :
  text <> "" ->
  (exists l, _extract_education text = Ok l /\ l <> [])
  /\ (exists l, _extract_experience text = Ok l /\ l <> [])
  /\ (exists l, _extract_projects text = Ok l /\ l <> []).
Proof.
  intros Htext.
  destruct (education_ok text) as (l1 & H1 & N1 & _).
  destruct (experience_ok text) as (l2 & H2 & N2 & _).
  destruct (projects_ok text) as (l3 & H3 & N3 & _).
  repeat split; eexists; split; eauto.
Qed.

(** A text without section headers reaches the three extractors with the
    empty section text, and the parsed record has three empty sequences. *)
Lemma parse_text_without_sections :
  exists r, _parse_text "John Doe" = Ok r
    /\ r_education r = [] /\ r_experience r = [] /\ r_projects r = [].
Proof. eexists. split; [vm_compute; reflexivity|]. repeat split. Qed.

(** C2.  On the empty section text, which is what [_parse_text] passes for
    a section that the segmenter did not find, each of the three sequence
    extractors returns the empty sequence: the early [return] comes before
    the substitution of the placeholder record. *)
Theorem sequences_empty_on_empty_text :
  _extract_education "" = Ok []
  /\ _extract_experience "" = Ok []
  /\ _extract_projects "" = Ok [].
Proof. repeat split. Qed.

(** ** The experience example *)

(** C3.  On the example text the experience extractor produces two records,
    and the first has the title, the company, the end date and the
    responsibilities that the specification gives; but its [start_date] is ["Jan"], the text
    of the pattern's only group, which is what [re.findall] returns, and not
    ["Jan 2022"]. *)
Theorem experience_example_records :
  _extract_experience experience_example =
  Ok [ {| title := "Engineer"; company := "Acme";
          start_date := "Jan"; end_date := "Present";
          responsibilities := "• Built X
• Shipped Y" |};
       {| title := "..."; company := "";
          start_date := "Jan"; end_date := "Present";
          responsibilities := "" |} ].
Proof. vm_compute. reflexivity. Qed.

(** ** Education: the graduation date *)

(** C5, as the specification states it, fails: the first year token met in the record
    of [two_years_example] is ["2016"], and the graduation date is
    ["2020"]. *)
Lemma graduation_date_not_first_year :
  first_year_token (stripped_lines two_years_example) = Some "2016"
  /\ exists e, _extract_education two_years_example = Ok [e]
       /\ graduation_date e = "2020"
       /\ Some (graduation_date e)
          <> first_year_token (stripped_lines two_years_example).
Proof.
  split; [reflexivity|].
  eexists. split; [reflexivity|]. split; [reflexivity|]. discriminate.
Qed.

(** ** Projects: the technologies line *)

(** C6, as the specification states it, fails: the line "Technologies: Python" contains
    the keyword and is scanned while the record "My Project" is in
    progress, but it starts with an upper-case letter, so it starts a new
    record, and no record gets "Python" as its technologies. *)
Lemma tech_line_starts_new_record :
  is_tech_line "Technologies: Python" = true
  /\ foldM proj_step ["My Project"] ([], None) =
     Ok ([], Some {| p_name := "My Project"; description := ""; technologies := "" |})
  /\ _extract_projects capital_tech_example =
     Ok [ {| p_name := "My Project"; description := ""; technologies := "" |};
          {| p_name := "Technologies: Python"; description := "";
             technologies := "" |} ].
Proof. repeat split. Qed.

(** ** The container kind *)

Section ParseFile.
Variable pdf_pages : UploadedFile -> result (list string).
Variable docx_paragraphs : UploadedFile -> result (list string).

Lemma file_type_of_ok (file : UploadedFile) :
  exists file_type, file_type_of file = Ok file_type.
Proof.
  unfold file_type_of.
  destruct (index_last_ok (split "." (file_name file)) (split_nonempty _ _))
    as [ext ->].
  simpl. eauto.
Qed.

(** C8.  The kind of a file is the lowered text after the last dot of its
    name.  [parse_file] raises the unsupported-format error, having called
    neither document reader, exactly when the kind is none of "pdf",
    "docx" and "doc"; for a supported kind it calls one reader, once. *)
Theorem parse_file_unsupported_format (file : UploadedFile) :
  exists file_type, file_type_of file = Ok file_type
    /\ (parse_file pdf_pages docx_paragraphs file
          = ([], Raise (ValueError "Unsupported file format"))
        <-> in_list file_type ["pdf"; "docx"; "doc"] = false)
    /\ (in_list file_type ["pdf"; "docx"; "doc"] = true ->
        exists reader_call,
          fst (parse_file pdf_pages docx_paragraphs file) = [reader_call]).
Proof.
  destruct (file_type_of_ok file) as [file_type Hft].
  exists file_type. split; [exact Hft|].
  unfold parse_file. rewrite Hft.
  change (in_list file_type ["pdf"; "docx"; "doc"])
    with ((file_type =? "pdf")%string || in_list file_type ["docx"; "doc"]).
  destruct (file_type =? "pdf")%string; cbn [orb].
  - split; [split; intros H; discriminate H|]. intros _. simpl. eauto.
  - destruct (in_list file_type ["docx"; "doc"]).
    + split; [split; intros H; discriminate H|]. intros _. simpl. eauto.
    + split; [split; reflexivity|]. intros H; discriminate H.
Qed.
End ParseFile.

(** ** The section segmenter *)

Lemma header_of_truthy (line sec : string) :
  header_of line = Some sec -> truthy sec = true.
Proof.
  unfold header_of. intros H.
  destruct (List.find _ section_keywords) as [[name kws]|] eqn:E; [|discriminate].
  injection H as <-. apply find_some in E. destruct E as [Hin _].
  simpl in Hin.
  repeat (destruct Hin as [Hin|Hin]; [injection Hin as <- _; reflexivity|]).
  contradiction.
Qed.

Lemma capture_snoc (lines : list string) (k : string) (body rest : list string)
    (line : string) :
  capture lines k body rest -> capture (lines ++ [line]) k body (rest ++ [line]).
Proof.
  intros (pre & h & -> & Hh & Hbody). exists pre, h.
  split; [|auto]. rewrite <- !app_assoc. simpl. rewrite <- app_assoc. reflexivity.
Qed.

Lemma at_header_snoc (rest : list string) (line : string) :
  at_header rest -> at_header (rest ++ [line]).
Proof. intros (h & rest' & -> & Hh). exists h, (rest' ++ [line]). auto. Qed.

Ltac extend_capture :=
  repeat match goal with
         | |- _ /\ _ => split
         | |- capture (_ ++ [_]) _ _ (_ ++ [_]) => apply capture_snoc; assumption
         | |- at_header (_ ++ [_]) => apply at_header_snoc; assumption
         | _ => assumption || reflexivity
         end.

Lemma seg_inv_init : seg_inv [] seg_init.
Proof.
  split; simpl.
  - intros k v H. rewrite lookup_empty in H. discriminate.
  - auto.
Qed.

(** What [save_section] adds: the open section, when it has lines. *)
Lemma save_section_lookup (seen : list string) (st : seg_state) (k v : string) :
  seg_inv seen st ->
  save_section st !! k = Some v ->
  sections st !! k = Some v
  \/ (section_content st <> []
      /\ capture seen k (section_content st) []
      /\ v = join "
" (section_content st)).
Proof.
  intros [_ Hcur]. unfold save_section.
  destruct (current_section st) as [sec|]; [|auto].
  destruct Hcur as [Hsec Hcap]. rewrite Hsec.
  destruct (section_content st) as [|l ls] eqn:E; [auto|].
  destruct (decide (sec = k)) as [->|Hne].
  - rewrite lookup_insert_eq. intros [= <-]. right.
    split; [discriminate|]. auto.
  - rewrite lookup_insert_ne by exact Hne. auto.
Qed.

Lemma seg_step_inv (seen : list string) (st : seg_state) (line : string) :
  seg_inv seen st -> seg_inv (seen ++ [line]) (seg_step st line).
Proof.
  intros Hinv. pose proof Hinv as [Hsec Hcur]. unfold seg_step.
  destruct (header_of line) as [sec'|] eqn:Hline.
  - (* a header line: the open section is saved, a new one opens *)
    split; cbn [sections current_section section_content].
    + intros k v Hk.
      destruct (save_section_lookup seen st k v Hinv Hk)
        as [Hold | (Hne & Hcap & ->)].
      * destruct (Hsec k v Hold) as (body & rest & Hb & Hc & Hr & ->).
        exists body, (rest ++ [line]). extend_capture.
      * exists (section_content st), [line].
        split; [exact Hne|]. split; [exact (capture_snoc _ _ _ _ line Hcap)|].
        split; [|reflexivity]. exists line, []. split; [reflexivity|congruence].
    + split; [exact (header_of_truthy _ _ Hline)|].
      exists seen, line. split; [reflexivity|]. split; [exact Hline | constructor].
  - destruct (current_section st) as [sec|] eqn:Ecur.
    + (* a body line of the open section *)
      destruct Hcur as [Htr Hcap]. rewrite Htr.
      split; cbn [sections current_section section_content].
      * intros k v Hk.
        destruct (Hsec k v Hk) as (body & rest & Hb & Hc & Hr & ->).
        exists body, (rest ++ [line]). extend_capture.
      * split; [exact Htr|].
        destruct Hcap as (pre & h & -> & Hh & Hbody).
        exists pre, h. rewrite !app_nil_r.
        split; [rewrite <- app_assoc; reflexivity|].
        split; [exact Hh|]. apply Forall_app. split; [exact Hbody|].
        constructor; [exact Hline | constructor].
    + (* a line before the first header *)
      destruct Hcur as (Hempty & Hcontent & Hseen).
      split.
      * intros k v Hk. rewrite Hempty, lookup_empty in Hk. discriminate.
      * rewrite Ecur. split; [exact Hempty|]. split; [exact Hcontent|].
        apply Forall_app. split; [exact Hseen|].
        constructor; [exact Hline | constructor].
Qed.

Lemma seg_scan_inv (lines seen : list string) (st : seg_state) :
  seg_inv seen st ->
  seg_inv (seen ++ lines) (List.fold_left seg_step lines st).
Proof.
  revert seen st. induction lines as [|line lines IH]; intros seen st Hinv; simpl.
  - rewrite app_nil_r. exact Hinv.
  - replace (seen ++ line :: lines)%list with ((seen ++ [line]) ++ lines)%list
      by (rewrite <- app_assoc; reflexivity).
    apply IH, seg_step_inv, Hinv.
Qed.

(** Every entry of the section mapping is the text of a non-empty run of
    captured lines. *)
Lemma sections_captured (text k v : string) :
  _split_into_sections text !! k = Some v ->
  exists body,
    body <> [] /\ captured (split "010" text) k body /\ v = join "
" body.
Proof.
  unfold _split_into_sections. intros Hk.
  pose proof (seg_scan_inv (split "010" text) [] seg_init seg_inv_init) as Hinv.
  simpl in Hinv.
  destruct (save_section_lookup _ _ k v Hinv Hk) as [Hold | (Hne & Hcap & ->)].
  - destruct (inv_sections _ _ Hinv k v Hold) as (body & rest & Hb & Hc & Hr & ->).
    exists body. split; [exact Hb|]. split; [|reflexivity].
    exists rest. auto.
  - eexists. split; [exact Hne|]. split; [|reflexivity].
    exists []. auto.
Qed.


(** A header with nothing under it leaves no entry. *)
Example empty_section_example :
  _split_into_sections "John Doe
Education
Skills
Python, SQL" !! "education" = None
  /\ _split_into_sections "John Doe
Education
Skills
Python, SQL" !! "skills" = Some "Python, SQL".
Proof. split; vm_compute; reflexivity. Qed.





(** ** The ATS score *)

Import ATSScorer.
Local Open Scope Z_scope.

Lemma get_all_text_ok (r : ResumeRecord) : exists t, _get_all_text r = Ok t.
Proof.
  unfold _get_all_text. destruct (summary r) as [s|]; simpl; [|eauto].
  destruct (truthy s); simpl; eauto.
Qed.

Lemma has_entries_ok (v : option (list sdict)) : exists b, has_entries v = Ok b.
Proof.
  unfold has_entries. destruct v as [l|]; simpl; [|eauto].
  destruct (nonempty l); simpl; eauto.
Qed.

Ltac split_ifs :=
  repeat match goal with
         | |- context [if ?b then _ else _] => destruct b
         end.

Lemma format_structure_bounds (r : ResumeRecord) :
  0 <= _score_format_structure r <= 100.
Proof. unfold _score_format_structure. split_ifs; lia. Qed.

Lemma content_quality_bounds (r : ResumeRecord) :
  0 <= _score_content_quality r <= 100.
Proof.
  unfold _score_content_quality.
  destruct (default (SkillsDict []) (skills r)); split_ifs; lia.
Qed.

Lemma completeness_bounds (r : ResumeRecord) :
  exists v, _score_completeness r = Ok v /\ 0 <= v <= 100.
Proof.
  unfold _score_completeness.
  destruct (has_entries_ok (education r)) as [b1 ->].
  destruct (has_entries_ok (experience r)) as [b2 ->].
  simpl. eexists. split; [reflexivity|]. split_ifs; lia.
Qed.

Lemma metrics_score_bounds (n : Z) : 0 <= metrics_score n <= 100.
Proof. unfold metrics_score. split_ifs; lia. Qed.

Lemma quantifiable_results_bounds (r : ResumeRecord) :
  exists v, _score_quantifiable_results r = Ok v /\ 0 <= v <= 100.
Proof.
  unfold _score_quantifiable_results.
  destruct (get_all_text_ok r) as [t ->]. simpl.
  eexists. split; [reflexivity|]. apply metrics_score_bounds.
Qed.

Lemma cap100_bounds (x : Q) : (0 <= x -> 0 <= cap100 x <= 100)%Q.
Proof.
  intros Hx. unfold cap100. destruct (Qle_bool x 100) eqn:E.
  - apply Qle_bool_iff in E. split; assumption.
  - split; discriminate.
Qed.

Lemma ratio_score_bounds (count per : Z) :
  0 <= count -> 0 < per -> (0 <= ratio_score count per <= 100)%Q.
Proof.
  intros Hc Hp. apply cap100_bounds.
  apply Qmult_le_0_compat; [|discriminate].
  apply Qle_shift_div_l.
  - change 0%Q with (inject_Z 0). rewrite <- Zlt_Qlt. exact Hp.
  - rewrite Qmult_0_l. change 0%Q with (inject_Z 0). rewrite <- Zle_Qle. exact Hc.
Qed.

Lemma count_present_nonneg (vocabulary : list string) (t : string) :
  0 <= count_present vocabulary t.
Proof. unfold count_present. lia. Qed.

Lemma keywords_bounds (r : ResumeRecord) :
  exists k, _score_keywords r = Ok k /\ (0 <= k <= 100)%Q.
Proof.
  unfold _score_keywords. destruct (get_all_text_ok r) as [t ->]. simpl.
  eexists. split; [reflexivity|].
  pose proof (ratio_score_bounds (count_present technical_keywords (lower t)) 10
                (count_present_nonneg _ _) eq_refl).
  pose proof (ratio_score_bounds (count_present action_verbs (lower t)) 8
                (count_present_nonneg _ _) eq_refl).
  pose proof (ratio_score_bounds (count_present soft_skills (lower t)) 5
                (count_present_nonneg _ _) eq_refl).
  lra.
Qed.

Lemma inject_Z_bounds (n : Z) : 0 <= n <= 100 -> (0 <= inject_Z n <= 100)%Q.
Proof.
  intros [H0 H100]. split.
  - change 0%Q with (inject_Z 0). rewrite <- Zle_Qle. exact H0.
  - change 100%Q with (inject_Z 100). rewrite <- Zle_Qle. exact H100.
Qed.

(** The sub-scores exist and lie between 0 and 100. *)
Lemma sub_scores_bounds (r : ResumeRecord) :
  exists scores, sub_scores r = Ok scores
    /\ 0 <= format_structure scores <= 100
    /\ (0 <= keyword_optimization scores <= 100)%Q
    /\ 0 <= content_quality scores <= 100
    /\ 0 <= completeness scores <= 100
    /\ 0 <= quantifiable_results scores <= 100.
Proof.
  unfold sub_scores.
  destruct (keywords_bounds r) as (k & -> & Hk).
  destruct (completeness_bounds r) as (c & -> & Hc).
  destruct (quantifiable_results_bounds r) as (q & -> & Hq).
  simpl. eexists. split; [reflexivity|]. simpl.
  auto using format_structure_bounds, content_quality_bounds.
Qed.

Lemma weighted_sum_bounds (scores : Scores) :
  0 <= format_structure scores <= 100 ->
  (0 <= keyword_optimization scores <= 100)%Q ->
  0 <= content_quality scores <= 100 ->
  0 <= completeness scores <= 100 ->
  0 <= quantifiable_results scores <= 100 ->
  (0 <= weighted_sum scores <= 100)%Q.
Proof.
  intros Hf Hk Hc Hp Hq. unfold weighted_sum.
  apply inject_Z_bounds in Hf, Hc, Hp, Hq. lra.
Qed.

(** [round()] is a nearest integer, and even at a tie. *)
Lemma py_round_nearest (x : Q) :
  (inject_Z (py_round x) - x <= 1 # 2)%Q
  /\ (x - inject_Z (py_round x) <= 1 # 2)%Q
  /\ ((x - inject_Z (py_round x) == 1 # 2)%Q
      \/ (inject_Z (py_round x) - x == 1 # 2)%Q ->
      Z.even (py_round x) = true).
Proof.
  unfold py_round.
  pose proof (Qfloor_le x) as Hlo. pose proof (Qlt_floor x) as Hhi.
  rewrite inject_Z_plus in Hhi. change (inject_Z 1) with 1%Q in Hhi.
  destruct (Qcompare_spec (x - inject_Z (Qfloor x)) (1 # 2)) as [E|L|G].
  - destruct (Z.even (Qfloor x)) eqn:Ev.
    + split; [lra|]. split; [lra|]. intros _. exact Ev.
    + rewrite inject_Z_plus. change (inject_Z 1) with 1%Q.
      split; [lra|]. split; [lra|]. intros _.
      rewrite Z.even_add, Ev. reflexivity.
  - split; [lra|]. split; [lra|]. intros [H|H]; lra.
  - rewrite inject_Z_plus. change (inject_Z 1) with 1%Q.
    split; [lra|]. split; [lra|]. intros [H|H]; lra.
Qed.

Lemma py_round_bounds (x : Q) : (0 <= x <= 100)%Q -> 0 <= py_round x <= 100.
Proof.
  intros [H0 H100].
  destruct (py_round_nearest x) as (Hup & Hdown & _).
  split.
  - assert (inject_Z (-1) < inject_Z (py_round x))%Q as H
        by (change (inject_Z (-1)) with (-1)%Q; lra).
    rewrite <- Zlt_Qlt in H. lia.
  - assert (inject_Z (py_round x) < inject_Z 101)%Q as H
        by (change (inject_Z 101) with 101%Q; lra).
    rewrite <- Zlt_Qlt in H. lia.
Qed.

(** C1.  For every resume record, [calculate_score] returns a pair, not an
    exception, and the first component is an integer between 0 and 100.
    (The record type holds exactly the well-shaped records, with any key
    possibly missing and [skills] in either of its two shapes.) *)
Theorem calculate_score_in_range (resume_data : ResumeRecord) :
  exists score feedback,
    calculate_score resume_data = Ok (score, feedback)
    /\ 0 <= score <= 100.
Proof.
  unfold calculate_score.
  destruct (sub_scores_bounds resume_data) as (scores & -> & Hf & Hk & Hc & Hp & Hq).
  simpl. eexists _, _. split; [reflexivity|].
  apply py_round_bounds, weighted_sum_bounds; assumption.
Qed.

Lemma calculate_score_ok (resume_data : ResumeRecord) :
  exists scores,
    sub_scores resume_data = Ok scores
    /\ calculate_score resume_data =
       Ok (py_round (weighted_sum scores), _generate_feedback scores resume_data).
Proof.
  unfold calculate_score.
  destruct (sub_scores_bounds resume_data) as (scores & -> & _).
  simpl. eauto.
Qed.

(** C4, as the code has it.  The score is the weighted sum of the five
    sub-scores, with the weights 0.20, 0.25, 0.20, 0.20 and 0.15, rounded
    to the nearest integer, a sum with fractional part one half going to
    the even neighbour. *)
Theorem score_is_weighted_sum_rounded_half_even (resume_data : ResumeRecord) :
  exists scores score feedback,
    sub_scores resume_data = Ok scores
    /\ calculate_score resume_data = Ok (score, feedback)
    /\ (weighted_sum scores ==
          (1 # 5) * inject_Z (format_structure scores)
          + (1 # 4) * keyword_optimization scores
          + (1 # 5) * inject_Z (content_quality scores)
          + (1 # 5) * inject_Z (completeness scores)
          + (3 # 20) * inject_Z (quantifiable_results scores))%Q
    /\ (inject_Z score - weighted_sum scores <= 1 # 2)%Q
    /\ (weighted_sum scores - inject_Z score <= 1 # 2)%Q
    /\ ((weighted_sum scores - inject_Z score == 1 # 2)%Q
        \/ (inject_Z score - weighted_sum scores == 1 # 2)%Q ->
        Z.even score = true).
Proof.
  destruct (calculate_score_ok resume_data) as (scores & Hs & Hc).
  exists scores, (py_round (weighted_sum scores)),
    (_generate_feedback scores resume_data).
  split; [exact Hs|]. split; [exact Hc|].
  split; [unfold weighted_sum; lra|].
  apply py_round_nearest.
Qed.

(** C4, as the specification states it, fails: the weighted sum of [one_metric_record]
    is 10.5 (content quality 10, completeness 20, quantifiable results 30),
    which rounds half up to 11, and the score is 10. *)
Lemma score_is_not_rounded_half_up :
  exists scores feedback,
    sub_scores one_metric_record = Ok scores
    /\ (weighted_sum scores == 21 # 2)%Q
    /\ calculate_score one_metric_record = Ok (10, feedback)
    /\ round_half_up (weighted_sum scores) = 11
    /\ 10 <> round_half_up (weighted_sum scores).
Proof.
  pose (scores := {| format_structure := 0; keyword_optimization := 0 # 400000;
                     content_quality := 10; completeness := 20;
                     quantifiable_results := 30 |}).
  assert (sub_scores one_metric_record = Ok scores) as Hs
      by (vm_compute; reflexivity).
  exists scores, (_generate_feedback scores one_metric_record).
  split; [exact Hs|]. split; [reflexivity|].
  split; [unfold calculate_score; rewrite Hs; reflexivity|].
  split; [reflexivity|]. discriminate.
Qed.

(** The same sum in binary64 arithmetic is exactly 10.5 as well. *)
Lemma one_metric_binary64 : weighted_sum_binary64 0 0 10 20 30 = 10.5%float.
Proof. reflexivity. Qed.

(** ** The scorer as an object: the calls only read *)

Section Store.
Import ScorerObject.

Lemma get_all_text_reads (st : store) :
  _get_all_text st = (ATSScorer._get_all_text (resume_data st), st).
Proof.
  destruct st as [me [pi su ed ex sk pr]].
  destruct su as [[|c s]|], sk as [[d|s']|]; reflexivity.
Qed.

Lemma format_structure_reads (st : store) :
  _score_format_structure st
  = (Ok (ATSScorer._score_format_structure (resume_data st)), st).
Proof. reflexivity. Qed.

Lemma content_quality_reads (st : store) :
  _score_content_quality st
  = (Ok (ATSScorer._score_content_quality (resume_data st)), st).
Proof.
  destruct st as [me [pi su ed ex sk pr]].
  destruct sk as [[d|s']|]; reflexivity.
Qed.

Lemma has_entries_reads (key : ResumeRecord -> option (list sdict)) (st : store) :
  has_entries key st = (ATSScorer.has_entries (key (resume_data st)), st).
Proof.
  unfold has_entries, ATSScorer.has_entries, bind_call, data_get, data_item, ret.
  destruct (key (resume_data st)) as [[|d l]|] eqn:E; cbn [list_truthy nonempty];
    rewrite ?E; reflexivity.
Qed.

Lemma completeness_reads (st : store) :
  _score_completeness st = (ATSScorer._score_completeness (resume_data st), st).
Proof.
  unfold _score_completeness, ATSScorer._score_completeness.
  unfold bind_call at 1 2. cbn [data_get].
  unfold bind_call at 1. rewrite has_entries_reads.
  destruct (ATSScorer.has_entries (education (resume_data st))) as [b1|e];
    [|reflexivity].
  unfold bind_call at 1. rewrite has_entries_reads.
  destruct (ATSScorer.has_entries (experience (resume_data st))) as [b2|e];
    reflexivity.
Qed.

Lemma quantifiable_results_reads (st : store) :
  _score_quantifiable_results st
  = (ATSScorer._score_quantifiable_results (resume_data st), st).
Proof.
  unfold _score_quantifiable_results, ATSScorer._score_quantifiable_results.
  unfold bind_call. rewrite get_all_text_reads.
  destruct (ATSScorer._get_all_text (resume_data st)); reflexivity.
Qed.

(** [_score_keywords] reads the three vocabularies of [self]; on a scorer
    as [__init__] leaves it, they are the fixed vocabularies. *)
Lemma keywords_reads (st : store) :
  exists k, _score_keywords st = (Ok k, st)
    /\ (self st = __init__ ->
        ATSScorer._score_keywords (resume_data st) = Ok k).
Proof.
  unfold _score_keywords, ATSScorer._score_keywords.
  unfold bind_call at 1. rewrite get_all_text_reads.
  destruct (get_all_text_ok (resume_data st)) as [t ->].
  eexists. split; [reflexivity|]. intros ->. reflexivity.
Qed.

Lemma if_app {A : Type} (c : bool) (l m : list A) :
  (if c then l ++ m else l) = l ++ (if c then m else []).
Proof. destruct c; [reflexivity | rewrite app_nil_r; reflexivity]. Qed.

Lemma generate_feedback_reads (scores : Scores) (st : store) :
  _generate_feedback scores st
  = (Ok (ATSScorer._generate_feedback scores (resume_data st)), st).
Proof.
  unfold _generate_feedback, ATSScorer._generate_feedback, missing_sections,
    bind_call, data_get, ret.
  rewrite !if_app.
  destruct (completeness scores <? 80),
    (str_truthy (summary (resume_data st))),
    (list_truthy (projects (resume_data st)));
    cbn [negb andb nonempty app];
    rewrite ?if_app, ?app_nil_r, <- ?app_assoc; reflexivity.
Qed.

(** A call of [calculate_score] returns a pair and leaves the scorer and
    the record as they were. *)
Lemma calculate_score_reads (st : store) :
  exists score feedback,
    calculate_score st = (Ok (score, feedback), st)
    /\ (self st = __init__ ->
        ATSScorer.calculate_score (resume_data st) = Ok (score, feedback)).
Proof.
  unfold calculate_score, ATSScorer.calculate_score, sub_scores.
  unfold bind_call at 1. rewrite format_structure_reads.
  destruct (keywords_reads st) as (k & Hk & Hpure).
  unfold bind_call at 1. rewrite Hk.
  unfold bind_call at 1. rewrite content_quality_reads.
  unfold bind_call at 1. rewrite completeness_reads.
  destruct (completeness_bounds (resume_data st)) as (c & -> & _).
  unfold bind_call at 1. rewrite quantifiable_results_reads.
  destruct (quantifiable_results_bounds (resume_data st)) as (q & -> & _).
  unfold bind_call. rewrite generate_feedback_reads. cbn [ret].
  eexists _, _. split; [reflexivity|].
  intros Hinit. rewrite (Hpure Hinit). reflexivity.
Qed.
End Store.


(** On a new scorer the calls return what [ATSScorer.calculate_score]
    gives. *)
Lemma scorer_object_is_scorer (resume_data : ResumeRecord) :
  fst (ScorerObject.calculate_score (ScorerObject.new_store resume_data))
  = ATSScorer.calculate_score resume_data.
Proof.
  destruct (calculate_score_reads (ScorerObject.new_store resume_data))
    as (score & feedback & -> & Hpure).
  symmetry. exact (Hpure eq_refl).
Qed.

(** * Further properties of the parser *)

Import Scans.
Local Open Scope nat_scope.

(** ** How many records a section gives *)

Lemma edu_scan_count (lines : list string) :
  forall education cur,
  exists education' cur',
    foldM edu_step lines (education, cur) = Ok (education', cur')
    /\ length education' + in_progress cur' =
       length education + in_progress cur + count_lines is_degree_line lines.
Proof.
  induction lines as [|line lines IH]; intros education cur.
  - exists education, cur. split; [reflexivity|]. unfold count_lines. simpl. lia.
  - destruct (edu_step_ok (education, cur) line) as [[ed1 cur1] Hstep].
    assert (length ed1 + in_progress cur1 =
            length education + in_progress cur
            + (if is_degree_line line then 1 else 0)) as Hcount.
    { revert Hstep. unfold edu_step, edu_degree, edu_year, edu_gpa, edu_institution.
      destruct (is_degree_line line);
        destruct (search year_pattern line), (search gpa_pattern line), cur as [e|];
        simpl;
        repeat match goal with
               | |- context [if ?b then _ else _] => destruct b; simpl
               end;
        intros [= <- <-]; rewrite ?length_app; simpl; lia. }
    destruct (IH ed1 cur1) as (ed2 & cur2 & Hscan & Hlen).
    exists ed2, cur2. split.
    + simpl. rewrite Hstep. exact Hscan.
    + unfold count_lines in *. simpl. destruct (is_degree_line line); simpl; lia.
Qed.

(** X1.  On a non-empty section text, the education extractor returns one
    record for every degree line of the text, and one placeholder record
    when the text has no degree line. *)
Theorem education_record_count (text : string) :
  text <> "" ->
  exists entries,
    _extract_education text = Ok entries
    /\ length entries = Nat.max 1 (count_lines is_degree_line (stripped_lines text)).
Proof.
  intros Htext. unfold _extract_education.
  destruct text as [|c text']; [contradiction|]. cbn [truthy negb].
  destruct (edu_scan_count (stripped_lines (String c text')) [] None)
    as (ed & cur & -> & Hlen).
  cbn [bind]. eexists. split; [reflexivity|].
  simpl in Hlen. unfold edu_finish.
  destruct cur as [e|]; simpl in Hlen.
  - rewrite (proj2 (nonempty_true (ed ++ [e]))) by (destruct ed; discriminate).
    rewrite length_app. simpl. lia.
  - destruct ed as [|e ed]; simpl in *; lia.
Qed.

Lemma education_record_count_witness :
  exists entries,
    _extract_education two_years_example = Ok entries
    /\ length entries = 1.
Proof.
  apply (education_record_count two_years_example). discriminate.
Defined.

(** ** Strings: prefixes and occurrences *)

Lemma prefix_refl (s : string) : String.prefix s s = true.
Proof.
  induction s as [|c s IH]; simpl; [reflexivity|].
  destruct (ascii_dec c c); [exact IH | contradiction].
Qed.

Lemma contains_unfold (needle hay : string) :
  contains needle hay =
  String.prefix needle hay
  || match hay with
     | EmptyString => false
     | String _ hay' => contains needle hay'
     end.
Proof. destruct hay; reflexivity. Qed.

(** [s in s]. *)
Lemma contains_refl (s : string) : contains s s = true.
Proof. rewrite contains_unfold, prefix_refl. reflexivity. Qed.

(** ** Strings and lists: appending *)

Lemma append_assoc (a b c : string) : ((a ++ b) ++ c)%string = (a ++ b ++ c)%string.
Proof.
  induction a as [|x a IH]; [reflexivity|].
  change (String x ((a ++ b) ++ c)%string = String x (a ++ b ++ c)%string).
  rewrite IH. reflexivity.
Qed.

Lemma append_empty_r (a : string) : (a ++ "")%string = a.
Proof.
  induction a as [|x a IH]; [reflexivity|].
  change (String x (a ++ "")%string = String x a). rewrite IH. reflexivity.
Qed.

Lemma last_cons {A : Type} (x d : A) (l : list A) :
  List.last (x :: l) d = List.last l x.
Proof.
  revert x d. induction l as [|y l IH]; intros x d; [reflexivity|].
  change (List.last (y :: l) d = List.last (y :: l) x).
  rewrite (IH y d), (IH y x). reflexivity.
Qed.

(** ** Lists: a filter and its complement *)

Lemma filter_none_negb {A : Type} (p : A -> bool) (l : list A) :
  List.filter p l = [] -> List.filter (fun x => negb (p x)) l = l.
Proof.
  induction l as [|x l IH]; simpl; [reflexivity|].
  destruct (p x); simpl; [discriminate|]. intros H. rewrite IH by exact H.
  reflexivity.
Qed.

Lemma filter_negb_none {A : Type} (p : A -> bool) (l : list A) :
  List.filter (fun x => negb (p x)) l = [] -> List.filter p l = l.
Proof.
  induction l as [|x l IH]; simpl; [reflexivity|].
  destruct (p x); simpl; [|discriminate]. intros H. rewrite IH by exact H.
  reflexivity.
Qed.

(** ** The section mapping: its keys, and the text before the first header *)

Lemma header_of_name (line sec : string) :
  header_of line = Some sec -> In sec section_names.
Proof.
  unfold header_of. intros H.
  destruct (List.find _ section_keywords) as [[name kws]|] eqn:E; [|discriminate].
  injection H as <-. apply find_some in E. destruct E as [Hin _].
  apply (in_map fst) in Hin. exact Hin.
Qed.

(** X7.  The keys of the section mapping are among the six section names:
    summary, education, experience, skills, projects and certifications. *)
Theorem section_keys_are_section_names (text : string) :
  dom (_split_into_sections text) ⊆ (list_to_set section_names : gset string).
Proof.
  intros k Hk. apply elem_of_dom in Hk. destruct Hk as [v Hv].
  destruct (sections_captured text k v Hv)
    as (body & _ & (rest & (pre & h & _ & Hh & _) & _) & _).
  apply elem_of_list_to_set, list_elem_of_In, (header_of_name h), Hh.
Qed.

Lemma seg_scan_preamble (lines : list string) :
  Forall no_header lines -> List.fold_left seg_step lines seg_init = seg_init.
Proof.
  induction 1 as [|line lines Hline _ IH]; [reflexivity|].
  cbn [List.fold_left]. unfold seg_step at 2. rewrite Hline. exact IH.
Qed.

(** X8.  The text before the first header line does not matter: putting
    lines that are not header lines in front of a text leaves its section
    mapping unchanged. *)
Theorem preamble_is_ignored (preamble text : string) :
  Forall no_header (split "010" preamble) ->
  _split_into_sections (preamble ++ String "010" text)%string
  = _split_into_sections text.
Proof.
  intros Hpre. unfold _split_into_sections.
  rewrite split_app_sep, fold_left_app, (seg_scan_preamble _ Hpre).
  reflexivity.
Qed.

Lemma preamble_is_ignored_witness :
  _split_into_sections (preamble_example ++ String "010" sections_example)%string
  = _split_into_sections sections_example.
Proof.
  apply (preamble_is_ignored preamble_example sections_example).
  repeat constructor.
Defined.

(** ** Reading a file: what the readers give is what gets parsed *)

Lemma parse_text_ok (text : string) :
  exists r, _parse_text text = Ok r /\ raw_text r = text.
Proof.
  unfold _parse_text.
  destruct (personal_info_ok text) as (info & -> & _). cbn [bind].
  destruct (education_ok (section (_split_into_sections text) "education"))
    as (ed & -> & _). cbn [bind].
  destruct (experience_ok (section (_split_into_sections text) "experience"))
    as (ex & -> & _). cbn [bind].
  destruct (projects_ok (section (_split_into_sections text) "projects"))
    as (pr & -> & _). cbn [bind].
  eexists. split; reflexivity.
Qed.

Section ReadFile.
Variable pdf_pages : UploadedFile -> result (list string).
Variable docx_paragraphs : UploadedFile -> result (list string).

(** X9.  For a file of a supported kind, [parse_file] fails only when the
    document reader fails, and then with the reader's own exception; when
    the reader gives the texts of the pages or paragraphs, parsing
    succeeds, and the record's [raw_text] is these texts, each followed by
    a newline. *)
Theorem parse_file_follows_reader (file : UploadedFile) (file_type : string) :
  file_type_of file = Ok file_type ->
  in_list file_type ["pdf"; "docx"; "doc"] = true ->
  match (if (file_type =? "pdf")%string then pdf_pages else docx_paragraphs) file with
  | Raise e => snd (parse_file pdf_pages docx_paragraphs file) = Raise e
  | Ok parts =>
      exists r, snd (parse_file pdf_pages docx_paragraphs file) = Ok r
        /\ raw_text r = concat_lines parts
  end.
Proof.
  intros Hft Hsup. unfold parse_file. rewrite Hft.
  change (in_list file_type ["pdf"; "docx"; "doc"])
    with ((file_type =? "pdf")%string || in_list file_type ["docx"; "doc"]) in Hsup.
  destruct (file_type =? "pdf")%string; cbn [orb] in Hsup.
  - cbn [_extract_pdf_text snd]. destruct (pdf_pages file) as [pages|e]; cbn [bind].
    + apply parse_text_ok.
    + reflexivity.
  - rewrite Hsup. cbn [_extract_docx_text snd].
    destruct (docx_paragraphs file) as [paragraphs|e]; cbn [bind].
    + apply parse_text_ok.
    + reflexivity.
Qed.
End ReadFile.

Lemma parse_file_follows_reader_witness :
  exists r,
    snd (parse_file (fun _ => Ok ["John Doe"; "Skills"])
           (fun _ => Raise (LibraryError "not a Word file"))
           {| file_name := "cv.final.PDF"; file_bytes := "" |}) = Ok r
    /\ raw_text r = concat_lines ["John Doe"; "Skills"].
Proof.
  apply (parse_file_follows_reader (fun _ => Ok ["John Doe"; "Skills"])
           (fun _ => Raise (LibraryError "not a Word file"))
           {| file_name := "cv.final.PDF"; file_bytes := "" |} "pdf").
  - reflexivity.
  - reflexivity.
Defined.

(** ** The extracted text: one line for each page or paragraph *)

Lemma concat_lines_from (parts : list string) (text : string) :
  List.fold_left (fun text x => (text ++ x ++ "
")%string) parts text
  = (text ++ concat_lines parts)%string.
Proof.
  unfold concat_lines. revert text.
  induction parts as [|x parts IH]; intros text; cbn [List.fold_left].
  - rewrite append_empty_r. reflexivity.
  - rewrite IH, (IH ("" ++ x ++ "
")%string). rewrite append_assoc. reflexivity.
Qed.

(** X10.  When no page or paragraph text contains a newline, the lines of
    the extracted text are exactly these texts, in order, followed by one
    empty line. *)
Theorem extracted_text_lines (parts : list string) :
  Forall (fun x => has_char "010" x = false) parts ->
  split "010" (concat_lines parts) = parts ++ [""].
Proof.
  induction 1 as [|x parts Hx _ IH]; [reflexivity|].
  unfold concat_lines. cbn [List.fold_left].
  rewrite concat_lines_from.
  change ("" ++ x ++ "
")%string with (x ++ "
")%string.
  rewrite append_assoc.
  change ("
" ++ concat_lines parts)%string with (String "010" (concat_lines parts)).
  rewrite split_app_sep, (split_without_sep _ _ Hx), IH. reflexivity.
Qed.

Lemma extracted_text_lines_witness :
  split "010" (concat_lines ["John Doe"; ""; "Skills: Python"])
  = ["John Doe"; ""; "Skills: Python"] ++ [""].
Proof.
  apply (extracted_text_lines ["John Doe"; ""; "Skills: Python"]).
  repeat constructor.
Defined.

(** ** Personal information: the three kinds of links *)

Lemma next_or_empty_found (p : string -> bool) (l : list string) :
  next_or_empty p l <> "" ->
  In (next_or_empty p l) l /\ p (next_or_empty p l) = true.
Proof.
  unfold next_or_empty. destruct (List.find p l) as [x|] eqn:E.
  - intros _. apply find_some in E. exact E.
  - intros H. contradiction.
Qed.

(** The three [next(...)] searches of the extractor, each over the URLs
    found in the text. *)
Lemma links_unfold (text : string) (info : PersonalInfo) :
  _extract_personal_info text = Ok info ->
  let urls := findall url_pattern text in
  linkedin info = next_or_empty (fun url => contains "linkedin" (lower url)) urls
  /\ github info = next_or_empty (fun url => contains "github" (lower url)) urls
  /\ portfolio info =
     next_or_empty
       (fun url => negb (in_list url [linkedin info; github info])) urls.
Proof.
  unfold _extract_personal_info.
  destruct (if nonempty (findall email_pattern text) then _ else _) as [e|];
    [|discriminate]; cbn [bind].
  destruct (if nonempty (findall phone_pattern text) then _ else _) as [ph|];
    [|discriminate]; cbn [bind].
  destruct (if nonempty (stripped_lines text) then _ else _) as [n|];
    [|discriminate]; cbn [bind].
  intros [= <-]. cbn [linkedin github portfolio]. auto.
Qed.

(** X11.  The links of the personal information are URLs found in the
    text: a non-empty [linkedin] contains "linkedin" and a non-empty
    [github] contains "github" (in any letter case), and a non-empty
    [portfolio] is different from both. *)
Theorem links_are_classified (text : string) (info : PersonalInfo) :
  _extract_personal_info text = Ok info ->
  (linkedin info <> "" ->
   In (linkedin info) (findall url_pattern text)
   /\ contains "linkedin" (lower (linkedin info)) = true)
  /\ (github info <> "" ->
      In (github info) (findall url_pattern text)
      /\ contains "github" (lower (github info)) = true)
  /\ (portfolio info <> "" ->
      In (portfolio info) (findall url_pattern text)
      /\ portfolio info <> linkedin info
      /\ portfolio info <> github info).
Proof.
  intros H. destruct (links_unfold text info H) as (Hl & Hg & Hp).
  split; [|split].
  - rewrite Hl. apply next_or_empty_found.
  - rewrite Hg. apply next_or_empty_found.
  - intros Hne. rewrite Hp in Hne. apply next_or_empty_found in Hne.
    rewrite <- Hp in Hne. destruct Hne as [Hin Hnot].
    split; [exact Hin|].
    apply negb_true_iff in Hnot. cbn [in_list List.existsb] in Hnot.
    apply orb_false_iff in Hnot. destruct Hnot as [Hnl Hng].
    apply orb_false_iff in Hng. destruct Hng as [Hng _].
    split; [apply String.eqb_neq, Hnl | apply String.eqb_neq, Hng].
Qed.

Lemma links_are_classified_witness :
  exists info,
    _extract_personal_info "Jane
https://github.com/jane https://jane.dev" = Ok info
    /\ (linkedin info <> "" ->
        In (linkedin info) (findall url_pattern "Jane
https://github.com/jane https://jane.dev")
        /\ contains "linkedin" (lower (linkedin info)) = true)
    /\ (github info <> "" ->
        In (github info) (findall url_pattern "Jane
https://github.com/jane https://jane.dev")
        /\ contains "github" (lower (github info)) = true)
    /\ (portfolio info <> "" ->
        In (portfolio info) (findall url_pattern "Jane
https://github.com/jane https://jane.dev")
        /\ portfolio info <> linkedin info
        /\ portfolio info <> github info).
Proof.
  eexists. split; [vm_compute; reflexivity|].
  apply (links_are_classified "Jane
https://github.com/jane https://jane.dev"). vm_compute. reflexivity.
Defined.

(** ** Matches are pieces of the text *)

Lemma rep_hands_suffix {A : Type} (p : ascii -> bool) (s : string) :
  forall lo hi prev (k : option ascii -> string -> option A) a,
  rep p lo hi prev s k = Some a ->
  exists prev' s' pre, s = (pre ++ s')%string /\ k prev' s' = Some a.
Proof.
  induction s as [|c s IH]; intros lo hi prev k a; cbn [rep].
  - destruct (Nat.eqb lo 0); [|discriminate]. intros H. exists prev, "", "". auto.
  - assert (forall r, (if Nat.eqb lo 0 then k prev (String c s) else None) = Some r ->
              exists prev' s' pre,
                String c s = (pre ++ s')%string /\ k prev' s' = Some r) as Hstop.
    { intros r. destruct (Nat.eqb lo 0); [|discriminate].
      intros H. exists prev, (String c s), "". auto. }
    destruct (p c && may_repeat hi); [|apply Hstop].
    destruct (rep p (Nat.pred lo) (dec_hi hi) (Some c) s k) as [r|] eqn:E;
      [|apply Hstop].
    intros [= <-]. destruct (IH _ _ _ _ _ E) as (prev' & s' & pre & -> & Hk).
    exists prev', s', (String c pre). auto.
Qed.

Lemma run_hands_suffix {A : Type} (r : regex) :
  forall prev s (k : option ascii -> string -> option A) a,
  run r prev s k = Some a ->
  exists prev' s' pre, s = (pre ++ s')%string /\ k prev' s' = Some a.
Proof.
  induction r as [|p|r1 IH1 r2 IH2|r1 IH1 r2 IH2|r1 IH1|p lo hi| |];
    intros prev s k a; cbn [run].
  - intros H. exists prev, s, "". auto.
  - destruct s as [|c s]; [discriminate|]. destruct (p c); [|discriminate].
    intros H. exists (Some c), s, (String c ""). auto.
  - intros H. destruct (IH1 _ _ _ _ H) as (prev1 & s1 & pre1 & -> & H1).
    destruct (IH2 _ _ _ _ H1) as (prev2 & s2 & pre2 & -> & H2).
    exists prev2, s2, (pre1 ++ pre2)%string. rewrite append_assoc. auto.
  - destruct (run r1 prev s k) as [x|] eqn:E.
    + intros [= <-]. exact (IH1 _ _ _ _ E).
    + apply IH2.
  - destruct (run r1 prev s k) as [x|] eqn:E.
    + intros [= <-]. exact (IH1 _ _ _ _ E).
    + intros H. exists prev, s, "". auto.
  - apply rep_hands_suffix.
  - destruct (xorb _ _); [|discriminate]. intros H. exists prev, s, "". auto.
  - destruct prev; [discriminate|]. intros H. exists None, s, "". auto.
Qed.

Lemma length_append (a b : string) :
  String.length (a ++ b)%string = String.length a + String.length b.
Proof.
  induction a as [|x a IH]; [reflexivity|].
  change (S (String.length (a ++ b)%string) = S (String.length a + String.length b)).
  rewrite IH. reflexivity.
Qed.

Lemma take_append (a b : string) : take (String.length a) (a ++ b)%string = a.
Proof.
  induction a as [|x a IH]; [destruct b; reflexivity|].
  change (String x (take (String.length a) (a ++ b)%string) = String x a).
  rewrite IH. reflexivity.
Qed.

Lemma consumed_append (pre rest : string) : consumed (pre ++ rest)%string rest = pre.
Proof.
  unfold consumed. rewrite length_append.
  replace (String.length pre + String.length rest - String.length rest)
    with (String.length pre) by lia.
  apply take_append.
Qed.

(** A match at the front of [s] splits [s] into its text and the rest. *)
Lemma match_here_splits (g rest : regex) (prev : option ascii) (s g1 s2 : string) :
  match_here g rest prev s = Some (g1, s2) ->
  s = (consumed s s2 ++ s2)%string.
Proof.
  unfold match_here. intros H.
  destruct (run_hands_suffix _ _ _ _ _ H) as (p1 & s1 & pre1 & -> & H1).
  destruct (run_hands_suffix _ _ _ _ _ H1) as (p2 & s2' & pre2 & -> & H2).
  injection H2 as _ <-.
  rewrite <- append_assoc, consumed_append. reflexivity.
Qed.

Lemma findall_at_pieces (g rest : regex) (s : string) :
  forall prev skip g1 whole,
  In (g1, whole) (findall_at g rest prev skip s) ->
  exists a b, s = (a ++ whole ++ b)%string.
Proof.
  induction s as [|c s IH]; intros prev skip g1 whole.
  - destruct skip; cbn [findall_at]; [|contradiction].
    destruct (match_here g rest prev "") as [[g0 s2]|] eqn:E; [|contradiction].
    intros [[= <- <-]|[]]. exists "", s2. exact (match_here_splits _ _ _ _ _ _ E).
  - assert (forall prev' skip',
              In (g1, whole) (findall_at g rest prev' skip' s) ->
              exists a b, String c s = (a ++ whole ++ b)%string) as Htail.
    { intros prev' skip' Hin. destruct (IH _ _ _ _ Hin) as (a & b & ->).
      exists (String c a), b. reflexivity. }
    destruct skip; cbn [findall_at]; [|apply Htail].
    destruct (match_here g rest prev (String c s)) as [[g0 s2]|] eqn:E;
      [|apply Htail].
    intros [[= <- <-]|Hin]; [|exact (Htail _ _ Hin)].
    exists "", s2. exact (match_here_splits _ _ _ _ _ _ E).
Qed.

(** Every text that [re.findall] returns for a pattern without a group
    occurs in the string. *)
Lemma findall_pieces (r : regex) (s w : string) :
  In w (findall r s) -> exists a b, s = (a ++ w ++ b)%string.
Proof.
  unfold findall. intros Hin. apply in_map_iff in Hin.
  destruct Hin as ([g1 whole] & <- & Hin).
  exact (findall_at_pieces _ _ _ _ _ _ _ Hin).
Qed.

Lemma index_first_in {A : Type} (l : list A) (x : A) :
  (if nonempty l then index l 0 else Ok x) = Ok x \/
  exists y, (if nonempty l then index l 0 else Ok x) = Ok y /\ In y l.
Proof. destruct l as [|y l]; [left; reflexivity|]. right. exists y. simpl. auto. Qed.

(** X12.  The extractor invents no contact detail: a non-empty [email],
    [phone], [linkedin], [github] or [portfolio] occurs verbatim in the
    text. *)
Theorem contact_details_occur_in_text (text : string) (info : PersonalInfo) :
  _extract_personal_info text = Ok info ->
  forall v,
    In v [email info; phone info; linkedin info; github info; portfolio info] ->
    v <> "" ->
    exists a b, text = (a ++ v ++ b)%string.
Proof.
  intros H.
  assert (forall v, v <> "" ->
            In v [linkedin info; github info; portfolio info] ->
            In v (findall url_pattern text)) as Hurl.
  { intros v Hv Hin.
    destruct (links_unfold text info H) as (Hl & Hg & Hp).
    destruct Hin as [<-|[<-|[<-|[]]]];
      [rewrite Hl in Hv |- * | rewrite Hg in Hv |- * | rewrite Hp in Hv |- *];
      apply next_or_empty_found, Hv. }
  revert H. unfold _extract_personal_info.
  destruct (index_first_in (findall email_pattern text) "") as [->|(e & -> & He)];
    destruct (index_first_in (findall phone_pattern text) "") as [->|(ph & -> & Hph)];
    cbn [bind];
    (destruct (if nonempty (stripped_lines text) then _ else _) as [n|];
     [|discriminate]); cbn [bind];
    intros [= <-]; cbn [email phone linkedin github portfolio] in *;
    intros v [<-|[<-|Hin]] Hv;
    try contradiction;
    eauto using findall_pieces.
Qed.

Lemma contact_details_occur_in_text_witness :
  exists a b, contact_example = (a ++ "jane@x.org" ++ b)%string.
Proof.
  eapply (contact_details_occur_in_text contact_example).
  - vm_compute. reflexivity.
  - left. reflexivity.
  - discriminate.
Defined.

(** * Further properties of the scorer *)

Import Pipeline.
Local Open Scope Z_scope.

(** X13.  A missing key counts as an empty value: the score and the
    feedback of a record are those of the record in which every missing key
    is set to the empty mapping, string or list. *)
Theorem missing_key_is_empty_value (resume_data : ResumeRecord) :
  calculate_score (with_defaults resume_data) = calculate_score resume_data.
Proof.
  destruct resume_data as [[pi|] [su|] [ed|] [ex|] [sk|] [pr|]]; reflexivity.
Qed.

(** ** Quantifiable results *)

Lemma metrics_score_monotone (n m : Z) :
  n <= m -> metrics_score n <= metrics_score m.
Proof.
  intros H. unfold metrics_score.
  repeat match goal with
         | |- context [?a <=? ?b] => destruct (Z.leb_spec a b)
         end; lia.
Qed.

(** X14.  The quantifiable-results sub-score is one of 0, 30, 50, 70, 85
    and 100, and it never goes down when the number of metrics found goes
    up. *)
Theorem quantifiable_results_steps (resume_data : ResumeRecord) :
  (exists v, _score_quantifiable_results resume_data = Ok v
     /\ In v [0; 30; 50; 70; 85; 100])
  /\ (forall n m, n <= m -> metrics_score n <= metrics_score m).
Proof.
  split; [|exact metrics_score_monotone].
  unfold _score_quantifiable_results.
  destruct (get_all_text_ok resume_data) as [t ->]. cbn [bind].
  eexists. split; [reflexivity|]. unfold metrics_score.
  split_ifs; simpl; auto 10.
Qed.

(** ** Keywords *)

Lemma ratio_score_full (count per : Z) :
  0 < per -> (ratio_score count per == 100)%Q <-> per <= count.
Proof.
  intros Hp. unfold ratio_score, cap100.
  assert (0 < inject_Z per)%Q as Hq
      by (change 0%Q with (inject_Z 0); rewrite <- Zlt_Qlt; exact Hp).
  set (x := (inject_Z count / inject_Z per)%Q).
  destruct (Z_le_gt_dec per count) as [Hle|Hgt].
  - assert (1 <= x)%Q as Hx.
    { apply Qle_shift_div_l; [exact Hq|]. rewrite Qmult_1_l, <- Zle_Qle. exact Hle. }
    split; [intros _; exact Hle|]. intros _.
    destruct (Qle_bool (x * 100) 100) eqn:E; [|reflexivity].
    apply Qle_bool_iff in E. lra.
  - assert (x < 1)%Q as Hx.
    { apply Qlt_shift_div_r; [exact Hq|]. rewrite Qmult_1_l, <- Zlt_Qlt. lia. }
    split; [|lia]. intros H.
    destruct (Qle_bool (x * 100) 100) eqn:E; [lra|].
    assert (Qle_bool (x * 100) 100 = true) as E'
        by (apply Qle_bool_iff; lra).
    congruence.
Qed.

(** X15.  The keyword sub-score is 100 exactly when the lowered text of
    the record contains at least 10 of the technical keywords, at least 8
    of the action verbs and at least 5 of the soft-skill terms; each term
    counts once, however often it occurs. *)
Theorem keywords_full_score (resume_data : ResumeRecord) :
  exists all_text k,
    _get_all_text resume_data = Ok all_text
    /\ _score_keywords resume_data = Ok k
    /\ ((k == 100)%Q <->
        10 <= count_present technical_keywords (lower all_text)
        /\ 8 <= count_present action_verbs (lower all_text)
        /\ 5 <= count_present soft_skills (lower all_text)).
Proof.
  unfold _score_keywords. destruct (get_all_text_ok resume_data) as [t ->].
  cbn [bind]. eexists _, _. split; [reflexivity|]. split; [reflexivity|].
  set (tc := count_present technical_keywords (lower t)).
  set (ac := count_present action_verbs (lower t)).
  set (sc := count_present soft_skills (lower t)).
  pose proof (ratio_score_bounds tc 10 (count_present_nonneg _ _) eq_refl) as Bt.
  pose proof (ratio_score_bounds ac 8 (count_present_nonneg _ _) eq_refl) as Ba.
  pose proof (ratio_score_bounds sc 5 (count_present_nonneg _ _) eq_refl) as Bs.
  rewrite <- (ratio_score_full tc 10 eq_refl), <- (ratio_score_full ac 8 eq_refl),
    <- (ratio_score_full sc 5 eq_refl).
  split.
  - intros H. repeat split; lra.
  - intros (Ht & Ha & Hs). lra.
Qed.

(** ** Rounding and order *)

Lemma py_round_monotone (x y : Q) : (x <= y)%Q -> py_round x <= py_round y.
Proof.
  intros Hxy.
  destruct (py_round_nearest x) as (Hx1 & Hx2 & Hxe).
  destruct (py_round_nearest y) as (Hy1 & Hy2 & Hye).
  destruct (Z_le_gt_dec (py_round x) (py_round y)) as [Hle|Hgt]; [exact Hle|].
  exfalso.
  assert (inject_Z (py_round y) + 1 <= inject_Z (py_round x))%Q as Hstep.
  { change 1%Q with (inject_Z 1). rewrite <- inject_Z_plus, <- Zle_Qle. lia. }
  assert (Z.even (py_round x) = true) as Ex by (apply Hxe; right; lra).
  assert (Z.even (py_round y) = true) as Ey by (apply Hye; left; lra).
  assert (inject_Z (py_round x) <= inject_Z (py_round y + 1))%Q as Hup
      by (rewrite inject_Z_plus; change (inject_Z 1) with 1%Q; lra).
  rewrite <- Zle_Qle in Hup.
  assert (py_round x = py_round y + 1) as Heq by lia.
  rewrite Heq, Z.even_add, Ey in Ex. discriminate.
Qed.

Lemma weighted_sum_monotone (s1 s2 : Scores) :
  scores_le s1 s2 -> (weighted_sum s1 <= weighted_sum s2)%Q.
Proof.
  intros (Hf & Hk & Hc & Hp & Hq). unfold weighted_sum.
  rewrite Zle_Qle in Hf, Hc, Hp, Hq. lra.
Qed.

(** X16.  The score is monotone in the sub-scores: when no sub-score of
    one record is above the same sub-score of another record, its score is
    not above the other's score either. *)
Theorem score_is_monotone (a b : ResumeRecord) (scores_a scores_b : Scores) :
  sub_scores a = Ok scores_a ->
  sub_scores b = Ok scores_b ->
  scores_le scores_a scores_b ->
  exists score_a feedback_a score_b feedback_b,
    calculate_score a = Ok (score_a, feedback_a)
    /\ calculate_score b = Ok (score_b, feedback_b)
    /\ score_a <= score_b.
Proof.
  intros Ha Hb Hle. unfold calculate_score. rewrite Ha, Hb. cbn [bind].
  eexists _, _, _, _. split; [reflexivity|]. split; [reflexivity|].
  apply py_round_monotone, weighted_sum_monotone, Hle.
Qed.

Lemma score_is_monotone_witness :
  exists score_a feedback_a score_b feedback_b,
    calculate_score one_metric_record = Ok (score_a, feedback_a)
    /\ calculate_score named_record = Ok (score_b, feedback_b)
    /\ score_a <= score_b.
Proof.
  eapply (score_is_monotone one_metric_record named_record).
  - vm_compute. reflexivity.
  - vm_compute. reflexivity.
  - repeat split; vm_compute; discriminate.
Defined.

(** ** Feedback *)

(** X17.  When all five sub-scores are at least 70 and the completeness is
    at least 80, the feedback holds no advice, only praise: the message for
    a well-structured resume, followed, when the quantifiable-results
    sub-score is at least 80, by the message for the achievements. *)
Theorem feedback_is_praise (scores : Scores) (resume_data : ResumeRecord) :
  all_at_least_70 scores = true ->
  80 <= completeness scores ->
  _generate_feedback scores resume_data =
  "âœ¨ Great job! Your resume is well-structured and ATS-friendly"
  :: (if 80 <=? quantifiable_results scores
      then ["ðŸŽ‰ Excellent use of quantifiable achievements!"]
      else []).
Proof.
  intros Hall Hcomp. unfold _generate_feedback. rewrite Hall.
  unfold all_at_least_70 in Hall.
  repeat (apply andb_true_iff in Hall; destruct Hall as [Hall ?]).
  unfold Qlt_bool.
  repeat match goal with
         | H : (_ <=? _) = true |- _ => apply Z.leb_le in H
         | H : Qle_bool _ _ = true |- _ => rewrite H
         end.
  rewrite (proj2 (Z.ltb_ge (format_structure scores) 70)) by lia.
  rewrite (proj2 (Z.ltb_ge (content_quality scores) 70)) by lia.
  rewrite (proj2 (Z.ltb_ge (completeness scores) 80)) by lia.
  rewrite (proj2 (Z.ltb_ge (quantifiable_results scores) 60)) by lia.
  cbn [negb andb app nonempty].
  destruct (80 <=? quantifiable_results scores); reflexivity.
Qed.

Lemma feedback_is_praise_witness :
  _generate_feedback good_scores named_record =
  "âœ¨ Great job! Your resume is well-structured and ATS-friendly"
  :: (if 80 <=? quantifiable_results good_scores
      then ["ðŸŽ‰ Excellent use of quantifiable achievements!"]
      else []).
Proof.
  apply (feedback_is_praise good_scores named_record).
  - reflexivity.
  - discriminate.
Defined.

(** ** A record with a name and skills: the floor of its score *)

Lemma sub_scores_parts (r : ResumeRecord) (scores : Scores) :
  sub_scores r = Ok scores ->
  format_structure scores = _score_format_structure r
  /\ _score_completeness r = Ok (completeness scores).
Proof.
  unfold sub_scores.
  destruct (keywords_bounds r) as (k & -> & _).
  destruct (completeness_bounds r) as (c & -> & _).
  destruct (quantifiable_results_bounds r) as (q & -> & _).
  cbn [bind]. intros [= <-]. split; reflexivity.
Qed.

Lemma format_structure_with_name (r : ResumeRecord) :
  has (default [] (personal_info r)) "name" = true ->
  20 <= _score_format_structure r.
Proof.
  intros Hname. unfold _score_format_structure. rewrite Hname. split_ifs; lia.
Qed.

Lemma completeness_with_skills (r : ResumeRecord) (v : Z) :
  _score_completeness r = Ok v ->
  skills_truthy (skills r) = true ->
  20 <= v
  /\ (has (default [] (personal_info r)) "name" = true -> 40 <= v).
Proof.
  unfold _score_completeness.
  destruct (has_entries_ok (education r)) as [b1 ->].
  destruct (has_entries_ok (experience r)) as [b2 ->].
  cbn [bind]. intros [= <-] ->. split; [split_ifs; lia|].
  intros ->. split_ifs; lia.
Qed.

Lemma py_round_at_least (n : Z) (x : Q) : (inject_Z n <= x)%Q -> n <= py_round x.
Proof.
  intros H. destruct (py_round_nearest x) as (_ & Hdown & _).
  assert (inject_Z (n - 1) < inject_Z (py_round x))%Q as Hlt.
  { replace (n - 1) with (n + -1) by lia. rewrite inject_Z_plus.
    change (inject_Z (-1)) with (-1 # 1)%Q. lra. }
  rewrite <- Zlt_Qlt in Hlt. lia.
Qed.

(** ** The text that the keyword and metric counts read *)

Lemma prefix_append (w b : string) : String.prefix w (w ++ b)%string = true.
Proof.
  induction w as [|c w IH]; [destruct b; reflexivity|].
  change (String.prefix (String c w) (String c (w ++ b)%string) = true).
  simpl. destruct (ascii_dec c c); [exact IH | contradiction].
Qed.

Lemma prefix_append_r (w v b : string) :
  String.prefix w v = true -> String.prefix w (v ++ b)%string = true.
Proof.
  revert v. induction w as [|c w IH]; intros v; [destruct (v ++ b)%string; reflexivity|].
  destruct v as [|x v]; [discriminate|].
  change (String.prefix (String c w) (String x v) = true ->
          String.prefix (String c w) (String x (v ++ b)%string) = true).
  simpl. destruct (ascii_dec c x); [apply IH | discriminate].
Qed.

(** [w in v] gives [w in a + v + b]. *)
Lemma contains_append (w a v b : string) :
  contains w v = true -> contains w (a ++ v ++ b)%string = true.
Proof.
  intros H. induction a as [|c a IH].
  - change (contains w (v ++ b)%string = true).
    induction v as [|x v IHv].
    + destruct w; [|discriminate]. rewrite contains_unfold.
      destruct b; reflexivity.
    + rewrite contains_unfold in H. apply orb_true_iff in H.
      change (contains w (String x (v ++ b)%string) = true).
      rewrite contains_unfold. apply orb_true_iff.
      destruct H as [H|H].
      * left. exact (prefix_append_r w (String x v) b H).
      * right. apply IHv, H.
  - change (contains w (String c (a ++ v ++ b)%string) = true).
    rewrite contains_unfold, IH. apply orb_true_r.
Qed.

Lemma lower_append (a b : string) : lower (a ++ b)%string = (lower a ++ lower b)%string.
Proof.
  induction a as [|c a IH]; [reflexivity|].
  change (String (lower_char c) (lower (a ++ b)%string)
          = String (lower_char c) (lower a ++ lower b)%string).
  rewrite IH. reflexivity.
Qed.

Lemma join_cons (sep x : string) (l : list string) :
  exists b, join sep (x :: l) = (x ++ b)%string
    /\ (l <> [] -> b = (sep ++ join sep l)%string).
Proof.
  destruct l as [|y l].
  - exists "". split; [symmetry; apply append_empty_r | congruence].
  - exists (sep ++ join sep (y :: l))%string. split; reflexivity.
Qed.

(** Every string of a list occurs in the joined text. *)
Lemma join_pieces (sep v : string) (l : list string) :
  In v l -> exists a b, join sep l = (a ++ v ++ b)%string.
Proof.
  induction l as [|x l IH]; [contradiction|].
  intros [<-|Hin].
  - destruct (join_cons sep x l) as (b & -> & _). exists "", b. reflexivity.
  - destruct (IH Hin) as (a & b & Hj).
    destruct (join_cons sep x l) as (b' & -> & Hb').
    rewrite Hb' by (destruct l; [contradiction | discriminate]).
    rewrite Hj. exists (x ++ sep ++ a)%string, b.
    rewrite !append_assoc. reflexivity.
Qed.

Lemma value_in_truthy_values (d : sdict) (v : string) :
  v <> "" -> value_of d v -> In v (truthy_values d).
Proof.
  intros Hv [k Hin]. unfold truthy_values. apply filter_In. split.
  - apply (in_map snd) in Hin. exact Hin.
  - apply truthy_true, Hv.
Qed.

Lemma value_in_entries (entries : list sdict) (d : sdict) (v : string) :
  v <> "" -> In d entries -> value_of d v ->
  In v (List.concat (List.map truthy_values entries)).
Proof.
  intros Hv Hd Hval. apply in_concat. exists (truthy_values d).
  split; [apply in_map, Hd | apply value_in_truthy_values; assumption].
Qed.

(** X19.  No text field is left out of the keyword count: a word that
    occurs in the lowered value of any field of the record occurs in the
    lowered text in which the scorer looks for its vocabulary. *)
Theorem keyword_in_field_is_seen (resume_data : ResumeRecord)
    (all_text v word : string) :
  _get_all_text resume_data = Ok all_text ->
  field_value resume_data v ->
  contains word (lower v) = true ->
  contains word (lower all_text) = true.
Proof.
  intros Hall (Hv & Hfield) Hword.
  assert (exists a b, all_text = (a ++ v ++ b)%string) as (a & b & ->).
  { revert Hall. unfold _get_all_text.
    destruct (default (SkillsDict []) (skills resume_data)) as [sd|ss] eqn:Esk;
      destruct (summary resume_data) as [su|] eqn:Esu; cbn [str_truthy];
      try destruct (truthy su) eqn:Esum;
      cbn [subscript bind]; intros [= <-]; apply join_pieces;
      rewrite !in_app_iff;
      (destruct Hfield as [H|[H|[H|[H|[H|[H|H]]]]]];
       [ pose proof (value_in_truthy_values _ _ Hv H)
       | first [discriminate H | injection H as ->]
       | destruct H as (d & Hd & Hval);
         pose proof (value_in_entries _ _ _ Hv Hd Hval)
       | destruct H as (d & Hd & Hval);
         pose proof (value_in_entries _ _ _ Hv Hd Hval)
       | destruct H as (d & Hsk & Hval); rewrite Hsk in Esk; cbn in Esk;
         pose proof (value_in_truthy_values _ _ Hv Hval)
       | rewrite H in Esk; cbn in Esk
       | destruct H as (d & Hd & Hval);
         pose proof (value_in_entries _ _ _ Hv Hd Hval) ]);
      try discriminate;
      try (injection Esk as <-);
      try (apply truthy_true in Hv; congruence);
      simpl; tauto. }
  rewrite !lower_append. apply contains_append, Hword.
Qed.

Lemma keyword_in_field_is_seen_witness :
  contains "roe" (lower "Jane Roe 5%") = true.
Proof.
  apply (keyword_in_field_is_seen named_record "Jane Roe 5%" "Jane Roe" "roe").
  - reflexivity.
  - split; [discriminate|]. left. exists "name". left. reflexivity.
  - reflexivity.
Defined.

(** * Further properties of the parser, continued *)

(** ** Skills: the lines that look like headers *)

Lemma contains_suffix (w pre s : string) :
  contains w s = true -> contains w (pre ++ s)%string = true.
Proof.
  intros H. rewrite <- (append_empty_r s). apply contains_append, H.
Qed.

Lemma sub_prefix_suffix (r : regex) (s : string) :
  exists pre, s = (pre ++ sub_prefix r s)%string.
Proof.
  unfold sub_prefix.
  destruct (match_here Eps r None s) as [[g1 s']|] eqn:E.
  - exists (consumed s s'). exact (match_here_splits _ _ _ _ _ _ E).
  - exists "". reflexivity.
Qed.

(** X20.  No skill that the extractor keeps mentions "skills", "technical"
    or "soft", in any letter case: a line that contains one of these words,
    as "Microsoft Office" does, is taken for a header and dropped. *)
Theorem skills_never_mention_headers (text skill header : string) :
  In skill (skill_lines text) ->
  In header ["skills"; "technical"; "soft"] ->
  contains header (lower skill) = false.
Proof.
  unfold skill_lines. intros Hin Hheader.
  apply in_map_iff in Hin. destruct Hin as (line & <- & Hline).
  apply filter_In in Hline. destruct Hline as [_ Hkeep].
  apply andb_true_iff in Hkeep. destruct Hkeep as [_ Hkeep].
  apply negb_true_iff in Hkeep.
  destruct (contains header (lower (sub_prefix bullet_prefix (strip line))))
    eqn:E; [|reflexivity].
  destruct (sub_prefix_suffix bullet_prefix (strip line)) as [pre Hpre].
  assert (contains header (lower (strip line)) = true) as Hc.
  { rewrite Hpre, lower_append. apply contains_suffix, E. }
  assert (List.existsb (fun header => contains header (lower (strip line)))
            ["skills"; "technical"; "soft"] = true) as Hex.
  { apply existsb_exists. exists header. auto. }
  congruence.
Qed.

Lemma skills_never_mention_headers_witness :
  contains "soft" (lower "Python") = false.
Proof.
  apply (skills_never_mention_headers office_skills_example "Python" "soft").
  - left. reflexivity.
  - right. right. left. reflexivity.
Defined.

(** ** Experience: the lines of one record *)

Lemma responsibilities_of_all (named : nat) (body : list string) :
  (2 <= named)%nat -> responsibilities_of named body = body.
Proof.
  intros Hn. induction body as [|line body IH]; [reflexivity|].
  cbn [responsibilities_of]. rewrite IH.
  destruct (is_bullet_line line); [reflexivity|].
  rewrite (proj2 (Nat.ltb_ge named 2) Hn). reflexivity.
Qed.

(** ** [str.strip] on ASCII text *)

Lemma lstrip_head (s : string) (c : ascii) (s' : string) :
  lstrip s = String c s' -> is_space c = false.
Proof.
  induction s as [|x s IH]; cbn [lstrip]; [discriminate|].
  destruct (is_space x) eqn:E; [exact IH|]. intros [= <- _]. exact E.
Qed.

Lemma rstrip_head (c : ascii) (s : string) :
  is_space c = false -> exists r, rstrip (String c s) = String c r.
Proof.
  intros Hc. cbn [rstrip]. destruct (rstrip s) as [|x r]; [rewrite Hc|]; eauto.
Qed.

Lemma rstrip_idempotent (s : string) : rstrip (rstrip s) = rstrip s.
Proof.
  induction s as [|c s IH]; [reflexivity|].
  cbn [rstrip]. destruct (rstrip s) as [|x r] eqn:E.
  - destruct (is_space c) eqn:Ec; [reflexivity|].
    cbn [rstrip]. rewrite Ec. reflexivity.
  - change (rstrip (String c (String x r)) = String c (String x r)).
    cbn [rstrip] in *. rewrite IH. reflexivity.
Qed.

Lemma lstrip_strip (s : string) : lstrip (strip s) = strip s.
Proof.
  unfold strip. destruct (lstrip s) as [|c u] eqn:E; [reflexivity|].
  destruct (rstrip_head c u (lstrip_head _ _ _ E)) as [r ->].
  cbn [lstrip]. rewrite (lstrip_head _ _ _ E). reflexivity.
Qed.

Lemma rstrip_strip (s : string) : rstrip (strip s) = strip s.
Proof. unfold strip. apply rstrip_idempotent. Qed.

(** [s.strip().strip() == s.strip()]. *)
Lemma strip_idempotent (s : string) : strip (strip s) = strip s.
Proof. unfold strip at 1. rewrite lstrip_strip. apply rstrip_strip. Qed.

Lemma rstrip_append_space (s : string) : rstrip (s ++ " ")%string = rstrip s.
Proof.
  induction s as [|c s IH]; [reflexivity|].
  change (rstrip (String c (s ++ " ")%string) = rstrip (String c s)).
  cbn [rstrip]. rewrite IH. reflexivity.
Qed.

(** A stripped, non-empty string followed by a space strips back to
    itself. *)
Lemma strip_append_space (s : string) :
  strip s <> "" -> strip (strip s ++ " ")%string = strip s.
Proof.
  intros Hne. unfold strip at 1.
  assert (lstrip (strip s ++ " ")%string = (strip s ++ " ")%string) as ->.
  { pose proof (lstrip_strip s) as Hl.
    destruct (strip s) as [|c u]; [contradiction|].
    change (lstrip (String c (u ++ " ")%string) = String c (u ++ " ")%string).
    cbn [lstrip] in *. destruct (is_space c); [|reflexivity].
    exfalso. assert (String.length (lstrip u) <= String.length u)%nat as Hlen.
    { clear. induction u as [|x u IH]; cbn [lstrip]; [lia|].
      destruct (is_space x); simpl; lia. }
    rewrite Hl in Hlen. simpl in Hlen. lia. }
  rewrite rstrip_append_space. apply rstrip_strip.
Qed.

(** * Further properties of the scorer, continued *)

(** ** Full marks *)

Lemma has_entries_eq (v : option (list sdict)) : has_entries v = Ok (list_truthy v).
Proof. destruct v as [[|d l]|]; reflexivity. Qed.

(** X23.  The format sub-score is 100 exactly when the name, the e-mail
    address, the phone number, a LinkedIn or GitHub link, the summary, the
    education and the experience are all present; the completeness
    sub-score is 100 exactly when the name, the summary, the education, the
    experience and the skills are all present. *)
Theorem full_marks (resume_data : ResumeRecord) :
  let personal := default [] (personal_info resume_data) in
  (_score_format_structure resume_data = 100 <->
   has personal "name" = true
   /\ has personal "email" = true
   /\ has personal "phone" = true
   /\ has personal "linkedin" || has personal "github" = true
   /\ str_truthy (summary resume_data) = true
   /\ list_truthy (education resume_data) = true
   /\ list_truthy (experience resume_data) = true)
  /\ (_score_completeness resume_data = Ok 100 <->
      has personal "name" = true
      /\ str_truthy (summary resume_data) = true
      /\ list_truthy (education resume_data) = true
      /\ list_truthy (experience resume_data) = true
      /\ skills_truthy (skills resume_data) = true).
Proof.
  intros personal. subst personal. split.
  - unfold _score_format_structure.
    destruct (has _ "name"), (has _ "email"), (has _ "phone"),
      (has _ "linkedin" || has _ "github"),
      (str_truthy (summary resume_data)), (list_truthy (education resume_data)),
      (list_truthy (experience resume_data));
      cbn; split; intros H; try discriminate H; try tauto;
      repeat split; try reflexivity;
      repeat match goal with H : _ /\ _ |- _ => destruct H end; discriminate.
  - unfold _score_completeness. rewrite !has_entries_eq. cbn [bind].
    destruct (has _ "name"), (str_truthy (summary resume_data)),
      (list_truthy (education resume_data)), (list_truthy (experience resume_data)),
      (skills_truthy (skills resume_data));
      cbn; split; intros H; try discriminate H; try tauto;
      repeat split; try reflexivity;
      repeat match goal with H : _ /\ _ |- _ => destruct H end; discriminate.
Qed.

(** ** Skills given as one string *)

(** X24.  Skills given as a plain string, not as a mapping, count for the
    completeness only: a non-empty string adds 20 to the completeness
    sub-score of the record without skills, while the content-quality
    sub-score stays that of the record without skills, and so at most
    80. *)
Theorem string_skills_count_for_completeness_only
    (resume_data : ResumeRecord) (s : string) :
  s <> "" ->
  _score_content_quality (with_skills (Some (SkillsStr s)) resume_data)
  = _score_content_quality (with_skills None resume_data)
  /\ _score_content_quality (with_skills (Some (SkillsStr s)) resume_data) <= 80
  /\ exists c,
       _score_completeness (with_skills None resume_data) = Ok c
       /\ _score_completeness (with_skills (Some (SkillsStr s)) resume_data)
          = Ok (c + 20).
Proof.
  intros Hs.
  assert (truthy s = true) as Ht by (destruct s; [contradiction|reflexivity]).
  split; [reflexivity|]. split.
  - unfold _score_content_quality, with_skills. cbn [skills default from_option id].
    simpl default. split_ifs; lia.
  - unfold _score_completeness, with_skills.
    cbn [personal_info summary education experience skills skills_truthy].
    rewrite !has_entries_eq, Ht. cbn [bind].
    eexists. split; [reflexivity|]. f_equal. split_ifs; lia.
Qed.

Lemma string_skills_count_for_completeness_only_witness :
  _score_content_quality (with_skills (Some (SkillsStr "Python, SQL")) named_record)
  = _score_content_quality (with_skills None named_record)
  /\ _score_content_quality (with_skills (Some (SkillsStr "Python, SQL")) named_record)
     <= 80
  /\ exists c,
       _score_completeness (with_skills None named_record) = Ok c
       /\ _score_completeness (with_skills (Some (SkillsStr "Python, SQL")) named_record)
          = Ok (c + 20).
Proof.
  apply (string_skills_count_for_completeness_only named_record "Python, SQL").
  discriminate.
Defined.

(** * The parser over every text library

    The properties of this part are proved for every [library]: they hold
    whatever [str.strip], [str.lower], [str.isupper] and [re] do with the
    characters of the text, inside and outside the ASCII range. *)

Local Open Scope nat_scope.

Section AnyLibrary.
Import Lib.
Variable L : library.

Lemma lib_stripped_lines_truthy (text : string) :
  Forall (fun line => truthy line = true) (stripped_lines L text).
Proof.
  unfold stripped_lines. rewrite Forall_map. apply List.Forall_forall.
  intros line Hin. apply filter_In in Hin. apply Hin.
Qed.

Lemma lib_personal_info_ok (text : string) :
  exists info, _extract_personal_info L text = Ok info
    /\ (re_findall L email_pattern false text = [] -> email info = "")
    /\ (re_findall L phone_pattern false text = [] -> phone info = "")
    /\ (stripped_lines L text = [] -> name info = "")
    /\ (re_findall L url_pattern false text = [] ->
        linkedin info = "" /\ github info = "" /\ portfolio info = "").
Proof.
  unfold _extract_personal_info.
  destruct (re_findall L email_pattern false text) as [|e es];
    destruct (re_findall L phone_pattern false text) as [|p ps];
    destruct (stripped_lines L text) as [|l ls];
    simpl; eexists; (split; [reflexivity|]); simpl;
    repeat match goal with |- _ /\ _ => split end;
    intros H; try discriminate H; try reflexivity;
    rewrite H; repeat split; reflexivity.
Qed.

Lemma lib_edu_step_ok (st : edu_state) (line : string) :
  exists st', edu_step L st line = Ok st'.
Proof.
  unfold edu_step. destruct (edu_degree L st line) as [education cur].
  unfold edu_year, edu_gpa.
  destruct (re_search L year_pattern false line),
    (re_search L gpa_pattern false line), cur as [e|];
    simpl; try destruct (negb (truthy (gpa e))); simpl; eauto.
Qed.

Lemma lib_exp_step_ok (st : exp_state) (line : string) :
  exists st', exp_step L st line = Ok st'.
Proof.
  unfold exp_step. destruct st as [experience cur].
  destruct (is_date_line L line).
  - destruct (re_findall L date_pattern true line) as [|d0 [|d1 ds]];
      simpl; eauto.
  - destruct cur as [e|]; [|eauto].
    destruct (is_bullet_line line); [eauto|].
    destruct (negb (truthy (e_title e))); [eauto|].
    destruct (negb (truthy (e_company e))); eauto.
Qed.

Lemma lib_is_new_project_ok (line : string) :
  truthy line = true -> exists b, is_new_project L line = Ok b.
Proof.
  unfold is_new_project. destruct (str_isupper L line); [eauto|].
  destruct line; [discriminate|]. simpl. eauto.
Qed.

Lemma lib_proj_step_ok (st : proj_state) (line : string) :
  truthy line = true -> exists st', proj_step L st line = Ok st'.
Proof.
  intros Hline. unfold proj_step. destruct st as [projects cur].
  destruct (lib_is_new_project_ok line Hline) as [b ->]. simpl.
  destruct b; [eauto|]. destruct cur as [p|]; [|eauto].
  destruct (is_tech_line L line); [|eauto].
  rewrite index_last_split1. simpl. eauto.
Qed.


Lemma lib_edu_scan_no_degree (lines : list string) :
  Forall (fun line => is_degree_line L line = false) lines ->
  foldM (edu_step L) lines ([], None) = Ok ([], None).
Proof.
  induction 1 as [|line lines Hline _ IH]; simpl; [reflexivity|].
  unfold edu_step, edu_degree. rewrite Hline.
  unfold edu_year, edu_gpa.
  destruct (re_search L year_pattern false line),
    (re_search L gpa_pattern false line); simpl; exact IH.
Qed.

Lemma lib_exp_scan_no_date (lines : list string) :
  Forall (fun line => is_date_line L line = false) lines ->
  foldM (exp_step L) lines ([], None) = Ok ([], None).
Proof.
  induction 1 as [|line lines Hline _ IH]; simpl; [reflexivity|].
  rewrite Hline. simpl. exact IH.
Qed.

Lemma lib_proj_scan_no_title (lines : list string) :
  Forall (fun line => is_new_project L line = Ok false) lines ->
  foldM (proj_step L) lines ([], None) = Ok ([], None).
Proof.
  induction 1 as [|line lines Hline _ IH]; simpl; [reflexivity|].
  rewrite Hline. simpl. exact IH.
Qed.

Lemma lib_education_ok (text : string) :
  exists entries, _extract_education L text = Ok entries
    /\ (text = "" -> entries = [])
    /\ (text <> "" -> entries <> [])
    /\ (text <> "" ->
        Forall (fun line => is_degree_line L line = false) (stripped_lines L text) ->
        entries = [blank_education]).
Proof.
  unfold _extract_education. destruct (truthy text) eqn:E; simpl.
  - destruct (foldM_ok (edu_step L) (fun _ => True) (fun s x _ => lib_edu_step_ok s x)
                (stripped_lines L text)) with (s := ([] : list Education, @None Education))
      as [st Hst].
    { apply List.Forall_forall. auto. }
    rewrite Hst. simpl. eexists. split; [reflexivity|].
    split; [intros ->; discriminate E|]. split.
    + intros _. apply edu_finish_nonempty.
    + intros _ Hno. rewrite (lib_edu_scan_no_degree _ Hno) in Hst.
      injection Hst as <-. reflexivity.
  - eexists. split; [reflexivity|].
    destruct text; [|discriminate]. repeat split; intros; congruence.
Qed.

Lemma lib_experience_ok (text : string) :
  exists entries, _extract_experience L text = Ok entries
    /\ (text = "" -> entries = [])
    /\ (text <> "" -> entries <> [])
    /\ (text <> "" ->
        Forall (fun line => is_date_line L line = false) (stripped_lines L text) ->
        entries = [blank_experience]).
Proof.
  unfold _extract_experience. destruct (truthy text) eqn:E; simpl.
  - destruct (foldM_ok (exp_step L) (fun _ => True) (fun s x _ => lib_exp_step_ok s x)
                (stripped_lines L text))
      with (s := ([] : list ExperienceEntry, @None ExperienceEntry))
      as [st Hst].
    { apply List.Forall_forall. auto. }
    rewrite Hst. simpl. eexists. split; [reflexivity|].
    split; [intros ->; discriminate E|]. split.
    + intros _. apply exp_finish_nonempty.
    + intros _ Hno. rewrite (lib_exp_scan_no_date _ Hno) in Hst.
      injection Hst as <-. reflexivity.
  - eexists. split; [reflexivity|].
    destruct text; [|discriminate]. repeat split; intros; congruence.
Qed.

Lemma lib_projects_ok (text : string) :
  exists entries, _extract_projects L text = Ok entries
    /\ (text = "" -> entries = [])
    /\ (text <> "" -> entries <> [])
    /\ (text <> "" ->
        Forall (fun line => is_new_project L line = Ok false) (stripped_lines L text) ->
        entries = [blank_project]).
Proof.
  unfold _extract_projects. destruct (truthy text) eqn:E; simpl.
  - destruct (foldM_ok (proj_step L) (fun line => truthy line = true)
                (fun s x H => lib_proj_step_ok s x H)
                (stripped_lines L text) (lib_stripped_lines_truthy text))
      with (s := ([] : list Project, @None Project)) as [st Hst].
    rewrite Hst. simpl. eexists. split; [reflexivity|].
    split; [intros ->; discriminate E|]. split.
    + intros _. apply proj_finish_nonempty.
    + intros _ Hno. rewrite (lib_proj_scan_no_title _ Hno) in Hst.
      injection Hst as <-. reflexivity.
  - eexists. split; [reflexivity|].
    destruct text; [|discriminate]. repeat split; intros; congruence.
Qed.

(** C7.  On every input string, and whatever the text library does, each
    of the six field extractors returns a value and raises no exception.
    Personal information: a field whose pattern finds nothing is the empty
    string.  Education, experience and projects: on the empty text the
    result is the empty list, not the placeholder record; on a non-empty
    text in which no line starts an entry, it is the one placeholder
    record.  Summary and skills, which contain no operation that can
    raise: the summary is empty or ends with a period, and it is empty on
    the empty text; the two skill strings are empty when no skill line is
    kept. *)
Theorem extractors_never_raise (text : string) :
  (exists info, _extract_personal_info L text = Ok info
     /\ (re_findall L email_pattern false text = [] -> email info = "")
     /\ (re_findall L phone_pattern false text = [] -> phone info = "")
     /\ (stripped_lines L text = [] -> name info = "")
     /\ (re_findall L url_pattern false text = [] ->
         linkedin info = "" /\ github info = "" /\ portfolio info = ""))
  /\ (exists entries, _extract_education L text = Ok entries
        /\ (text = "" -> entries = [])
        /\ (text <> "" ->
            Forall (fun line => is_degree_line L line = false) (stripped_lines L text) ->
            entries = [blank_education]))
  /\ (exists entries, _extract_experience L text = Ok entries
        /\ (text = "" -> entries = [])
        /\ (text <> "" ->
            Forall (fun line => is_date_line L line = false) (stripped_lines L text) ->
            entries = [blank_experience]))
  /\ (exists entries, _extract_projects L text = Ok entries
        /\ (text = "" -> entries = [])
        /\ (text <> "" ->
            Forall (fun line => is_new_project L line = Ok false)
              (stripped_lines L text) ->
            entries = [blank_project]))
  /\ ((text = "" -> _extract_summary L text = "")
      /\ (_extract_summary L text = ""
          \/ exists s, _extract_summary L text = (s ++ ".")%string))
  /\ (skill_lines L text = [] ->
      _extract_skills L text = {| technical := ""; soft := "" |}).
Proof.
  split; [apply lib_personal_info_ok|].
  split; [destruct (lib_education_ok text) as (l & H & H0 & _ & H'); eauto|].
  split; [destruct (lib_experience_ok text) as (l & H & H0 & _ & H'); eauto|].
  split; [destruct (lib_projects_ok text) as (l & H & H0 & _ & H'); eauto|].
  split; [split|].
  - intros ->. reflexivity.
  - unfold _extract_summary. destruct (negb (truthy text)); [left; reflexivity|].
    right. eexists. reflexivity.
  - intros Hnone. unfold _extract_skills.
    destruct (negb (truthy text)); [reflexivity|]. rewrite Hnone. reflexivity.
Qed.

(** ** Education: the graduation date *)

Lemma lib_edu_step_degree (education : list Education) (cur : option Education)
    (d : string) :
  is_degree_line L d = true ->
  exists e, edu_step L (education, cur) d = Ok (education ++ option_list cur, Some e)
    /\ degree e = d
    /\ graduation_date e = default "" (year_token L d).
Proof.
  intros Hd. unfold edu_step, edu_degree, edu_year, edu_gpa, edu_institution, year_token.
  rewrite Hd.
  assert (match cur with Some e => education ++ [e] | None => education end
          = education ++ option_list cur) as ->
      by (destruct cur; [reflexivity | rewrite app_nil_r; reflexivity]).
  destruct (re_search L year_pattern false d) as [my|],
    (re_search L gpa_pattern false d) as [mg|];
    simpl;
    repeat match goal with
           | |- context [if ?b then _ else _] => destruct b
           end;
    eexists; split; try reflexivity; split; reflexivity.
Qed.

Lemma lib_edu_step_same_entry (education : list Education) (e : Education)
    (line : string) :
  is_degree_line L line = false ->
  exists e', edu_step L (education, Some e) line = Ok (education, Some e')
    /\ degree e' = degree e
    /\ graduation_date e' = default (graduation_date e) (year_token L line).
Proof.
  intros Hl. unfold edu_step, edu_degree, edu_year, edu_gpa, edu_institution, year_token.
  rewrite Hl.
  destruct (re_search L year_pattern false line) as [my|],
    (re_search L gpa_pattern false line) as [mg|];
    simpl;
    repeat match goal with
           | |- context [if ?b then _ else _] => destruct b; simpl
           end;
    eexists; split; try reflexivity; split; reflexivity.
Qed.

Lemma lib_edu_step_no_entry (education : list Education) (line : string) :
  is_degree_line L line = false ->
  edu_step L (education, None) line = Ok (education, None).
Proof.
  intros Hl. unfold edu_step, edu_degree, edu_year, edu_gpa, edu_institution.
  rewrite Hl.
  destruct (re_search L year_pattern false line),
    (re_search L gpa_pattern false line); reflexivity.
Qed.

(** The invariant of the education scan: the entry in progress takes the
    year tokens of the lines up to the next degree line, and every later
    degree line opens the record of its block. *)
Lemma lib_edu_scan_blocks (lines : list string) :
  forall education cur,
  exists education' cur',
    foldM (edu_step L) lines (education, cur) = Ok (education', cur')
    /\ map degree (education' ++ option_list cur')
       = map degree (education ++ option_list cur)
         ++ map (hd "") (edu_blocks L lines)
    /\ map graduation_date (education' ++ option_list cur')
       = map graduation_date education
         ++ map (fun e => default (graduation_date e)
                            (last_year_token L (until_degree L lines)))
              (option_list cur)
         ++ map (fun block => default "" (last_year_token L block))
              (edu_blocks L lines).
Proof.
  induction lines as [|line lines IH]; intros education cur.
  - exists education, cur. split; [reflexivity|].
    cbn [edu_blocks until_degree last_year_token map].
    rewrite !app_nil_r, !map_app. split; [reflexivity|].
    destruct cur; reflexivity.
  - cbn [foldM edu_blocks until_degree].
    destruct (is_degree_line L line) eqn:Hline.
    + destruct (lib_edu_step_degree education cur line Hline) as (e & -> & Hd & Hg).
      cbn [bind].
      destruct (IH (education ++ option_list cur) (Some e))
        as (ed' & cur' & -> & Hdeg & Hgrad).
      exists ed', cur'. split; [reflexivity|]. split.
      * rewrite Hdeg. cbn [option_list option_rect map hd].
        rewrite !map_app. cbn [map]. rewrite Hd, <- !app_assoc. reflexivity.
      * rewrite Hgrad. cbn [option_list option_rect map last_year_token default].
        rewrite map_app, <- !app_assoc. f_equal.
        assert (map graduation_date (option_list cur)
                = map (fun e0 => default (graduation_date e0) None) (option_list cur))
          as -> by (destruct cur; reflexivity).
        f_equal. cbn [app]. f_equal. rewrite Hg.
        unfold year_token. destruct (last_year_token L (until_degree L lines));
          reflexivity.
    + destruct cur as [e|].
      * destruct (lib_edu_step_same_entry education e line Hline) as (e1 & -> & Hd & Hg).
        cbn [bind].
        destruct (IH education (Some e1)) as (ed' & cur' & -> & Hdeg & Hgrad).
        exists ed', cur'. split; [reflexivity|]. split.
        -- rewrite Hdeg. cbn [option_list option_rect]. rewrite !map_app. cbn [map].
           rewrite Hd. reflexivity.
        -- rewrite Hgrad. cbn [option_list option_rect map last_year_token]. rewrite Hg.
           f_equal. f_equal.
           destruct (last_year_token L (until_degree L lines)); reflexivity.
      * rewrite (lib_edu_step_no_entry education line Hline). cbn [bind].
        destruct (IH education None) as (ed' & cur' & -> & Hdeg & Hgrad).
        exists ed', cur'. split; [reflexivity|]. split; assumption.
Qed.

(** C5, as the code has it.  In the education scan every line with a year
    token sets the graduation date of the record in progress, overwriting
    an earlier value.  So, for every education section text with a degree
    line, the records are the blocks of the text (a degree line and the
    lines up to the next degree line), in order, and the graduation date of
    each record is the year token of the last line of its block that has
    one, and is empty when no line of the block has one. *)
Theorem graduation_date_is_last_year (text : string) :
  text <> "" ->
  edu_blocks L (stripped_lines L text) <> [] ->
  exists entries, _extract_education L text = Ok entries
    /\ map degree entries = map (hd "") (edu_blocks L (stripped_lines L text))
    /\ map graduation_date entries
       = map (fun block => default "" (last_year_token L block))
           (edu_blocks L (stripped_lines L text)).
Proof.
  intros Htext Hblocks. unfold _extract_education.
  destruct text as [|c text']; [contradiction|]. cbn [truthy negb].
  destruct (lib_edu_scan_blocks (stripped_lines L (String c text')) [] None)
    as (ed & cur & -> & Hdeg & Hgrad).
  cbn [bind]. cbn [app option_list option_rect map] in Hdeg, Hgrad.
  unfold edu_finish.
  assert (match cur with Some e => ed ++ [e] | None => ed end = ed ++ option_list cur)
    as -> by (destruct cur; [reflexivity | rewrite app_nil_r; reflexivity]).
  assert (ed ++ option_list cur <> []) as Hne.
  { intros Hnil. rewrite Hnil in Hdeg.
    destruct (edu_blocks L (stripped_lines L (String c text')));
      [contradiction | discriminate Hdeg]. }
  rewrite (proj2 (nonempty_true _) Hne).
  eexists. split; [reflexivity|]. split; assumption.
Qed.


(** ** Projects: the technologies line *)

(** C6, as the code has it.  A line containing "technologies" or
    "tech stack" that is scanned while a record is in progress, and that is
    not itself taken for a project title (it is not all upper-case, and it
    does not start with an upper-case letter unless it starts with a
    bullet), sets the record's [technologies] to the stripped text after the
    first colon of the line, or to the whole stripped line when it has no
    colon; the description and the list of finished records are unchanged,
    and the scan of the text goes on from that state, in the same record. *)
Theorem tech_line_sets_technologies
    (text : string) (before : list string) (line : string) (rest : list string)
    (projects : list Project) (p : Project) :
  stripped_lines L text = before ++ line :: rest ->
  foldM (proj_step L) before ([], None) = Ok (projects, Some p) ->
  is_tech_line L line = true ->
  is_new_project L line = Ok false ->
  foldM (proj_step L) (before ++ [line]) ([], None) =
    Ok (projects,
        Some {| p_name := p_name p;
                description := description p;
                technologies := str_strip L (default line (after_first ":" line)) |})
  /\ foldM (proj_step L) (stripped_lines L text) ([], None) =
     foldM (proj_step L) rest
       (projects,
        Some {| p_name := p_name p;
                description := description p;
                technologies := str_strip L (default line (after_first ":" line)) |}).
Proof.
  intros Hlines Hbefore Htech Hnew.
  assert (proj_step L (projects, Some p) line =
          Ok (projects,
              Some {| p_name := p_name p;
                      description := description p;
                      technologies :=
                        str_strip L (default line (after_first ":" line)) |}))
    as Hstep.
  { unfold proj_step. rewrite Hnew. cbn [bind]. rewrite Htech.
    rewrite index_last_split1. reflexivity. }
  split.
  - rewrite foldM_app, Hbefore. cbn [bind foldM]. rewrite Hstep. reflexivity.
  - rewrite Hlines, foldM_app, Hbefore. cbn [bind foldM]. rewrite Hstep.
    reflexivity.
Qed.

(** ** How many records a section gives *)

Lemma lib_exp_scan_count (lines : list string) :
  forall experience cur,
  exists experience' cur',
    foldM (exp_step L) lines (experience, cur) = Ok (experience', cur')
    /\ length experience' + in_progress cur' =
       length experience + in_progress cur + count_lines (is_date_line L) lines.
Proof.
  induction lines as [|line lines IH]; intros experience cur.
  - exists experience, cur. split; [reflexivity|]. unfold count_lines. simpl. lia.
  - destruct (lib_exp_step_ok (experience, cur) line) as [[ex1 cur1] Hstep].
    assert (length ex1 + in_progress cur1 =
            length experience + in_progress cur
            + (if is_date_line L line then 1 else 0)) as Hcount.
    { revert Hstep. unfold exp_step.
      destruct (is_date_line L line).
      - destruct (re_findall L date_pattern true line) as [|d0 [|d1 ds]];
          destruct cur as [e|]; simpl;
          intros [= <- <-]; rewrite ?length_app; simpl; lia.
      - destruct cur as [e|]; simpl;
          repeat match goal with
                 | |- context [if ?b then _ else _] => destruct b; simpl
                 end;
          intros [= <- <-]; simpl; lia. }
    destruct (IH ex1 cur1) as (ex2 & cur2 & Hscan & Hlen).
    exists ex2, cur2. split.
    + cbn [foldM]. rewrite Hstep. exact Hscan.
    + unfold count_lines in *. simpl. destruct (is_date_line L line); simpl; lia.
Qed.

Lemma lib_proj_scan_count (lines : list string) :
  Forall (fun line => truthy line = true) lines ->
  forall projects cur,
  exists projects' cur',
    foldM (proj_step L) lines (projects, cur) = Ok (projects', cur')
    /\ length projects' + in_progress cur' =
       length projects + in_progress cur + count_lines (starts_project L) lines.
Proof.
  induction 1 as [|line lines Hline _ IH]; intros projects cur.
  - exists projects, cur. split; [reflexivity|]. unfold count_lines. simpl. lia.
  - destruct (lib_proj_step_ok (projects, cur) line Hline) as [[pr1 cur1] Hstep].
    assert (length pr1 + in_progress cur1 =
            length projects + in_progress cur
            + (if starts_project L line then 1 else 0)) as Hcount.
    { revert Hstep. unfold proj_step, starts_project.
      destruct (lib_is_new_project_ok line Hline) as [b ->]. simpl.
      destruct b.
      - destruct cur as [p|]; simpl; intros [= <- <-];
          rewrite ?length_app; simpl; lia.
      - destruct cur as [p|]; simpl; [|intros [= <- <-]; simpl; lia].
        destruct (is_tech_line L line); [rewrite index_last_split1|]; simpl;
          intros [= <- <-]; simpl; lia. }
    destruct (IH pr1 cur1) as (pr2 & cur2 & Hscan & Hlen).
    exists pr2, cur2. split.
    + cbn [foldM]. rewrite Hstep. exact Hscan.
    + unfold count_lines in *. simpl. destruct (starts_project L line); simpl; lia.
Qed.

(** X2.  On a non-empty section text, the experience extractor returns one
    record for every line in which the date pattern is found, and one
    placeholder record when the text has no such line; the lines before the
    first date line belong to no record. *)
Theorem experience_record_count (text : string) :
  text <> "" ->
  exists entries,
    _extract_experience L text = Ok entries
    /\ length entries
       = Nat.max 1 (count_lines (is_date_line L) (stripped_lines L text)).
Proof.
  intros Htext. unfold _extract_experience.
  destruct text as [|c text']; [contradiction|]. cbn [truthy negb].
  destruct (lib_exp_scan_count (stripped_lines L (String c text')) [] None)
    as (ex & cur & -> & Hlen).
  cbn [bind]. eexists. split; [reflexivity|].
  simpl in Hlen. unfold exp_finish.
  destruct cur as [e|]; simpl in Hlen.
  - rewrite (proj2 (nonempty_true (map format_experience (ex ++ [e]))))
      by (destruct ex; discriminate).
    rewrite length_map, length_app. simpl. lia.
  - destruct ex as [|e ex]; simpl in *; [lia|]. rewrite length_map. lia.
Qed.

(** X3.  On a non-empty section text, the projects extractor returns one
    record for every line taken for a project title (an all upper-case
    line, or one whose first character is upper-case and that does not
    start with a bullet), and one placeholder record when the text has no
    such line. *)
Theorem projects_record_count (text : string) :
  text <> "" ->
  exists entries,
    _extract_projects L text = Ok entries
    /\ length entries
       = Nat.max 1 (count_lines (starts_project L) (stripped_lines L text)).
Proof.
  intros Htext. unfold _extract_projects.
  destruct text as [|c text']; [contradiction|]. cbn [truthy negb].
  destruct (lib_proj_scan_count (stripped_lines L (String c text'))
              (lib_stripped_lines_truthy _) [] None)
    as (pr & cur & -> & Hlen).
  cbn [bind]. eexists. split; [reflexivity|].
  simpl in Hlen. unfold proj_finish.
  destruct cur as [p|]; simpl in Hlen.
  - rewrite (proj2 (nonempty_true (pr ++ [p]))) by (destruct pr; discriminate).
    rewrite length_app. simpl. lia.
  - destruct pr as [|p pr]; simpl in *; lia.
Qed.

(** ** Education: the first GPA and the first institution *)

Lemma lib_edu_step_degree_fields (education : list Education) (d : string) :
  is_degree_line L d = true ->
  exists e, edu_step L (education, None) d = Ok (education, Some e)
    /\ degree e = d
    /\ gpa e = default "" (gpa_token L d)
    /\ institution e = "".
Proof.
  intros Hd. unfold edu_step, edu_degree, edu_year, edu_gpa, edu_institution, gpa_token.
  rewrite Hd.
  destruct (re_search L year_pattern false d) as [my|],
    (re_search L gpa_pattern false d) as [mg|];
    cbn [bind group found default degree gpa institution graduation_date
         truthy negb];
    rewrite contains_refl, andb_false_r;
    eexists; repeat split; reflexivity.
Qed.

Lemma lib_edu_step_first_wins (education : list Education) (e : Education)
    (line : string) :
  is_degree_line L line = false ->
  truthy line = true ->
  exists e', edu_step L (education, Some e) line = Ok (education, Some e')
    /\ degree e' = degree e
    /\ gpa e' = (if truthy (gpa e) then gpa e else default "" (gpa_token L line))
    /\ institution e' =
       (if truthy (institution e) then institution e
        else if institution_candidate L (degree e) line then line else "").
Proof.
  intros Hl Htr.
  unfold edu_step, edu_degree, edu_year, edu_gpa, edu_institution, gpa_token,
    institution_candidate, year_token.
  rewrite Hl.
  destruct (re_search L year_pattern false line) as [my|] eqn:Ey,
           (re_search L gpa_pattern false line) as [mg|] eqn:Eg;
    cbn [bind group found default degree gpa institution graduation_date];
    destruct (gpa e) as [|cg g] eqn:Egpa;
    cbn [truthy negb bind degree gpa institution graduation_date];
    destruct (institution e) as [|ci i] eqn:Einst;
    cbn [truthy negb andb];
    try destruct (negb (contains line (degree e)));
    eexists; repeat split; cbn [institution gpa degree]; try reflexivity;
    rewrite ?Egpa, ?Einst; reflexivity.
Qed.

Lemma lib_edu_scan_first_wins (rest : list string) :
  Forall (fun line => is_degree_line L line = false) rest ->
  Forall (fun line => truthy line = true) rest ->
  forall education e,
  exists e', foldM (edu_step L) rest (education, Some e) = Ok (education, Some e')
    /\ degree e' = degree e
    /\ gpa e' = (if truthy (gpa e) then gpa e
                 else default "" (first_gpa_token L rest))
    /\ institution e' =
       (if truthy (institution e) then institution e
        else default "" (List.find (institution_candidate L (degree e)) rest)).
Proof.
  induction 1 as [|line rest Hline _ IH]; intros Htr education e.
  - exists e. cbn. repeat split; [destruct (gpa e) | destruct (institution e)];
      reflexivity.
  - apply Forall_cons in Htr. destruct Htr as [Htl Htr].
    destruct (lib_edu_step_first_wins education e line Hline Htl)
      as (e1 & Hstep & Hd1 & Hg1 & Hi1).
    destruct (IH Htr education e1) as (e2 & Hscan & Hd2 & Hg2 & Hi2).
    exists e2. split; [cbn [foldM]; rewrite Hstep; exact Hscan|].
    split; [congruence|]. split.
    + rewrite Hg2. cbn [first_gpa_token].
      destruct (truthy (gpa e)) eqn:E; rewrite Hg1; [rewrite E; reflexivity|].
      destruct (gpa_token L line) as [g|]; simpl; [|reflexivity].
      destruct (truthy g); reflexivity.
    + rewrite Hi2, Hd1. cbn [List.find].
      destruct (truthy (institution e)) eqn:E; rewrite Hi1; [rewrite E; reflexivity|].
      destruct (institution_candidate L (degree e) line); [rewrite Htl|]; reflexivity.
Qed.

(** X4.  In an education section of one record (a degree line, then lines
    that are not degree lines), [gpa] and [institution] keep their first
    value, unlike the graduation date: the GPA is the first non-empty GPA
    token of the lines, the degree line included, and the institution is
    the first later line that has no year token and is not a part of the
    degree line; each is empty when there is no such token or line. *)
Theorem education_first_gpa_and_institution (text d : string) (rest : list string) :
  stripped_lines L text = d :: rest ->
  text <> "" ->
  is_degree_line L d = true ->
  Forall (fun line => is_degree_line L line = false) rest ->
  exists e, _extract_education L text = Ok [e]
    /\ degree e = d
    /\ gpa e = default "" (first_gpa_token L (d :: rest))
    /\ institution e = default "" (List.find (institution_candidate L d) rest).
Proof.
  intros Hlines Htext Hd Hrest. unfold _extract_education.
  pose proof (lib_stripped_lines_truthy text) as Htr. rewrite Hlines in Htr.
  apply Forall_cons in Htr. destruct Htr as [_ Htr].
  destruct text as [|c text']; [contradiction|].
  cbn [truthy negb]. rewrite Hlines. cbn [foldM].
  destruct (lib_edu_step_degree_fields [] d Hd) as (e0 & -> & Hd0 & Hg0 & Hi0).
  cbn [bind].
  destruct (lib_edu_scan_first_wins rest Hrest Htr [] e0)
    as (e1 & -> & Hd1 & Hg1 & Hi1).
  exists e1. split; [reflexivity|]. split; [congruence|]. split.
  - rewrite Hg1, Hg0. cbn [first_gpa_token].
    destruct (gpa_token L d) as [g|]; simpl; [|reflexivity].
    destruct (truthy g); reflexivity.
  - rewrite Hi1, Hi0, Hd0. reflexivity.
Qed.

(** ** Projects: one record *)

Lemma lib_starts_project_false (line : string) :
  truthy line = true -> starts_project L line = false ->
  is_new_project L line = Ok false.
Proof.
  intros Htr. unfold starts_project.
  destruct (lib_is_new_project_ok line Htr) as [b ->]. intros ->. reflexivity.
Qed.

Lemma lib_proj_scan_one_record (body : list string) :
  Forall (fun line => truthy line = true) body ->
  Forall (fun line => starts_project L line = false) body ->
  forall projects p,
  foldM (proj_step L) body (projects, Some p) =
  Ok (projects,
      Some {| p_name := p_name p;
              description := (description p ++ description_of L body)%string;
              technologies :=
                List.last (List.map (tech_value L) (List.filter (is_tech_line L) body))
                  (technologies p) |}).
Proof.
  induction 1 as [|line body Htr _ IH]; intros Hno projects p.
  - cbn. rewrite append_empty_r. destruct p; reflexivity.
  - apply Forall_cons in Hno. destruct Hno as [Hline Hno].
    cbn [foldM]. unfold proj_step at 1.
    rewrite (lib_starts_project_false line Htr Hline). cbn [bind].
    unfold description_of. cbn [List.filter].
    destruct (is_tech_line L line) eqn:Etech; cbn [negb].
    + rewrite index_last_split1. cbn [bind].
      etransitivity; [apply (IH Hno)|].
      cbn [p_name description technologies List.map].
      rewrite last_cons. reflexivity.
    + etransitivity; [apply (IH Hno)|].
      cbn [p_name description technologies List.fold_right].
      rewrite !append_assoc. reflexivity.
Qed.

(** X5.  In a projects section of one record (a title line, then lines
    that are not taken for titles), the record's name is the title line,
    its description is the other lines that are not technologies lines,
    each followed by one space, in order, and its technologies are those
    of the last technologies line (empty when there is none). *)
Theorem projects_one_record (text title : string) (body : list string) :
  stripped_lines L text = title :: body ->
  text <> "" ->
  starts_project L title = true ->
  Forall (fun line => starts_project L line = false) body ->
  _extract_projects L text =
  Ok [ {| p_name := title;
          description := description_of L body;
          technologies := last_tech L body |} ].
Proof.
  intros Hlines Htext Htitle Hbody. unfold _extract_projects.
  pose proof (lib_stripped_lines_truthy text) as Htr. rewrite Hlines in Htr.
  apply Forall_cons in Htr. destruct Htr as [Htt Htr].
  destruct text as [|c text']; [contradiction|].
  cbn [truthy negb]. rewrite Hlines. cbn [foldM].
  unfold proj_step at 1. unfold starts_project in Htitle.
  destruct (lib_is_new_project_ok title Htt) as [b Hb]. rewrite Hb in *. subst b.
  cbn [bind].
  match goal with
  | |- (let* st := ?scan in _) = _ =>
      replace scan with
        (Ok ([] : list Project,
             Some {| p_name := title; description := description_of L body;
                     technologies := last_tech L body |}))
  end; [reflexivity|].
  symmetry. etransitivity; [apply (lib_proj_scan_one_record body Htr Hbody)|].
  reflexivity.
Qed.

(** ** Skills: lines of one kind only *)

(** X6.  On a non-empty section text: when no skill line contains one of
    the eight technical keywords, the extractor reports the whole
    comma-joined skill list twice, as the technical skills and as the soft
    skills; when every skill line contains one, the list is the technical
    skills and the soft skills are empty. *)
Theorem skills_of_one_kind (text : string) :
  text <> "" ->
  (List.filter (is_technical L) (skill_lines L text) = [] ->
   technical (_extract_skills L text) = join ", " (skill_lines L text)
   /\ soft (_extract_skills L text) = join ", " (skill_lines L text))
  /\ (List.filter (fun skill => negb (is_technical L skill)) (skill_lines L text) = [] ->
      technical (_extract_skills L text) = join ", " (skill_lines L text)
      /\ soft (_extract_skills L text) = "").
Proof.
  intros Htext. destruct text as [|c text']; [contradiction|].
  unfold _extract_skills. cbn [truthy negb technical soft].
  set (ls := skill_lines L (String c text')).
  split; intros Hnone.
  - rewrite Hnone, (filter_none_negb _ _ Hnone). cbn [nonempty].
    split; [reflexivity|]. destruct ls; reflexivity.
  - rewrite Hnone, (filter_negb_none _ _ Hnone). cbn [nonempty].
    split; [|reflexivity]. destruct ls; reflexivity.
Qed.

(** ** Experience: one record *)

Section OneJob.
Variables (experience : list ExperienceEntry) (d0 d1 : string).

(** Title and company set: every line is a responsibility. *)
Lemma lib_exp_scan_named (body : list string) :
  Forall (fun line => is_date_line L line = false) body ->
  forall t c resp,
  truthy t = true -> truthy c = true ->
  foldM (exp_step L) body
    (experience,
     Some {| e_title := t; e_company := c; e_start_date := d0;
             e_end_date := d1; e_responsibilities := resp |})
  = Ok (experience,
        Some {| e_title := t; e_company := c; e_start_date := d0;
                e_end_date := d1; e_responsibilities := resp ++ body |}).
Proof.
  induction 1 as [|line body Hline _ IH]; intros t c resp Ht Hc.
  - cbn. rewrite app_nil_r. reflexivity.
  - cbn [foldM]. unfold exp_step at 1. rewrite Hline.
    cbn [e_title e_company]. rewrite Ht, Hc. cbn [negb].
    assert (forall b : bool,
              (if b
               then Ok (experience,
                        Some (add_responsibility
                                {| e_title := t; e_company := c; e_start_date := d0;
                                   e_end_date := d1; e_responsibilities := resp |}
                                line))
               else Ok (experience,
                        Some (add_responsibility
                                {| e_title := t; e_company := c; e_start_date := d0;
                                   e_end_date := d1; e_responsibilities := resp |}
                                line)))
              = Ok (experience,
                    Some {| e_title := t; e_company := c; e_start_date := d0;
                            e_end_date := d1;
                            e_responsibilities := resp ++ [line] |})) as Hboth
        by (intros []; reflexivity).
    rewrite Hboth. cbn [bind].
    etransitivity; [apply (IH t c (resp ++ [line]) Ht Hc)|].
    rewrite <- app_assoc. reflexivity.
Qed.

(** Title set, company not yet: the first plain line is the company. *)
Lemma lib_exp_scan_titled (body : list string) :
  Forall (fun line => truthy line = true) body ->
  Forall (fun line => is_date_line L line = false) body ->
  forall t resp,
  truthy t = true ->
  foldM (exp_step L) body
    (experience,
     Some {| e_title := t; e_company := ""; e_start_date := d0;
             e_end_date := d1; e_responsibilities := resp |})
  = Ok (experience,
        Some {| e_title := t; e_company := nth 0 (plain_lines body) "";
                e_start_date := d0; e_end_date := d1;
                e_responsibilities := resp ++ responsibilities_of 1 body |}).
Proof.
  induction 1 as [|line body Htr _ IH]; intros Hdates t resp Ht.
  - cbn. rewrite app_nil_r. reflexivity.
  - apply Forall_cons in Hdates. destruct Hdates as [Hline Hdates].
    cbn [foldM]. unfold exp_step at 1. rewrite Hline.
    cbn [e_title e_company]. rewrite Ht. cbn [negb truthy].
    unfold plain_lines. cbn [responsibilities_of List.filter].
    destruct (is_bullet_line line); cbn [negb bind Nat.ltb Nat.leb].
    + etransitivity; [apply (IH Hdates t (resp ++ [line]) Ht)|].
      rewrite <- app_assoc. reflexivity.
    + etransitivity; [apply (lib_exp_scan_named body Hdates t line resp Ht Htr)|].
      rewrite responsibilities_of_all by lia. reflexivity.
Qed.

(** Neither set: the first plain line is the title, the second the
    company. *)
Lemma lib_exp_scan_fresh (body : list string) :
  Forall (fun line => truthy line = true) body ->
  Forall (fun line => is_date_line L line = false) body ->
  forall resp,
  foldM (exp_step L) body
    (experience,
     Some {| e_title := ""; e_company := ""; e_start_date := d0;
             e_end_date := d1; e_responsibilities := resp |})
  = Ok (experience,
        Some {| e_title := nth 0 (plain_lines body) "";
                e_company := nth 1 (plain_lines body) "";
                e_start_date := d0; e_end_date := d1;
                e_responsibilities := resp ++ responsibilities_of 0 body |}).
Proof.
  induction 1 as [|line body Htr Htrs IH]; intros Hdates resp.
  - cbn. rewrite app_nil_r. reflexivity.
  - apply Forall_cons in Hdates. destruct Hdates as [Hline Hdates].
    cbn [foldM]. unfold exp_step at 1. rewrite Hline.
    cbn [e_title e_company negb truthy].
    unfold plain_lines. cbn [responsibilities_of List.filter].
    destruct (is_bullet_line line); cbn [negb bind Nat.ltb Nat.leb].
    + etransitivity; [apply (IH Hdates (resp ++ [line]))|].
      rewrite <- app_assoc. reflexivity.
    + etransitivity; [apply (lib_exp_scan_titled body Htrs Hdates line resp Htr)|].
      reflexivity.
Qed.
End OneJob.

(** X21.  In an experience section of one record (a date line, then lines
    without a date), the first line that is not a bullet is the title and
    the second the company; the responsibilities are the bullets and the
    other lines from the third on, in order, joined by newlines.  The start
    date is the first text that [re.findall] returns for the date line
    (the text of the pattern's group, a month name), and the end date the
    second, or "Present" when there is only one. *)
Theorem experience_one_record (text d : string) (body : list string) :
  stripped_lines L text = d :: body ->
  text <> "" ->
  is_date_line L d = true ->
  Forall (fun line => is_date_line L line = false) body ->
  _extract_experience L text =
  Ok [ {| title := nth 0 (plain_lines body) "";
          company := nth 1 (plain_lines body) "";
          start_date := nth 0 (re_findall L date_pattern true d) "";
          end_date :=
            (if (1 <? length (re_findall L date_pattern true d))%nat
             then nth 1 (re_findall L date_pattern true d) ""
             else "Present");
          responsibilities := join "
" (responsibilities_of 0 body) |} ].
Proof.
  intros Hlines Htext Hd Hbody. unfold _extract_experience.
  pose proof (lib_stripped_lines_truthy text) as Htr. rewrite Hlines in Htr.
  apply Forall_cons in Htr. destruct Htr as [_ Htr].
  destruct text as [|c text']; [contradiction|].
  cbn [truthy negb]. rewrite Hlines. cbn [foldM].
  unfold exp_step at 1. rewrite Hd.
  set (dates := re_findall L date_pattern true d).
  assert ((if nonempty dates then index dates 0 else Ok "") = Ok (nth 0 dates ""))
    as -> by (destruct dates; reflexivity).
  assert ((if (1 <? length dates)%nat then index dates 1 else Ok "Present")
          = Ok (if (1 <? length dates)%nat then nth 1 dates "" else "Present"))
    as -> by (destruct dates as [|x [|y l]]; reflexivity).
  cbn [bind].
  match goal with
  | |- (let* st := ?scan in _) = _ =>
      assert (scan =
              Ok ([] : list ExperienceEntry,
                  Some {| e_title := nth 0 (plain_lines body) "";
                          e_company := nth 1 (plain_lines body) "";
                          e_start_date := nth 0 dates "";
                          e_end_date :=
                            (if (1 <? length dates)%nat then nth 1 dates ""
                             else "Present");
                          e_responsibilities := [] ++ responsibilities_of 0 body |}))
        as ->
  end.
  { apply (lib_exp_scan_fresh [] _ _ body Htr Hbody []). }
  reflexivity.
Qed.

(** ** Summary: one sentence *)

(** X22.  A summary of one sentence gets a period appended, whether or not
    it already ends with one: when the stripped section text has no period,
    or one period, at its end, the summary is the stripped text followed by
    a period.  This rests on two facts about [str.strip]: stripping a
    stripped text changes nothing, and a stripped, non-empty text followed
    by one space strips back to itself. *)
Theorem summary_of_one_sentence (text sentence : string) :
  (forall s, str_strip L (str_strip L s) = str_strip L s) ->
  (forall s, str_strip L s <> "" ->
             str_strip L (str_strip L s ++ " ") = str_strip L s) ->
  text <> "" ->
  has_char "." sentence = false ->
  str_strip L text = sentence \/ str_strip L text = (sentence ++ ".")%string ->
  _extract_summary L text = (str_strip L text ++ ".")%string.
Proof.
  intros Hidem Hspace Htext Hdot Hshape. unfold _extract_summary.
  destruct text as [|c text']; [contradiction|]. cbn [truthy negb].
  set (t := String c text') in *.
  destruct Hshape as [Hs|Hs].
  - rewrite Hs, (split_without_sep _ _ Hdot). cbn [firstn join String.concat].
    rewrite <- Hs, Hidem. reflexivity.
  - assert (split "." (str_strip L t) = [sentence; ""]) as ->.
    { rewrite Hs. change (sentence ++ ".")%string with (sentence ++ String "." "")%string.
      rewrite split_app_sep, (split_without_sep _ _ Hdot). reflexivity. }
    cbn [firstn join String.concat].
    assert ((sentence ++ ". " ++ "")%string = (str_strip L t ++ " ")%string) as ->.
    { rewrite Hs, append_assoc. reflexivity. }
    rewrite Hspace; [reflexivity|].
    rewrite Hs. destruct sentence; discriminate.
Qed.

(** ** From the parser to the scorer *)

Local Open Scope Z_scope.

Lemma lib_parsed_name_truthy (text : string) (info : PersonalInfo) :
  _extract_personal_info L text = Ok info ->
  stripped_lines L text <> [] ->
  truthy (name info) = true.
Proof.
  unfold _extract_personal_info. intros H Hlines.
  pose proof (lib_stripped_lines_truthy text) as Htr.
  destruct (if nonempty (re_findall L email_pattern false text) then _ else _) as [e|];
    [|discriminate]; cbn [bind] in H.
  destruct (if nonempty (re_findall L phone_pattern false text) then _ else _) as [ph|];
    [|discriminate]; cbn [bind] in H.
  destruct (stripped_lines L text) as [|l ls]; [contradiction|].
  cbn in H. injection H as <-. cbn [name].
  apply Forall_cons in Htr. apply Htr.
Qed.

Lemma lib_parse_text_personal_info (text : string) (r : ParsedResume) :
  _parse_text L text = Ok r ->
  _extract_personal_info L text = Ok (r_personal_info r).
Proof.
  unfold _parse_text.
  destruct (_extract_personal_info L text) as [info|]; [|discriminate]. cbn [bind].
  destruct (_extract_education L _) as [ed|]; [|discriminate]. cbn [bind].
  destruct (_extract_experience L _) as [ex|]; [|discriminate]. cbn [bind].
  destruct (_extract_projects L _) as [pr|]; [|discriminate]. cbn [bind].
  intros [= <-]. reflexivity.
Qed.

(** Parsing never fails, and the record keeps the text. *)
Lemma lib_parse_text_ok (text : string) :
  exists r, _parse_text L text = Ok r /\ raw_text r = text.
Proof.
  unfold _parse_text.
  destruct (lib_personal_info_ok text) as (info & -> & _). cbn [bind].
  destruct (lib_education_ok (section (_split_into_sections L text) "education"))
    as (ed & -> & _). cbn [bind].
  destruct (lib_experience_ok (section (_split_into_sections L text) "experience"))
    as (ex & -> & _). cbn [bind].
  destruct (lib_projects_ok (section (_split_into_sections L text) "projects"))
    as (pr & -> & _). cbn [bind].
  eexists. split; reflexivity.
Qed.

(** X18.  Scoring what the parser returns never fails, and the score has a
    floor: parsing returns a record, whose skills mapping is never an empty
    mapping, so the completeness sub-score is at least 20 and the score at
    least 4; when the text has a line that is not blank, its first one is
    the name, and the score is at least 12. *)
Theorem parsed_resume_score_floor (text : string) :
  exists r score feedback,
    _parse_text L text = Ok r
    /\ calculate_score (to_record r) = Ok (score, feedback)
    /\ 4 <= score
    /\ (stripped_lines L text <> [] -> 12 <= score).
Proof.
  destruct (lib_parse_text_ok text) as (r & Hparse & _).
  exists r.
  destruct (sub_scores_bounds (to_record r))
    as (scores & Hs & Hf & Hk & Hc & Hp & Hq).
  unfold calculate_score. rewrite Hs. cbn [bind].
  eexists _, _. split; [exact Hparse|]. split; [reflexivity|].
  destruct (sub_scores_parts _ _ Hs) as (Hformat & Hcompl).
  destruct (completeness_with_skills _ _ Hcompl eq_refl) as (Hc20 & Hc40).
  apply inject_Z_bounds in Hf, Hc, Hq.
  split.
  - apply py_round_at_least. unfold weighted_sum.
    rewrite Zle_Qle in Hc20. change (inject_Z 20) with 20%Q in Hc20.
    change (inject_Z 4) with 4%Q. lra.
  - intros Hlines.
    pose proof (lib_parsed_name_truthy text _
                  (lib_parse_text_personal_info _ _ Hparse) Hlines) as Hname.
    assert (has (default [] (personal_info (to_record r))) "name" = true) as Hhas
        by exact Hname.
    pose proof (format_structure_with_name _ Hhas) as Hf20. rewrite <- Hformat in Hf20.
    specialize (Hc40 Hhas).
    apply py_round_at_least. unfold weighted_sum.
    rewrite Zle_Qle in Hf20, Hc40.
    change (inject_Z 20) with 20%Q in Hf20. change (inject_Z 40) with 40%Q in Hc40.
    change (inject_Z 12) with 12%Q. lra.
Qed.

End AnyLibrary.

(** ** The library on ASCII text gives the parser of [ResumeParser] *)

Lemma foldM_ext {A S : Type} (f g : S -> A -> result S) (l : list A) (s : S) :
  (forall s x, f s x = g s x) -> foldM f l s = foldM g l s.
Proof.
  intros Hfg. revert s. induction l as [|x l IH]; intros s; [reflexivity|].
  cbn [foldM]. rewrite Hfg. destruct (g s x); cbn [bind]; auto.
Qed.

Lemma ascii_search_whole (line : string) :
  Lib.re_search Lib.ascii_lib Lib.year_pattern false line
  = option_map group0 (search year_pattern line)
  /\ Lib.re_search Lib.ascii_lib Lib.gpa_pattern false line
     = option_map group0 (search gpa_pattern line).
Proof. split; reflexivity. Qed.

Lemma ascii_is_degree_line (line : string) :
  Lib.is_degree_line Lib.ascii_lib line = is_degree_line line.
Proof.
  unfold Lib.is_degree_line, is_degree_line, matches, search.
  cbn [List.existsb Lib.degree_patterns degree_patterns].
  change (Lib.re_search Lib.ascii_lib
            "(Bachelor|Master|Ph\.?D|B\.?S\.?|M\.?S\.?|B\.?A\.?|M\.?A\.?).*" true line)
    with (option_map group0 (search2 Eps (nth 0 degree_patterns Eps) line)).
  change (Lib.re_search Lib.ascii_lib "(B\.Tech|M\.Tech|B\.E\.|M\.E\.)" true line)
    with (option_map group0 (search2 Eps (nth 1 degree_patterns Eps) line)).
  cbn [nth degree_patterns].
  repeat match goal with
         | |- context [search2 Eps ?r line] => destruct (search2 Eps r line)
         end; reflexivity.
Qed.

Lemma ascii_edu_step (st : edu_state) (line : string) :
  Lib.edu_step Lib.ascii_lib st line = edu_step st line.
Proof.
  unfold Lib.edu_step, edu_step, Lib.edu_degree, edu_degree.
  destruct st as [education cur]. rewrite ascii_is_degree_line.
  destruct (is_degree_line line);
    unfold Lib.edu_year, edu_year, Lib.edu_gpa, edu_gpa,
      Lib.edu_institution, edu_institution, matches;
    destruct (ascii_search_whole line) as [-> ->];
    destruct (search year_pattern line), (search gpa_pattern line), cur as [e|];
    cbn; try destruct (truthy (gpa e)); reflexivity.
Qed.

Lemma ascii_is_date_line (line : string) :
  Lib.is_date_line Lib.ascii_lib line = is_date_line line.
Proof.
  unfold Lib.is_date_line, is_date_line.
  change (Lib.re_search Lib.ascii_lib Lib.date_pattern true line)
    with (option_map group0 (search2 month_group date_rest line)).
  destruct (search2 month_group date_rest line); reflexivity.
Qed.

Lemma ascii_exp_step (st : exp_state) (line : string) :
  Lib.exp_step Lib.ascii_lib st line = exp_step st line.
Proof.
  unfold Lib.exp_step, exp_step. destruct st as [experience cur].
  rewrite ascii_is_date_line. reflexivity.
Qed.

Lemma continuation_uncased (s : string) :
  has_upper (Lib.continuation s) = false /\ has_lower (Lib.continuation s) = false.
Proof.
  induction s as [|c s [IHu IHl]]; [split; reflexivity|].
  cbn [Lib.continuation]. destruct (Lib.is_continuation c) eqn:E; [|split; reflexivity].
  cbn [has_upper has_lower]. rewrite IHu, IHl.
  unfold Lib.is_continuation in E. apply andb_true_iff in E. destruct E as [E1 E2].
  apply Nat.leb_le in E1. apply Nat.ltb_lt in E2.
  unfold is_upper, is_lower.
  split; rewrite orb_false_r; apply andb_false_iff; right; apply Nat.leb_gt; lia.
Qed.

Lemma ascii_is_new_project (line : string) :
  Lib.is_new_project Lib.ascii_lib line = is_new_project line.
Proof.
  unfold Lib.is_new_project, is_new_project. cbn [Lib.str_isupper Lib.ascii_lib].
  destruct (isupper line); [reflexivity|].
  destruct line as [|c s]; [reflexivity|].
  cbn [Lib.item0 first_char bind]. f_equal. f_equal.
  unfold isupper. cbn [has_upper has_lower].
  destruct (continuation_uncased s) as [-> ->]. rewrite !orb_false_r.
  unfold is_upper, is_lower.
  destruct (65 <=? code c)%nat eqn:E1, (code c <=? 90)%nat eqn:E2; cbn [andb];
    try reflexivity.
  apply Nat.leb_le in E2.
  assert ((97 <=? code c)%nat = false) as -> by (apply Nat.leb_gt; lia).
  reflexivity.
Qed.

Lemma ascii_proj_step (st : proj_state) (line : string) :
  Lib.proj_step Lib.ascii_lib st line = proj_step st line.
Proof.
  unfold Lib.proj_step, proj_step. destruct st as [projects cur].
  rewrite ascii_is_new_project. reflexivity.
Qed.

(** On the ASCII library the parser over a library is the parser of
    [ResumeParser], function by function. *)
Lemma ascii_lib_parser (text : string) :
  Lib.stripped_lines Lib.ascii_lib text = stripped_lines text
  /\ Lib._extract_personal_info Lib.ascii_lib text = _extract_personal_info text
  /\ Lib._split_into_sections Lib.ascii_lib text = _split_into_sections text
  /\ Lib._extract_summary Lib.ascii_lib text = _extract_summary text
  /\ Lib._extract_education Lib.ascii_lib text = _extract_education text
  /\ Lib._extract_experience Lib.ascii_lib text = _extract_experience text
  /\ Lib.skill_lines Lib.ascii_lib text = skill_lines text
  /\ Lib._extract_skills Lib.ascii_lib text = _extract_skills text
  /\ Lib._extract_projects Lib.ascii_lib text = _extract_projects text.
Proof.
  split; [reflexivity|]. split; [reflexivity|]. split; [reflexivity|].
  split; [reflexivity|].
  split.
  { unfold Lib._extract_education, _extract_education.
    destruct (negb (truthy text)); [reflexivity|].
    rewrite (foldM_ext _ _ _ _ ascii_edu_step). reflexivity. }
  split.
  { unfold Lib._extract_experience, _extract_experience.
    destruct (negb (truthy text)); [reflexivity|].
    rewrite (foldM_ext _ _ _ _ ascii_exp_step). reflexivity. }
  split; [reflexivity|]. split; [reflexivity|].
  unfold Lib._extract_projects, _extract_projects.
  destruct (negb (truthy text)); [reflexivity|].
  rewrite (foldM_ext _ _ _ _ ascii_proj_step). reflexivity.
Qed.

Lemma ascii_lib_parse_text (text : string) :
  Lib._parse_text Lib.ascii_lib text = _parse_text text.
Proof.
  unfold Lib._parse_text, _parse_text.
  destruct (ascii_lib_parser text) as (_ & -> & -> & _).
  destruct (_extract_personal_info text); [|reflexivity]. cbn [bind].
  destruct (ascii_lib_parser (section (_split_into_sections text) "education"))
    as (_ & _ & _ & _ & -> & _).
  destruct (_extract_education _); [|reflexivity]. cbn [bind].
  destruct (ascii_lib_parser (section (_split_into_sections text) "experience"))
    as (_ & _ & _ & _ & _ & -> & _).
  destruct (_extract_experience _); [|reflexivity]. cbn [bind].
  destruct (ascii_lib_parser (section (_split_into_sections text) "projects"))
    as (_ & _ & _ & _ & _ & _ & _ & _ & ->).
  destruct (_extract_projects _); [|reflexivity]. cbn [bind].
  destruct (ascii_lib_parser (section (_split_into_sections text) "skills"))
    as (_ & _ & _ & _ & _ & _ & _ & -> & _).
  destruct (ascii_lib_parser (section (_split_into_sections text) "summary"))
    as (_ & _ & _ & -> & _).
  reflexivity.
Qed.

(** ** The properties on the ASCII library, at example texts *)

Lemma graduation_date_is_last_year_witness :
  exists entries,
    Lib._extract_education Lib.ascii_lib two_degrees_example = Ok entries
    /\ map degree entries = ["B.S. Computer Science"; "M.S. Physics"]
    /\ map graduation_date entries = ["2018"; "2021"].
Proof.
  apply (graduation_date_is_last_year Lib.ascii_lib two_degrees_example).
  - discriminate.
  - vm_compute. discriminate.
Defined.

Lemma tech_line_sets_technologies_witness :
  foldM (Lib.proj_step Lib.ascii_lib) (["My Project"] ++ ["- Tech stack: Rust, Go"])
    ([], None) =
    Ok ([],
        Some {| p_name := "My Project"; description := "";
                technologies := "Rust, Go" |})
  /\ foldM (Lib.proj_step Lib.ascii_lib)
       (Lib.stripped_lines Lib.ascii_lib bullet_tech_example) ([], None) =
     foldM (Lib.proj_step Lib.ascii_lib) ["- fast"]
       ([],
        Some {| p_name := "My Project"; description := "";
                technologies := "Rust, Go" |}).
Proof.
  apply (tech_line_sets_technologies Lib.ascii_lib bullet_tech_example
           ["My Project"] "- Tech stack: Rust, Go" ["- fast"] []
           {| p_name := "My Project"; description := ""; technologies := "" |}).
  - reflexivity.
  - reflexivity.
  - reflexivity.
  - reflexivity.
Defined.

Lemma experience_record_count_witness :
  exists entries,
    Lib._extract_experience Lib.ascii_lib experience_example = Ok entries
    /\ length entries = 2.
Proof.
  apply (experience_record_count Lib.ascii_lib experience_example). discriminate.
Defined.

Lemma projects_record_count_witness :
  exists entries,
    Lib._extract_projects Lib.ascii_lib capital_tech_example = Ok entries
    /\ length entries = 2.
Proof.
  apply (projects_record_count Lib.ascii_lib capital_tech_example). discriminate.
Defined.

Lemma education_first_gpa_and_institution_witness :
  exists e, Lib._extract_education Lib.ascii_lib education_example = Ok [e]
    /\ degree e = "B.S. Computer Science"
    /\ gpa e = "3.8/4.0"
    /\ institution e = "MIT".
Proof.
  apply (education_first_gpa_and_institution Lib.ascii_lib education_example
           "B.S. Computer Science" ["MIT"; "2016"; "GPA 3.8/4.0"; "2020"]).
  - reflexivity.
  - discriminate.
  - reflexivity.
  - repeat constructor.
Defined.

Lemma projects_one_record_witness :
  Lib._extract_projects Lib.ascii_lib project_example =
  Ok [ {| p_name := "Resume Builder";
          description := "- parses resumes - scores them ";
          technologies := "Python, Streamlit" |} ].
Proof.
  apply (projects_one_record Lib.ascii_lib project_example "Resume Builder"
           [ "- parses resumes"; "- tech stack: Python"; "- scores them";
             "- technologies: Python, Streamlit" ]).
  - reflexivity.
  - discriminate.
  - reflexivity.
  - repeat constructor.
Defined.

Lemma skills_of_one_kind_witness :
  technical (Lib._extract_skills Lib.ascii_lib soft_skills_example)
  = "Teamwork, Leadership"
  /\ soft (Lib._extract_skills Lib.ascii_lib soft_skills_example)
     = "Teamwork, Leadership".
Proof.
  apply (skills_of_one_kind Lib.ascii_lib soft_skills_example).
  - discriminate.
  - reflexivity.
Defined.

Lemma experience_one_record_witness :
  Lib._extract_experience Lib.ascii_lib one_job_example =
  Ok [ {| title := "Engineer";
          company := "Acme";
          start_date := "March";
          end_date := "June";
          responsibilities := "- Joined as intern
Promoted in 2020
* Led a team" |} ].
Proof.
  apply (experience_one_record Lib.ascii_lib one_job_example "March 2019 - June 2021"
           [ "- Joined as intern"; "Engineer"; "Acme"; "Promoted in 2020";
             "* Led a team" ]).
  - reflexivity.
  - discriminate.
  - reflexivity.
  - repeat constructor.
Defined.

Lemma summary_of_one_sentence_witness :
  Lib._extract_summary Lib.ascii_lib "  Seasoned engineer.
" = "Seasoned engineer..".
Proof.
  apply (summary_of_one_sentence Lib.ascii_lib "  Seasoned engineer.
" "Seasoned engineer").
  - exact strip_idempotent.
  - exact strip_append_space.
  - discriminate.
  - reflexivity.
  - right. reflexivity.
Defined.
